(** * lazyls: the application-state store, the viewport/cursor engine,
      the overlay handlers and the directory scanner

    A shallow embedding of [state.go], of the handlers of [handlers.go] that
    drive the action menu and the content viewer, and of [calculateStats]
    from [core.go], followed by the properties the specification states
    about them. *)

From Stdlib Require Import ZArith Lia Bool String Ascii List DecimalString.
From stdpp Require Import base list strings.

Local Open Scope string_scope.
Local Open Scope list_scope.
Local Open Scope Z_scope.

(** ** Go's [int] and [int64]

    On the platforms the program targets both are 64-bit two's complement
    integers, and arithmetic wraps around silently. *)

Module GoInt.

Definition min_int : Z := - 2 ^ 63.
Definition max_int : Z := 2 ^ 63 - 1.

Definition in_range (z : Z) : Prop := min_int <= z <= max_int.

Definition wrap (z : Z) : Z := (z + 2 ^ 63) mod 2 ^ 64 - 2 ^ 63.

Definition add (a b : Z) : Z := wrap (a + b).
Definition sub (a b : Z) : Z := wrap (a - b).
(** Go's [/] truncates toward zero. *)
Definition div (a b : Z) : Z := wrap (Z.quot a b).

(** [len(l)] of a slice. *)
Definition len {A : Type} (l : list A) : Z := Z.of_nat (length l).

(** [len(s)] of a string: its number of bytes. *)
Definition slen (s : string) : Z := Z.of_nat (String.length s).

End GoInt.

Import GoInt.

(** ** Entities of [state.go] *)

(** A Go [error] is observed through its message; [nil] is [None]. *)
Definition error : Type := string.

Record FileInfo : Type := mkFileInfo {
  Name : string;
  Path : string;
  IsDir : bool;
  Size : Z;
  Icon : string
}.

(** The zero value [FileInfo{}]. *)
Definition FileInfo_zero : FileInfo := mkFileInfo "" "" false 0 "".

(** The functions an [ActionMenuItem] can carry.  The source stores a
    function pointer; the program only ever stores these five. *)
Inductive Action : Type :=
| copyFullPathFn
| copyRelativePathFn
| viewFileContentActionFn
| copyContentFn
| cancelFn.

Record ActionMenuItem : Type := mkActionMenuItem {
  Label : string;
  ActionFn : option Action
}.

Record AppState : Type := mkAppState {
  cwd : string;
  visibleFiles : list FileInfo;
  visibleDirs : list FileInfo;
  hiddenFiles : list FileInfo;
  hiddenDirs : list FileInfo;
  showHidden : bool;
  (* stats *)
  totalSize : Z;
  largestFile : FileInfo;
  gitStatus : string;
  isLoadingStats : bool;
  statsError : option error;
  (* one origin and one cursor per list *)
  visibleFoldersOriginY : Z;
  visibleFilesOriginY : Z;
  hiddenFoldersOriginY : Z;
  hiddenFilesOriginY : Z;
  visibleFoldersCursorY : Z;
  visibleFilesCursorY : Z;
  hiddenFoldersCursorY : Z;
  hiddenFilesCursorY : Z;
  (* action menu *)
  isActionMenuVisible : bool;
  actionMenuItemTarget : FileInfo;
  actionMenuOptions : list ActionMenuItem;
  actionMenuSelectedIdx : Z;
  previousFocusView : string;
  (* file content view *)
  isFileContentViewVisible : bool;
  fileContentViewFileName : string;
  fileContentViewContent : string;
  fileContentViewTotalLines : Z;
  fileContentViewOriginY : Z;
  fileContentViewPrevFocus : string;
  (* help, confirm delete, message bar *)
  helpVisible : bool;
  confirmDeleteVisible : bool;
  itemToDelete : option FileInfo;
  lastMessage : string
}.

(** View names, from [ui.go]. *)
Definition viewFolders : string := "folders".
Definition viewFiles : string := "files".
Definition viewActionMenu : string := "actionMenu".
Definition viewFileContent : string := "fileContent".

Definition NewAppState (dir : string) : AppState :=
  {| cwd := dir; visibleFiles := []; visibleDirs := [];
     hiddenFiles := []; hiddenDirs := []; showHidden := false;
     totalSize := -1; largestFile := FileInfo_zero;
     gitStatus := "Checking..."; isLoadingStats := true;
     statsError := None;
     visibleFoldersOriginY := 0; visibleFilesOriginY := 0;
     hiddenFoldersOriginY := 0; hiddenFilesOriginY := 0;
     visibleFoldersCursorY := 0; visibleFilesCursorY := 0;
     hiddenFoldersCursorY := 0; hiddenFilesCursorY := 0;
     isActionMenuVisible := false; actionMenuItemTarget := FileInfo_zero;
     actionMenuOptions := []; actionMenuSelectedIdx := 0;
     previousFocusView := "";
     isFileContentViewVisible := false; fileContentViewFileName := "";
     fileContentViewContent := ""; fileContentViewTotalLines := 0;
     fileContentViewOriginY := 0; fileContentViewPrevFocus := "";
     helpVisible := false; confirmDeleteVisible := false;
     itemToDelete := None; lastMessage := "" |}.

(** ** Field assignment

    [set_f v s] is the state after the assignment [s.f = v]. *)

Definition set_visibleFiles (v : list FileInfo) (s : AppState) : AppState :=
  mkAppState (cwd s) v (visibleDirs s) (hiddenFiles s) (hiddenDirs s)
    (showHidden s) (totalSize s) (largestFile s) (gitStatus s)
    (isLoadingStats s) (statsError s) (visibleFoldersOriginY s)
    (visibleFilesOriginY s) (hiddenFoldersOriginY s) (hiddenFilesOriginY s)
    (visibleFoldersCursorY s) (visibleFilesCursorY s) (hiddenFoldersCursorY
    s) (hiddenFilesCursorY s) (isActionMenuVisible s) (actionMenuItemTarget
    s) (actionMenuOptions s) (actionMenuSelectedIdx s) (previousFocusView s)
    (isFileContentViewVisible s) (fileContentViewFileName s)
    (fileContentViewContent s) (fileContentViewTotalLines s)
    (fileContentViewOriginY s) (fileContentViewPrevFocus s) (helpVisible s)
    (confirmDeleteVisible s) (itemToDelete s) (lastMessage s).

Definition set_visibleDirs (v : list FileInfo) (s : AppState) : AppState :=
  mkAppState (cwd s) (visibleFiles s) v (hiddenFiles s) (hiddenDirs s)
    (showHidden s) (totalSize s) (largestFile s) (gitStatus s)
    (isLoadingStats s) (statsError s) (visibleFoldersOriginY s)
    (visibleFilesOriginY s) (hiddenFoldersOriginY s) (hiddenFilesOriginY s)
    (visibleFoldersCursorY s) (visibleFilesCursorY s) (hiddenFoldersCursorY
    s) (hiddenFilesCursorY s) (isActionMenuVisible s) (actionMenuItemTarget
    s) (actionMenuOptions s) (actionMenuSelectedIdx s) (previousFocusView s)
    (isFileContentViewVisible s) (fileContentViewFileName s)
    (fileContentViewContent s) (fileContentViewTotalLines s)
    (fileContentViewOriginY s) (fileContentViewPrevFocus s) (helpVisible s)
    (confirmDeleteVisible s) (itemToDelete s) (lastMessage s).

Definition set_hiddenFiles (v : list FileInfo) (s : AppState) : AppState :=
  mkAppState (cwd s) (visibleFiles s) (visibleDirs s) v (hiddenDirs s)
    (showHidden s) (totalSize s) (largestFile s) (gitStatus s)
    (isLoadingStats s) (statsError s) (visibleFoldersOriginY s)
    (visibleFilesOriginY s) (hiddenFoldersOriginY s) (hiddenFilesOriginY s)
    (visibleFoldersCursorY s) (visibleFilesCursorY s) (hiddenFoldersCursorY
    s) (hiddenFilesCursorY s) (isActionMenuVisible s) (actionMenuItemTarget
    s) (actionMenuOptions s) (actionMenuSelectedIdx s) (previousFocusView s)
    (isFileContentViewVisible s) (fileContentViewFileName s)
    (fileContentViewContent s) (fileContentViewTotalLines s)
    (fileContentViewOriginY s) (fileContentViewPrevFocus s) (helpVisible s)
    (confirmDeleteVisible s) (itemToDelete s) (lastMessage s).

Definition set_hiddenDirs (v : list FileInfo) (s : AppState) : AppState :=
  mkAppState (cwd s) (visibleFiles s) (visibleDirs s) (hiddenFiles s) v
    (showHidden s) (totalSize s) (largestFile s) (gitStatus s)
    (isLoadingStats s) (statsError s) (visibleFoldersOriginY s)
    (visibleFilesOriginY s) (hiddenFoldersOriginY s) (hiddenFilesOriginY s)
    (visibleFoldersCursorY s) (visibleFilesCursorY s) (hiddenFoldersCursorY
    s) (hiddenFilesCursorY s) (isActionMenuVisible s) (actionMenuItemTarget
    s) (actionMenuOptions s) (actionMenuSelectedIdx s) (previousFocusView s)
    (isFileContentViewVisible s) (fileContentViewFileName s)
    (fileContentViewContent s) (fileContentViewTotalLines s)
    (fileContentViewOriginY s) (fileContentViewPrevFocus s) (helpVisible s)
    (confirmDeleteVisible s) (itemToDelete s) (lastMessage s).

Definition set_showHidden (v : bool) (s : AppState) : AppState :=
  mkAppState (cwd s) (visibleFiles s) (visibleDirs s) (hiddenFiles s)
    (hiddenDirs s) v (totalSize s) (largestFile s) (gitStatus s)
    (isLoadingStats s) (statsError s) (visibleFoldersOriginY s)
    (visibleFilesOriginY s) (hiddenFoldersOriginY s) (hiddenFilesOriginY s)
    (visibleFoldersCursorY s) (visibleFilesCursorY s) (hiddenFoldersCursorY
    s) (hiddenFilesCursorY s) (isActionMenuVisible s) (actionMenuItemTarget
    s) (actionMenuOptions s) (actionMenuSelectedIdx s) (previousFocusView s)
    (isFileContentViewVisible s) (fileContentViewFileName s)
    (fileContentViewContent s) (fileContentViewTotalLines s)
    (fileContentViewOriginY s) (fileContentViewPrevFocus s) (helpVisible s)
    (confirmDeleteVisible s) (itemToDelete s) (lastMessage s).

Definition set_totalSize (v : Z) (s : AppState) : AppState :=
  mkAppState (cwd s) (visibleFiles s) (visibleDirs s) (hiddenFiles s)
    (hiddenDirs s) (showHidden s) v (largestFile s) (gitStatus s)
    (isLoadingStats s) (statsError s) (visibleFoldersOriginY s)
    (visibleFilesOriginY s) (hiddenFoldersOriginY s) (hiddenFilesOriginY s)
    (visibleFoldersCursorY s) (visibleFilesCursorY s) (hiddenFoldersCursorY
    s) (hiddenFilesCursorY s) (isActionMenuVisible s) (actionMenuItemTarget
    s) (actionMenuOptions s) (actionMenuSelectedIdx s) (previousFocusView s)
    (isFileContentViewVisible s) (fileContentViewFileName s)
    (fileContentViewContent s) (fileContentViewTotalLines s)
    (fileContentViewOriginY s) (fileContentViewPrevFocus s) (helpVisible s)
    (confirmDeleteVisible s) (itemToDelete s) (lastMessage s).

Definition set_largestFile (v : FileInfo) (s : AppState) : AppState :=
  mkAppState (cwd s) (visibleFiles s) (visibleDirs s) (hiddenFiles s)
    (hiddenDirs s) (showHidden s) (totalSize s) v (gitStatus s)
    (isLoadingStats s) (statsError s) (visibleFoldersOriginY s)
    (visibleFilesOriginY s) (hiddenFoldersOriginY s) (hiddenFilesOriginY s)
    (visibleFoldersCursorY s) (visibleFilesCursorY s) (hiddenFoldersCursorY
    s) (hiddenFilesCursorY s) (isActionMenuVisible s) (actionMenuItemTarget
    s) (actionMenuOptions s) (actionMenuSelectedIdx s) (previousFocusView s)
    (isFileContentViewVisible s) (fileContentViewFileName s)
    (fileContentViewContent s) (fileContentViewTotalLines s)
    (fileContentViewOriginY s) (fileContentViewPrevFocus s) (helpVisible s)
    (confirmDeleteVisible s) (itemToDelete s) (lastMessage s).

Definition set_gitStatus (v : string) (s : AppState) : AppState :=
  mkAppState (cwd s) (visibleFiles s) (visibleDirs s) (hiddenFiles s)
    (hiddenDirs s) (showHidden s) (totalSize s) (largestFile s) v
    (isLoadingStats s) (statsError s) (visibleFoldersOriginY s)
    (visibleFilesOriginY s) (hiddenFoldersOriginY s) (hiddenFilesOriginY s)
    (visibleFoldersCursorY s) (visibleFilesCursorY s) (hiddenFoldersCursorY
    s) (hiddenFilesCursorY s) (isActionMenuVisible s) (actionMenuItemTarget
    s) (actionMenuOptions s) (actionMenuSelectedIdx s) (previousFocusView s)
    (isFileContentViewVisible s) (fileContentViewFileName s)
    (fileContentViewContent s) (fileContentViewTotalLines s)
    (fileContentViewOriginY s) (fileContentViewPrevFocus s) (helpVisible s)
    (confirmDeleteVisible s) (itemToDelete s) (lastMessage s).

Definition set_isLoadingStats (v : bool) (s : AppState) : AppState :=
  mkAppState (cwd s) (visibleFiles s) (visibleDirs s) (hiddenFiles s)
    (hiddenDirs s) (showHidden s) (totalSize s) (largestFile s) (gitStatus
    s) v (statsError s) (visibleFoldersOriginY s) (visibleFilesOriginY s)
    (hiddenFoldersOriginY s) (hiddenFilesOriginY s) (visibleFoldersCursorY
    s) (visibleFilesCursorY s) (hiddenFoldersCursorY s) (hiddenFilesCursorY
    s) (isActionMenuVisible s) (actionMenuItemTarget s) (actionMenuOptions
    s) (actionMenuSelectedIdx s) (previousFocusView s)
    (isFileContentViewVisible s) (fileContentViewFileName s)
    (fileContentViewContent s) (fileContentViewTotalLines s)
    (fileContentViewOriginY s) (fileContentViewPrevFocus s) (helpVisible s)
    (confirmDeleteVisible s) (itemToDelete s) (lastMessage s).

Definition set_statsError (v : option error) (s : AppState) : AppState :=
  mkAppState (cwd s) (visibleFiles s) (visibleDirs s) (hiddenFiles s)
    (hiddenDirs s) (showHidden s) (totalSize s) (largestFile s) (gitStatus
    s) (isLoadingStats s) v (visibleFoldersOriginY s) (visibleFilesOriginY
    s) (hiddenFoldersOriginY s) (hiddenFilesOriginY s)
    (visibleFoldersCursorY s) (visibleFilesCursorY s) (hiddenFoldersCursorY
    s) (hiddenFilesCursorY s) (isActionMenuVisible s) (actionMenuItemTarget
    s) (actionMenuOptions s) (actionMenuSelectedIdx s) (previousFocusView s)
    (isFileContentViewVisible s) (fileContentViewFileName s)
    (fileContentViewContent s) (fileContentViewTotalLines s)
    (fileContentViewOriginY s) (fileContentViewPrevFocus s) (helpVisible s)
    (confirmDeleteVisible s) (itemToDelete s) (lastMessage s).

Definition set_visibleFoldersOriginY (v : Z) (s : AppState) : AppState :=
  mkAppState (cwd s) (visibleFiles s) (visibleDirs s) (hiddenFiles s)
    (hiddenDirs s) (showHidden s) (totalSize s) (largestFile s) (gitStatus
    s) (isLoadingStats s) (statsError s) v (visibleFilesOriginY s)
    (hiddenFoldersOriginY s) (hiddenFilesOriginY s) (visibleFoldersCursorY
    s) (visibleFilesCursorY s) (hiddenFoldersCursorY s) (hiddenFilesCursorY
    s) (isActionMenuVisible s) (actionMenuItemTarget s) (actionMenuOptions
    s) (actionMenuSelectedIdx s) (previousFocusView s)
    (isFileContentViewVisible s) (fileContentViewFileName s)
    (fileContentViewContent s) (fileContentViewTotalLines s)
    (fileContentViewOriginY s) (fileContentViewPrevFocus s) (helpVisible s)
    (confirmDeleteVisible s) (itemToDelete s) (lastMessage s).

Definition set_visibleFilesOriginY (v : Z) (s : AppState) : AppState :=
  mkAppState (cwd s) (visibleFiles s) (visibleDirs s) (hiddenFiles s)
    (hiddenDirs s) (showHidden s) (totalSize s) (largestFile s) (gitStatus
    s) (isLoadingStats s) (statsError s) (visibleFoldersOriginY s) v
    (hiddenFoldersOriginY s) (hiddenFilesOriginY s) (visibleFoldersCursorY
    s) (visibleFilesCursorY s) (hiddenFoldersCursorY s) (hiddenFilesCursorY
    s) (isActionMenuVisible s) (actionMenuItemTarget s) (actionMenuOptions
    s) (actionMenuSelectedIdx s) (previousFocusView s)
    (isFileContentViewVisible s) (fileContentViewFileName s)
    (fileContentViewContent s) (fileContentViewTotalLines s)
    (fileContentViewOriginY s) (fileContentViewPrevFocus s) (helpVisible s)
    (confirmDeleteVisible s) (itemToDelete s) (lastMessage s).

Definition set_hiddenFoldersOriginY (v : Z) (s : AppState) : AppState :=
  mkAppState (cwd s) (visibleFiles s) (visibleDirs s) (hiddenFiles s)
    (hiddenDirs s) (showHidden s) (totalSize s) (largestFile s) (gitStatus
    s) (isLoadingStats s) (statsError s) (visibleFoldersOriginY s)
    (visibleFilesOriginY s) v (hiddenFilesOriginY s) (visibleFoldersCursorY
    s) (visibleFilesCursorY s) (hiddenFoldersCursorY s) (hiddenFilesCursorY
    s) (isActionMenuVisible s) (actionMenuItemTarget s) (actionMenuOptions
    s) (actionMenuSelectedIdx s) (previousFocusView s)
    (isFileContentViewVisible s) (fileContentViewFileName s)
    (fileContentViewContent s) (fileContentViewTotalLines s)
    (fileContentViewOriginY s) (fileContentViewPrevFocus s) (helpVisible s)
    (confirmDeleteVisible s) (itemToDelete s) (lastMessage s).

Definition set_hiddenFilesOriginY (v : Z) (s : AppState) : AppState :=
  mkAppState (cwd s) (visibleFiles s) (visibleDirs s) (hiddenFiles s)
    (hiddenDirs s) (showHidden s) (totalSize s) (largestFile s) (gitStatus
    s) (isLoadingStats s) (statsError s) (visibleFoldersOriginY s)
    (visibleFilesOriginY s) (hiddenFoldersOriginY s) v
    (visibleFoldersCursorY s) (visibleFilesCursorY s) (hiddenFoldersCursorY
    s) (hiddenFilesCursorY s) (isActionMenuVisible s) (actionMenuItemTarget
    s) (actionMenuOptions s) (actionMenuSelectedIdx s) (previousFocusView s)
    (isFileContentViewVisible s) (fileContentViewFileName s)
    (fileContentViewContent s) (fileContentViewTotalLines s)
    (fileContentViewOriginY s) (fileContentViewPrevFocus s) (helpVisible s)
    (confirmDeleteVisible s) (itemToDelete s) (lastMessage s).

Definition set_visibleFoldersCursorY (v : Z) (s : AppState) : AppState :=
  mkAppState (cwd s) (visibleFiles s) (visibleDirs s) (hiddenFiles s)
    (hiddenDirs s) (showHidden s) (totalSize s) (largestFile s) (gitStatus
    s) (isLoadingStats s) (statsError s) (visibleFoldersOriginY s)
    (visibleFilesOriginY s) (hiddenFoldersOriginY s) (hiddenFilesOriginY s)
    v (visibleFilesCursorY s) (hiddenFoldersCursorY s) (hiddenFilesCursorY
    s) (isActionMenuVisible s) (actionMenuItemTarget s) (actionMenuOptions
    s) (actionMenuSelectedIdx s) (previousFocusView s)
    (isFileContentViewVisible s) (fileContentViewFileName s)
    (fileContentViewContent s) (fileContentViewTotalLines s)
    (fileContentViewOriginY s) (fileContentViewPrevFocus s) (helpVisible s)
    (confirmDeleteVisible s) (itemToDelete s) (lastMessage s).

Definition set_visibleFilesCursorY (v : Z) (s : AppState) : AppState :=
  mkAppState (cwd s) (visibleFiles s) (visibleDirs s) (hiddenFiles s)
    (hiddenDirs s) (showHidden s) (totalSize s) (largestFile s) (gitStatus
    s) (isLoadingStats s) (statsError s) (visibleFoldersOriginY s)
    (visibleFilesOriginY s) (hiddenFoldersOriginY s) (hiddenFilesOriginY s)
    (visibleFoldersCursorY s) v (hiddenFoldersCursorY s) (hiddenFilesCursorY
    s) (isActionMenuVisible s) (actionMenuItemTarget s) (actionMenuOptions
    s) (actionMenuSelectedIdx s) (previousFocusView s)
    (isFileContentViewVisible s) (fileContentViewFileName s)
    (fileContentViewContent s) (fileContentViewTotalLines s)
    (fileContentViewOriginY s) (fileContentViewPrevFocus s) (helpVisible s)
    (confirmDeleteVisible s) (itemToDelete s) (lastMessage s).

Definition set_hiddenFoldersCursorY (v : Z) (s : AppState) : AppState :=
  mkAppState (cwd s) (visibleFiles s) (visibleDirs s) (hiddenFiles s)
    (hiddenDirs s) (showHidden s) (totalSize s) (largestFile s) (gitStatus
    s) (isLoadingStats s) (statsError s) (visibleFoldersOriginY s)
    (visibleFilesOriginY s) (hiddenFoldersOriginY s) (hiddenFilesOriginY s)
    (visibleFoldersCursorY s) (visibleFilesCursorY s) v (hiddenFilesCursorY
    s) (isActionMenuVisible s) (actionMenuItemTarget s) (actionMenuOptions
    s) (actionMenuSelectedIdx s) (previousFocusView s)
    (isFileContentViewVisible s) (fileContentViewFileName s)
    (fileContentViewContent s) (fileContentViewTotalLines s)
    (fileContentViewOriginY s) (fileContentViewPrevFocus s) (helpVisible s)
    (confirmDeleteVisible s) (itemToDelete s) (lastMessage s).

Definition set_hiddenFilesCursorY (v : Z) (s : AppState) : AppState :=
  mkAppState (cwd s) (visibleFiles s) (visibleDirs s) (hiddenFiles s)
    (hiddenDirs s) (showHidden s) (totalSize s) (largestFile s) (gitStatus
    s) (isLoadingStats s) (statsError s) (visibleFoldersOriginY s)
    (visibleFilesOriginY s) (hiddenFoldersOriginY s) (hiddenFilesOriginY s)
    (visibleFoldersCursorY s) (visibleFilesCursorY s) (hiddenFoldersCursorY
    s) v (isActionMenuVisible s) (actionMenuItemTarget s) (actionMenuOptions
    s) (actionMenuSelectedIdx s) (previousFocusView s)
    (isFileContentViewVisible s) (fileContentViewFileName s)
    (fileContentViewContent s) (fileContentViewTotalLines s)
    (fileContentViewOriginY s) (fileContentViewPrevFocus s) (helpVisible s)
    (confirmDeleteVisible s) (itemToDelete s) (lastMessage s).

Definition set_isActionMenuVisible (v : bool) (s : AppState) : AppState :=
  mkAppState (cwd s) (visibleFiles s) (visibleDirs s) (hiddenFiles s)
    (hiddenDirs s) (showHidden s) (totalSize s) (largestFile s) (gitStatus
    s) (isLoadingStats s) (statsError s) (visibleFoldersOriginY s)
    (visibleFilesOriginY s) (hiddenFoldersOriginY s) (hiddenFilesOriginY s)
    (visibleFoldersCursorY s) (visibleFilesCursorY s) (hiddenFoldersCursorY
    s) (hiddenFilesCursorY s) v (actionMenuItemTarget s) (actionMenuOptions
    s) (actionMenuSelectedIdx s) (previousFocusView s)
    (isFileContentViewVisible s) (fileContentViewFileName s)
    (fileContentViewContent s) (fileContentViewTotalLines s)
    (fileContentViewOriginY s) (fileContentViewPrevFocus s) (helpVisible s)
    (confirmDeleteVisible s) (itemToDelete s) (lastMessage s).

Definition set_actionMenuItemTarget (v : FileInfo) (s : AppState) : AppState :=
  mkAppState (cwd s) (visibleFiles s) (visibleDirs s) (hiddenFiles s)
    (hiddenDirs s) (showHidden s) (totalSize s) (largestFile s) (gitStatus
    s) (isLoadingStats s) (statsError s) (visibleFoldersOriginY s)
    (visibleFilesOriginY s) (hiddenFoldersOriginY s) (hiddenFilesOriginY s)
    (visibleFoldersCursorY s) (visibleFilesCursorY s) (hiddenFoldersCursorY
    s) (hiddenFilesCursorY s) (isActionMenuVisible s) v (actionMenuOptions
    s) (actionMenuSelectedIdx s) (previousFocusView s)
    (isFileContentViewVisible s) (fileContentViewFileName s)
    (fileContentViewContent s) (fileContentViewTotalLines s)
    (fileContentViewOriginY s) (fileContentViewPrevFocus s) (helpVisible s)
    (confirmDeleteVisible s) (itemToDelete s) (lastMessage s).

Definition set_actionMenuOptions (v : list ActionMenuItem) (s : AppState) : AppState :=
  mkAppState (cwd s) (visibleFiles s) (visibleDirs s) (hiddenFiles s)
    (hiddenDirs s) (showHidden s) (totalSize s) (largestFile s) (gitStatus
    s) (isLoadingStats s) (statsError s) (visibleFoldersOriginY s)
    (visibleFilesOriginY s) (hiddenFoldersOriginY s) (hiddenFilesOriginY s)
    (visibleFoldersCursorY s) (visibleFilesCursorY s) (hiddenFoldersCursorY
    s) (hiddenFilesCursorY s) (isActionMenuVisible s) (actionMenuItemTarget
    s) v (actionMenuSelectedIdx s) (previousFocusView s)
    (isFileContentViewVisible s) (fileContentViewFileName s)
    (fileContentViewContent s) (fileContentViewTotalLines s)
    (fileContentViewOriginY s) (fileContentViewPrevFocus s) (helpVisible s)
    (confirmDeleteVisible s) (itemToDelete s) (lastMessage s).

Definition set_actionMenuSelectedIdx (v : Z) (s : AppState) : AppState :=
  mkAppState (cwd s) (visibleFiles s) (visibleDirs s) (hiddenFiles s)
    (hiddenDirs s) (showHidden s) (totalSize s) (largestFile s) (gitStatus
    s) (isLoadingStats s) (statsError s) (visibleFoldersOriginY s)
    (visibleFilesOriginY s) (hiddenFoldersOriginY s) (hiddenFilesOriginY s)
    (visibleFoldersCursorY s) (visibleFilesCursorY s) (hiddenFoldersCursorY
    s) (hiddenFilesCursorY s) (isActionMenuVisible s) (actionMenuItemTarget
    s) (actionMenuOptions s) v (previousFocusView s)
    (isFileContentViewVisible s) (fileContentViewFileName s)
    (fileContentViewContent s) (fileContentViewTotalLines s)
    (fileContentViewOriginY s) (fileContentViewPrevFocus s) (helpVisible s)
    (confirmDeleteVisible s) (itemToDelete s) (lastMessage s).

Definition set_previousFocusView (v : string) (s : AppState) : AppState :=
  mkAppState (cwd s) (visibleFiles s) (visibleDirs s) (hiddenFiles s)
    (hiddenDirs s) (showHidden s) (totalSize s) (largestFile s) (gitStatus
    s) (isLoadingStats s) (statsError s) (visibleFoldersOriginY s)
    (visibleFilesOriginY s) (hiddenFoldersOriginY s) (hiddenFilesOriginY s)
    (visibleFoldersCursorY s) (visibleFilesCursorY s) (hiddenFoldersCursorY
    s) (hiddenFilesCursorY s) (isActionMenuVisible s) (actionMenuItemTarget
    s) (actionMenuOptions s) (actionMenuSelectedIdx s) v
    (isFileContentViewVisible s) (fileContentViewFileName s)
    (fileContentViewContent s) (fileContentViewTotalLines s)
    (fileContentViewOriginY s) (fileContentViewPrevFocus s) (helpVisible s)
    (confirmDeleteVisible s) (itemToDelete s) (lastMessage s).

Definition set_isFileContentViewVisible (v : bool) (s : AppState) : AppState :=
  mkAppState (cwd s) (visibleFiles s) (visibleDirs s) (hiddenFiles s)
    (hiddenDirs s) (showHidden s) (totalSize s) (largestFile s) (gitStatus
    s) (isLoadingStats s) (statsError s) (visibleFoldersOriginY s)
    (visibleFilesOriginY s) (hiddenFoldersOriginY s) (hiddenFilesOriginY s)
    (visibleFoldersCursorY s) (visibleFilesCursorY s) (hiddenFoldersCursorY
    s) (hiddenFilesCursorY s) (isActionMenuVisible s) (actionMenuItemTarget
    s) (actionMenuOptions s) (actionMenuSelectedIdx s) (previousFocusView s)
    v (fileContentViewFileName s) (fileContentViewContent s)
    (fileContentViewTotalLines s) (fileContentViewOriginY s)
    (fileContentViewPrevFocus s) (helpVisible s) (confirmDeleteVisible s)
    (itemToDelete s) (lastMessage s).

Definition set_fileContentViewFileName (v : string) (s : AppState) : AppState :=
  mkAppState (cwd s) (visibleFiles s) (visibleDirs s) (hiddenFiles s)
    (hiddenDirs s) (showHidden s) (totalSize s) (largestFile s) (gitStatus
    s) (isLoadingStats s) (statsError s) (visibleFoldersOriginY s)
    (visibleFilesOriginY s) (hiddenFoldersOriginY s) (hiddenFilesOriginY s)
    (visibleFoldersCursorY s) (visibleFilesCursorY s) (hiddenFoldersCursorY
    s) (hiddenFilesCursorY s) (isActionMenuVisible s) (actionMenuItemTarget
    s) (actionMenuOptions s) (actionMenuSelectedIdx s) (previousFocusView s)
    (isFileContentViewVisible s) v (fileContentViewContent s)
    (fileContentViewTotalLines s) (fileContentViewOriginY s)
    (fileContentViewPrevFocus s) (helpVisible s) (confirmDeleteVisible s)
    (itemToDelete s) (lastMessage s).

Definition set_fileContentViewContent (v : string) (s : AppState) : AppState :=
  mkAppState (cwd s) (visibleFiles s) (visibleDirs s) (hiddenFiles s)
    (hiddenDirs s) (showHidden s) (totalSize s) (largestFile s) (gitStatus
    s) (isLoadingStats s) (statsError s) (visibleFoldersOriginY s)
    (visibleFilesOriginY s) (hiddenFoldersOriginY s) (hiddenFilesOriginY s)
    (visibleFoldersCursorY s) (visibleFilesCursorY s) (hiddenFoldersCursorY
    s) (hiddenFilesCursorY s) (isActionMenuVisible s) (actionMenuItemTarget
    s) (actionMenuOptions s) (actionMenuSelectedIdx s) (previousFocusView s)
    (isFileContentViewVisible s) (fileContentViewFileName s) v
    (fileContentViewTotalLines s) (fileContentViewOriginY s)
    (fileContentViewPrevFocus s) (helpVisible s) (confirmDeleteVisible s)
    (itemToDelete s) (lastMessage s).

Definition set_fileContentViewTotalLines (v : Z) (s : AppState) : AppState :=
  mkAppState (cwd s) (visibleFiles s) (visibleDirs s) (hiddenFiles s)
    (hiddenDirs s) (showHidden s) (totalSize s) (largestFile s) (gitStatus
    s) (isLoadingStats s) (statsError s) (visibleFoldersOriginY s)
    (visibleFilesOriginY s) (hiddenFoldersOriginY s) (hiddenFilesOriginY s)
    (visibleFoldersCursorY s) (visibleFilesCursorY s) (hiddenFoldersCursorY
    s) (hiddenFilesCursorY s) (isActionMenuVisible s) (actionMenuItemTarget
    s) (actionMenuOptions s) (actionMenuSelectedIdx s) (previousFocusView s)
    (isFileContentViewVisible s) (fileContentViewFileName s)
    (fileContentViewContent s) v (fileContentViewOriginY s)
    (fileContentViewPrevFocus s) (helpVisible s) (confirmDeleteVisible s)
    (itemToDelete s) (lastMessage s).

Definition set_fileContentViewOriginY (v : Z) (s : AppState) : AppState :=
  mkAppState (cwd s) (visibleFiles s) (visibleDirs s) (hiddenFiles s)
    (hiddenDirs s) (showHidden s) (totalSize s) (largestFile s) (gitStatus
    s) (isLoadingStats s) (statsError s) (visibleFoldersOriginY s)
    (visibleFilesOriginY s) (hiddenFoldersOriginY s) (hiddenFilesOriginY s)
    (visibleFoldersCursorY s) (visibleFilesCursorY s) (hiddenFoldersCursorY
    s) (hiddenFilesCursorY s) (isActionMenuVisible s) (actionMenuItemTarget
    s) (actionMenuOptions s) (actionMenuSelectedIdx s) (previousFocusView s)
    (isFileContentViewVisible s) (fileContentViewFileName s)
    (fileContentViewContent s) (fileContentViewTotalLines s) v
    (fileContentViewPrevFocus s) (helpVisible s) (confirmDeleteVisible s)
    (itemToDelete s) (lastMessage s).

Definition set_fileContentViewPrevFocus (v : string) (s : AppState) : AppState :=
  mkAppState (cwd s) (visibleFiles s) (visibleDirs s) (hiddenFiles s)
    (hiddenDirs s) (showHidden s) (totalSize s) (largestFile s) (gitStatus
    s) (isLoadingStats s) (statsError s) (visibleFoldersOriginY s)
    (visibleFilesOriginY s) (hiddenFoldersOriginY s) (hiddenFilesOriginY s)
    (visibleFoldersCursorY s) (visibleFilesCursorY s) (hiddenFoldersCursorY
    s) (hiddenFilesCursorY s) (isActionMenuVisible s) (actionMenuItemTarget
    s) (actionMenuOptions s) (actionMenuSelectedIdx s) (previousFocusView s)
    (isFileContentViewVisible s) (fileContentViewFileName s)
    (fileContentViewContent s) (fileContentViewTotalLines s)
    (fileContentViewOriginY s) v (helpVisible s) (confirmDeleteVisible s)
    (itemToDelete s) (lastMessage s).

Definition set_lastMessage (v : string) (s : AppState) : AppState :=
  mkAppState (cwd s) (visibleFiles s) (visibleDirs s) (hiddenFiles s)
    (hiddenDirs s) (showHidden s) (totalSize s) (largestFile s) (gitStatus
    s) (isLoadingStats s) (statsError s) (visibleFoldersOriginY s)
    (visibleFilesOriginY s) (hiddenFoldersOriginY s) (hiddenFilesOriginY s)
    (visibleFoldersCursorY s) (visibleFilesCursorY s) (hiddenFoldersCursorY
    s) (hiddenFilesCursorY s) (isActionMenuVisible s) (actionMenuItemTarget
    s) (actionMenuOptions s) (actionMenuSelectedIdx s) (previousFocusView s)
    (isFileContentViewVisible s) (fileContentViewFileName s)
    (fileContentViewContent s) (fileContentViewTotalLines s)
    (fileContentViewOriginY s) (fileContentViewPrevFocus s) (helpVisible s)
    (confirmDeleteVisible s) (itemToDelete s) v.

(** ** State modification methods of [state.go]

    Every method takes the lock for its whole body, so each is one atomic
    transition of the state. *)

Definition reset_scrolls (s : AppState) : AppState :=
  set_hiddenFilesCursorY 0 (set_hiddenFoldersCursorY 0
  (set_visibleFilesCursorY 0 (set_visibleFoldersCursorY 0
  (set_hiddenFilesOriginY 0 (set_hiddenFoldersOriginY 0
  (set_visibleFilesOriginY 0 (set_visibleFoldersOriginY 0 s))))))).

Definition SetDirectoryContents
    (vDirs vFiles hDirs hFiles : list FileInfo) (s : AppState) : AppState :=
  reset_scrolls
    (set_hiddenFiles hFiles (set_hiddenDirs hDirs
    (set_visibleFiles vFiles (set_visibleDirs vDirs s)))).

Definition ToggleHidden (s : AppState) : AppState * bool :=
  let s := set_showHidden (negb (showHidden s)) s in
  let s := reset_scrolls s in
  (s, showHidden s).

Definition SetStatsLoading (s : AppState) : AppState :=
  set_statsError None (set_largestFile FileInfo_zero (set_totalSize (-1)
  (set_gitStatus "Calculating..." (set_isLoadingStats true s)))).

Definition SetStatsResults (total : Z) (largest : FileInfo) (git : string)
    (err : option error) (s : AppState) : AppState :=
  let s := set_totalSize total s in
  let s := set_largestFile largest s in
  let s := set_gitStatus git s in
  let s := set_isLoadingStats false s in
  let s := set_statsError err s in
  if bool_decide (err <> None) && negb (totalSize s =? -2)
  then set_totalSize (-2) s
  else s.

Definition SetMessage (msg : string) (s : AppState) : AppState :=
  set_lastMessage msg s.

Definition ClearMessage (s : AppState) : AppState :=
  set_lastMessage "" s.

(** *** List view scrolling and cursor movement *)

(** The pair of pointers [pOriginY], [pCursorY] (and the list that goes
    with them) that the [switch] on the view name and [showHidden] picks. *)
Inductive Slot : Type :=
| VisibleFolders | VisibleFiles | HiddenFolders | HiddenFiles.

Definition selectSlot (viewName : string) (isHidden : bool) : option Slot :=
  if String.eqb viewName viewFolders then
    Some (if isHidden then HiddenFolders else VisibleFolders)
  else if String.eqb viewName viewFiles then
    Some (if isHidden then HiddenFiles else VisibleFiles)
  else None.

Definition slotList (p : Slot) (s : AppState) : list FileInfo :=
  match p with
  | VisibleFolders => visibleDirs s
  | VisibleFiles => visibleFiles s
  | HiddenFolders => hiddenDirs s
  | HiddenFiles => hiddenFiles s
  end.

Definition getOriginY (p : Slot) (s : AppState) : Z :=
  match p with
  | VisibleFolders => visibleFoldersOriginY s
  | VisibleFiles => visibleFilesOriginY s
  | HiddenFolders => hiddenFoldersOriginY s
  | HiddenFiles => hiddenFilesOriginY s
  end.

Definition getCursorY (p : Slot) (s : AppState) : Z :=
  match p with
  | VisibleFolders => visibleFoldersCursorY s
  | VisibleFiles => visibleFilesCursorY s
  | HiddenFolders => hiddenFoldersCursorY s
  | HiddenFiles => hiddenFilesCursorY s
  end.

Definition setOriginY (p : Slot) (v : Z) (s : AppState) : AppState :=
  match p with
  | VisibleFolders => set_visibleFoldersOriginY v s
  | VisibleFiles => set_visibleFilesOriginY v s
  | HiddenFolders => set_hiddenFoldersOriginY v s
  | HiddenFiles => set_hiddenFilesOriginY v s
  end.

Definition setCursorY (p : Slot) (v : Z) (s : AppState) : AppState :=
  match p with
  | VisibleFolders => set_visibleFoldersCursorY v s
  | VisibleFiles => set_visibleFilesCursorY v s
  | HiddenFolders => set_hiddenFoldersCursorY v s
  | HiddenFiles => set_hiddenFilesCursorY v s
  end.

Definition moveCursorAndOrigin (viewName : string) (delta viewHeight : Z)
    (s : AppState) : AppState * bool :=
  match selectSlot viewName (showHidden s) with
  | None => (s, false) (* invalid view name *)
  | Some p =>
    let listLen := len (slotList p s) in
    if listLen <=? 0 then
      let changed := negb (getOriginY p s =? 0) || negb (getCursorY p s =? 0) in
      (setCursorY p 0 (setOriginY p 0 s), changed)
    else
      let oldOriginY := getOriginY p s in
      let oldCursorY := getCursorY p s in
      (* 1. new cursor position *)
      let newCursorY := add oldCursorY delta in
      let newCursorY := if newCursorY <? 0 then 0 else newCursorY in
      let newCursorY :=
        if newCursorY >=? listLen then sub listLen 1 else newCursorY in
      (* 2. new origin from the cursor position *)
      let newOriginY := oldOriginY in
      let newOriginY :=
        if newCursorY <? newOriginY then newCursorY
        else if newCursorY >=? add newOriginY viewHeight
             then add (sub newCursorY viewHeight) 1
             else newOriginY in
      (* 3. validate and clamp the origin *)
      let maxOriginY := sub listLen viewHeight in
      let maxOriginY := if maxOriginY <? 0 then 0 else maxOriginY in
      let newOriginY :=
        if newOriginY >? maxOriginY then maxOriginY else newOriginY in
      let newOriginY := if newOriginY <? 0 then 0 else newOriginY in
      (* 4. update the state if changed *)
      let changed :=
        negb (oldCursorY =? newCursorY) || negb (oldOriginY =? newOriginY) in
      if changed
      then (setOriginY p newOriginY (setCursorY p newCursorY s), true)
      else (s, false)
  end.

Definition setCursorAndOrigin (viewName : string) (newCursorY viewHeight : Z)
    (s : AppState) : AppState * bool :=
  match selectSlot viewName (showHidden s) with
  | None => (s, false)
  | Some p =>
    let listLen := len (slotList p s) in
    if listLen <=? 0 then
      let changed := negb (getOriginY p s =? 0) || negb (getCursorY p s =? 0) in
      (setCursorY p 0 (setOriginY p 0 s), changed)
    else
      let oldOriginY := getOriginY p s in
      let oldCursorY := getCursorY p s in
      (* 1. clamp the new cursor position *)
      let newCursorY := if newCursorY <? 0 then 0 else newCursorY in
      let newCursorY :=
        if newCursorY >=? listLen then sub listLen 1 else newCursorY in
      (* 2. new origin: centre the cursor when it left the window *)
      let newOriginY := getOriginY p s in
      let newOriginY :=
        if (newCursorY <? newOriginY)
           || (newCursorY >=? add newOriginY viewHeight)
        then sub newCursorY (div viewHeight 2)
        else newOriginY in
      (* 3. validate and clamp the origin *)
      let maxOriginY := sub listLen viewHeight in
      let maxOriginY := if maxOriginY <? 0 then 0 else maxOriginY in
      let newOriginY :=
        if newOriginY >? maxOriginY then maxOriginY else newOriginY in
      let newOriginY := if newOriginY <? 0 then 0 else newOriginY in
      (* 4. update the state if changed *)
      let changed :=
        negb (oldCursorY =? newCursorY) || negb (oldOriginY =? newOriginY) in
      if changed
      then (setOriginY p newOriginY (setCursorY p newCursorY s), true)
      else (s, false)
  end.

(** *** Action menu *)

Definition OpenActionMenu (item : FileInfo) (options : list ActionMenuItem)
    (currentFocusView : string) (s : AppState) : AppState :=
  let s := set_isActionMenuVisible true s in
  let s := set_actionMenuItemTarget item s in
  let s := set_actionMenuOptions options s in
  let s := set_actionMenuSelectedIdx 0 s in
  let s := set_previousFocusView currentFocusView s in
  set_lastMessage "" s.

Definition CloseActionMenu (s : AppState) : AppState :=
  let s := set_isActionMenuVisible false s in
  let s := set_actionMenuItemTarget FileInfo_zero s in
  let s := set_actionMenuOptions [] s in
  set_actionMenuSelectedIdx (-1) s.

Definition NavigateActionMenu (delta : Z) (s : AppState) : AppState :=
  if negb (isActionMenuVisible s) || (len (actionMenuOptions s) =? 0) then s
  else
    let s := set_actionMenuSelectedIdx (add (actionMenuSelectedIdx s) delta) s in
    let s :=
      if actionMenuSelectedIdx s <? 0
      then set_actionMenuSelectedIdx (sub (len (actionMenuOptions s)) 1) s
      else s in
    if actionMenuSelectedIdx s >=? len (actionMenuOptions s)
    then set_actionMenuSelectedIdx 0 s
    else s.

(** *** File content view *)

Definition LF : ascii := "010"%char.
Definition TAB : ascii := "009"%char.

(** [strings.Count(s, sep)] for a separator of one byte. *)
Fixpoint strings_Count (s : string) (sep : ascii) : Z :=
  match s with
  | EmptyString => 0
  | String a s' => (if Ascii.eqb a sep then 1 else 0) + strings_Count s' sep
  end.

(** [strings.HasSuffix(s, suffix)] for a suffix of one byte. *)
Fixpoint strings_HasSuffix (s : string) (suffix : ascii) : bool :=
  match s with
  | EmptyString => false
  | String a EmptyString => Ascii.eqb a suffix
  | String _ s' => strings_HasSuffix s' suffix
  end.

Definition SetFileContentView (filename content prevFocus : string)
    (s : AppState) : AppState :=
  let s := set_isFileContentViewVisible true s in
  let s := set_fileContentViewFileName filename s in
  let s := set_fileContentViewContent content s in
  let s := set_fileContentViewTotalLines (strings_Count content LF) s in
  let s :=
    if negb (strings_HasSuffix content LF) && (slen content >? 0)
    then set_fileContentViewTotalLines (add (fileContentViewTotalLines s) 1) s
    else if slen content =? 0
         then set_fileContentViewTotalLines 1 s
         else s in
  let s := set_fileContentViewOriginY 0 s in
  set_fileContentViewPrevFocus prevFocus s.

Definition CloseFileContentView (s : AppState) : AppState :=
  let s := set_isFileContentViewVisible false s in
  let s := set_fileContentViewFileName "" s in
  let s := set_fileContentViewContent "" s in
  let s := set_fileContentViewTotalLines 0 s in
  set_fileContentViewOriginY 0 s.

Definition ScrollFileContentView (delta viewHeight : Z) (s : AppState)
    : AppState :=
  if negb (isFileContentViewVisible s) then s
  else
    let newOriginY := add (fileContentViewOriginY s) delta in
    let maxOriginY := sub (fileContentViewTotalLines s) viewHeight in
    let maxOriginY := if maxOriginY <? 0 then 0 else maxOriginY in
    let newOriginY := if newOriginY <? 0 then 0 else newOriginY in
    let newOriginY :=
      if newOriginY >? maxOriginY then maxOriginY else newOriginY in
    set_fileContentViewOriginY newOriginY s.

(** *** Read operations used by the handlers *)

Definition GetCurrentCursorY (viewName : string) (s : AppState) : Z :=
  match selectSlot viewName (showHidden s) with
  | Some p => getCursorY p s
  | None => 0
  end.

Definition GetCurrentOriginY (viewName : string) (s : AppState) : Z :=
  match selectSlot viewName (showHidden s) with
  | Some p => getOriginY p s
  | None => 0
  end.

Definition GetCurrentList (viewName : string) (s : AppState) : list FileInfo :=
  match selectSlot viewName (showHidden s) with
  | Some p => slotList p s
  | None => []
  end.

(** ** [utils.go] *)

(** [strings.LastIndex(s, substr)]: scanning left to right, [last] is the
    greatest index seen so far at which [substr] starts, [-1] if none. *)
Fixpoint LastIndex_from (s substr : string) (i last : Z) : Z :=
  let last := if String.prefix substr s then i else last in
  match s with
  | EmptyString => last
  | String _ s' => LastIndex_from s' substr (i + 1) last
  end.

Definition strings_LastIndex (s substr : string) : Z :=
  LastIndex_from s substr 0 (-1).

(** The slices [s[i:]] and [s[:j]]. *)
Definition slice_from (s : string) (i : Z) : string :=
  String.substring (Z.to_nat i) (String.length s - Z.to_nat i) s.
Definition slice_to (s : string) (j : Z) : string :=
  String.substring 0 (Z.to_nat j) s.

Definition trimError (err : option error) : string :=
  match err with
  | None => ""
  | Some errMsg =>
    let lastColon := strings_LastIndex errMsg ": " in
    let errMsg :=
      if negb (lastColon =? -1) && (lastColon <? sub (slen errMsg) 2)
      then slice_from errMsg (add lastColon 2)
      else errMsg in
    let maxLen := 60 in
    if slen errMsg >? maxLen
    then slice_to errMsg (sub maxLen 3) +:+ "..."
    else errMsg
  end.

(** ** External collaborators

    What the handlers obtain from the operating system, the clipboard
    library and the formatting library.  They are inputs of the model. *)

Record StatInfo : Type := mkStatInfo {
  st_IsDir : bool;
  st_Size : Z
}.

Record Collaborators : Type := mkCollaborators {
  (** [os.Stat(path)] *)
  os_Stat : string -> StatInfo + error;
  (** [os.ReadFile(path)]: the bytes read (a non-nil slice) or an error *)
  os_ReadFile : string -> string + error;
  (** [clipboard.WriteAll(text)] *)
  clipboard_WriteAll : string -> option error;
  (** [filepath.Rel(basepath, targpath)] *)
  filepath_Rel : string -> string -> string + error;
  (** the message of [fmt.Errorf(format)] called without arguments *)
  fmt_Errorf : string -> error
}.

(** [%d] of [fmt]. *)
Definition fmt_d (z : Z) : string := NilZero.string_of_int (Z.to_int z).

Definition copyToClipboard (env : Collaborators) (text : string)
    : option error :=
  match clipboard_WriteAll env text with
  | Some _ => Some "clipboard unavailable"
  | None => None
  end.

(** ** [handlers.go] *)

Definition maxCopySize : Z := 5 * 1024 * 1024.
Definition maxViewSize : Z := 20 * 1024 * 1024.

(** The result is [inl None] for the source's [(nil, nil)] (empty file),
    [inl (Some content)] for [(content, nil)]. *)
Definition ReadFileWithLimit (env : Collaborators) (path : string)
    (limitBytes : Z) : option string + error :=
  match os_Stat env path with
  | inr err => inr ("could not stat file: " +:+ err)
  | inl info =>
    if st_IsDir info then inr "path is a directory"
    else if st_Size info >? limitBytes then
      let limitMB := div limitBytes (1024 * 1024) in
      inr ("file too large (> " +:+ fmt_d limitMB +:+ " MiB)")
    else if st_Size info =? 0 then inl None
    else
      match os_ReadFile env path with
      | inr err => inr ("could not read file: " +:+ err)
      | inl content => inl (Some content)
      end
  end.

Definition copyFullPath (env : Collaborators) (item : FileInfo)
    (s : AppState) : AppState * option error :=
  (s, copyToClipboard env (Path item)).

Definition copyRelativePath (env : Collaborators) (item : FileInfo)
    (s : AppState) : AppState * option error :=
  match filepath_Rel env (cwd s) (Path item) with
  | inr _ => (s, Some "could not determine relative path")
  | inl relPath => (s, copyToClipboard env relPath)
  end.

Definition copyContent (env : Collaborators) (item : FileInfo)
    (s : AppState) : AppState * option error :=
  if IsDir item then (s, Some "cannot copy content of a directory")
  else
    match ReadFileWithLimit env (Path item) maxCopySize with
    | inr err => (s, Some err)
    | inl None => (s, copyToClipboard env "")
    | inl (Some content) => (s, copyToClipboard env content)
    end.

(** The loop over [contentBytes] that looks for a null byte. *)
Fixpoint hasNullByte (bytes : string) : bool :=
  match bytes with
  | EmptyString => false
  | String b bytes' => if Ascii.eqb b Ascii.zero then true else hasNullByte bytes'
  end.

(** [strings.ReplaceAll(content, "\t", "    ")] *)
Fixpoint replaceTabs (content : string) : string :=
  match content with
  | EmptyString => EmptyString
  | String c content' =>
    if Ascii.eqb c TAB then "    " +:+ replaceTabs content'
    else String c (replaceTabs content')
  end.

Definition viewFileContentAction (env : Collaborators) (item : FileInfo)
    (s : AppState) : AppState * option error :=
  if IsDir item then (s, Some "cannot view content of a directory")
  else
    match ReadFileWithLimit env (Path item) maxViewSize with
    | inr err => (s, Some err)
    | inl contentBytes =>
      let content :=
        match contentBytes with
        | Some bytes =>
          if hasNullByte bytes then inr "cannot display binary file content"
          else inl (replaceTabs bytes)
        | None => inl "[Empty File]"
        end in
      match content with
      | inr err => (s, Some err)
      | inl content =>
        (* the focus from before the menu opened *)
        let currentFocus := previousFocusView s in
        let currentFocus :=
          if String.eqb currentFocus "" then viewFolders else currentFocus in
        (SetFileContentView (Name item) content currentFocus s, None)
      end
    end.

(** Calling the function an option carries. *)
Definition callAction (env : Collaborators) (fn : Action) (item : FileInfo)
    (s : AppState) : AppState * option error :=
  match fn with
  | copyFullPathFn => copyFullPath env item s
  | copyRelativePathFn => copyRelativePath env item s
  | viewFileContentActionFn => viewFileContentAction env item s
  | copyContentFn => copyContent env item s
  | cancelFn => (s, None)
  end.

(** The handlers below are given by their effect on the state store.  The
    calls into the terminal library ([g.Update], [g.SetCurrentView]) only
    touch that library's own focus and redraw queue. *)

(** [v] is the name of the view the key was pressed in, [None] for the
    source's [nil] view. *)
Definition handleEnter (v : option string) (s : AppState) : AppState :=
  match v with
  | None => s
  | Some viewName =>
    let currentList := GetCurrentList viewName s in
    let cursorY := GetCurrentCursorY viewName s in
    if len currentList =? 0 then s
    else if (cursorY <? 0) || (cursorY >=? len currentList) then s
    else
      match currentList !! Z.to_nat cursorY with
      | None => s
      | Some selectedItem =>
        let options : list ActionMenuItem := [] in
        let options :=
          options ++ [mkActionMenuItem "Copy Full Path" (Some copyFullPathFn)] in
        let options :=
          options ++ [mkActionMenuItem "Copy Relative Path"
                        (Some copyRelativePathFn)] in
        let options :=
          if negb (IsDir selectedItem) then
            (options ++ [mkActionMenuItem "View Content"
                           (Some viewFileContentActionFn)])
            ++ [mkActionMenuItem "Copy Content (UTF-8)" (Some copyContentFn)]
          else options in
        let options := options ++ [mkActionMenuItem "Cancel" (Some cancelFn)] in
        if len options >? 0
        then OpenActionMenu selectedItem options viewName s
        else s
      end
  end.

Definition handleMenuNavigate (delta : Z) (s : AppState) : AppState :=
  NavigateActionMenu delta s.

Definition handleMenuClose (s : AppState) : AppState :=
  ClearMessage (CloseActionMenu s).

Definition handleCloseFileContentView (s : AppState) : AppState :=
  ClearMessage (CloseFileContentView s).

Definition handleMenuSelect (env : Collaborators) (s : AppState) : AppState :=
  let options := actionMenuOptions s in
  let selectedIdx := actionMenuSelectedIdx s in
  let targetItem := actionMenuItemTarget s in
  if (selectedIdx <? 0) || (selectedIdx >=? len options) then handleMenuClose s
  else
    match options !! Z.to_nat selectedIdx with
    | None => s
    | Some selectedOption =>
      let actionLabel := Label selectedOption in
      (* close the menu before the action, except for "View Content" *)
      let closeMenuFirst := negb (String.eqb actionLabel "View Content") in
      let s := if closeMenuFirst then CloseActionMenu s else s in
      (* execute the action *)
      let '(s, actionErr) :=
        match ActionFn selectedOption with
        | Some fn => callAction env fn targetItem s
        | None => (s, None)
        end in
      match actionErr with
      | Some err =>
        let errMsg := "Error: " +:+ actionLabel +:+ " - " +:+ err in
        let s := SetMessage (trimError (Some (fmt_Errorf env errMsg))) s in
        if String.eqb actionLabel "View Content" && isActionMenuVisible s
        then CloseActionMenu s
        else s
      | None =>
        if String.eqb actionLabel "View Content" then
          ClearMessage (CloseActionMenu s)
        else if negb (String.eqb actionLabel "Cancel") then
          let successMsg := "'" +:+ actionLabel +:+ "' copied to clipboard" in
          let successMsg :=
            if String.prefix "Copy Content" actionLabel
            then "Content of '" +:+ Name targetItem +:+ "' copied"
            else successMsg in
          SetMessage successMsg s
        else if negb closeMenuFirst && isActionMenuVisible s then
          CloseActionMenu s
        else s
      end
    end.

(** ** The directory scanner of [core.go] *)

(** *** The directory tree and the walk over it *)

(** What the operating system holds below the scanned directory: a
    non-directory entry with the outcome of [d.Info()] (its size, or an
    error), or a directory with the outcome of [os.ReadDir] on it (the
    entries read, and the error if reading failed). *)
#[warnings="-register-all"]
Inductive FsNode : Type :=
| FsFile (name : string) (info : Z + error)
| FsDir (name : string) (entries : list FsNode) (readErr : option error).

(** The [fs.DirEntry] methods the scanner calls. *)
Definition d_Name (d : FsNode) : string :=
  match d with FsFile name _ => name | FsDir name _ _ => name end.

Definition d_IsDir (d : FsNode) : bool :=
  match d with FsFile _ _ => false | FsDir _ _ _ => true end.

(** Only called on entries that are not directories. *)
Definition d_Info (d : FsNode) : Z + error :=
  match d with FsFile _ info => info | FsDir _ _ _ => inl 0 end.

(** What a [fs.WalkDirFunc] returns: [nil], [filepath.SkipDir], or another
    error. *)
Inductive WalkRet : Type :=
| RetNil
| RetSkipDir
| RetErr (err : error).

(** Modelled from the spec: the path-joining primitive of the
    recursive-walk collaborator ([filepath.Join] of Go's library, not part
    of the repository), for a clean directory path and an entry name.
    Go's function also cleans the result: for the root directory "/" it
    gives "/name" where this gives "//name", so the paths below are
    spelled as Go spells them for every directory but the root. *)
Definition filepath_Join (dir name : string) : string :=
  dir +:+ "/" +:+ name.

Section WalkDir.

Context {St : Type}.

(** The callback, as a transition of the variables it captures. *)
Variable fn : string -> option FsNode -> option error -> St -> St * WalkRet.

(** Modelled from the spec: the recursive-walk primitive "yielding the
    same per descendant with per-subtree error signaling"
    ([filepath.WalkDir] of Go's library, not part of the repository).
    The callback is first called on the entry; a directory is then read,
    a read error is reported by a second call on the directory, and
    [SkipDir] from either call skips the directory's entries only.
    The entries that were read are walked in order. *)
Fixpoint walkDir (path : string) (d : FsNode) (st : St) {struct d}
    : St * WalkRet :=
  let '(st, err) := fn path (Some d) None st in
  match d, err with
  | FsFile _ _, _ => (st, err)
  | FsDir _ _ _, RetSkipDir => (st, RetNil)
  | FsDir _ _ _, RetErr e => (st, RetErr e)
  | FsDir _ entries readErr, RetNil =>
    let '(st, err) :=
      match readErr with
      | Some e => fn path (Some d) (Some e) st
      | None => (st, RetNil)
      end in
    match err with
    | RetSkipDir => (st, RetNil)
    | RetErr e => (st, RetErr e)
    | RetNil =>
      (fix walkEntries (ds : list FsNode) (st : St) : St * WalkRet :=
         match ds with
         | [] => (st, RetNil)
         | d1 :: ds' =>
           let '(st, err) :=
             walkDir (filepath_Join path (d_Name d1)) d1 st in
           match err with
           | RetNil => walkEntries ds' st
           | RetSkipDir => (st, RetNil)
           | RetErr e => (st, RetErr e)
           end
         end) entries st
    end
  end.

(** [root] is the tree at the root path, or the error of [os.Lstat]. *)
Definition WalkDir (rootPath : string) (root : FsNode + error) (st : St)
    : St * option error :=
  let '(st, err) :=
    match root with
    | inr e => fn rootPath None (Some e) st
    | inl d => walkDir rootPath d st
    end in
  match err with
  | RetNil | RetSkipDir => (st, None)
  | RetErr e => (st, Some e)
  end.

End WalkDir.

(** *** [calculateStats] *)

(** The local variables the walk callback captures and updates. *)
Record WalkVars : Type := mkWalkVars {
  w_totalSize : Z;
  w_largestFile : FileInfo;
  w_firstWalkErr : option error
}.

(** The outcome of the two git helpers, which run an external command:
    [IsGitRepo(cwd)] and [GetGitBranch(cwd)]. *)
Record GitFacts : Type := mkGitFacts {
  git_IsGitRepo : bool * option error;
  git_GetGitBranch : string * option error
}.

Section Scanner.

(** [getIcon] of [core.go] picks a glyph from a table by name and
    extension; no property below depends on which glyph it picks. *)
Variable getIcon : string -> bool -> string.

(** [filepath.Base] of Go's library. *)
Variable filepath_Base : string -> string.

(** The function literal passed to [filepath.WalkDir]. *)
Definition walkFn (cwd path : string) (d : option FsNode)
    (walkError : option error) (w : WalkVars) : WalkVars * WalkRet :=
  match walkError with
  | Some walkError =>
    let w :=
      match w_firstWalkErr w with
      | None =>
        let entryName :=
          match d with Some d => d_Name d | None => "entry" end in
        mkWalkVars (w_totalSize w) (w_largestFile w)
          (Some ("accessing " +:+ entryName +:+ ": " +:+ walkError))
      | Some _ => w
      end in
    match d with
    | Some d => if d_IsDir d then (w, RetSkipDir) else (w, RetNil)
    | None => (w, RetNil)
    end
  | None =>
    if String.eqb path cwd then (w, RetNil)
    else
      match d with
      | None => (w, RetNil) (* the walk passes no nil entry without an error *)
      | Some d =>
        if negb (d_IsDir d) then
          match d_Info d with
          | inr infoErr =>
            let w :=
              match w_firstWalkErr w with
              | None =>
                mkWalkVars (w_totalSize w) (w_largestFile w)
                  (Some ("info for " +:+ d_Name d +:+ ": " +:+ infoErr))
              | Some _ => w
              end in
            (w, RetNil)
          | inl fileSize =>
            let totalSize := add (w_totalSize w) fileSize in
            let largestFile :=
              if fileSize >? Size (w_largestFile w)
              then mkFileInfo (d_Name d) path false fileSize
                     (getIcon (d_Name d) false)
              else w_largestFile w in
            (mkWalkVars totalSize largestFile (w_firstWalkErr w), RetNil)
          end
        else (w, RetNil)
      end
  end.

Definition gitStatusOf (git : GitFacts) : string :=
  match git_IsGitRepo git with
  | (_, Some _) => "Status Unknown (Error)"
  | (false, None) => "Inactive"
  | (true, None) =>
    match git_GetGitBranch git with
    | (_, Some _) => "Active: (Branch Error)"
    | (branchName, None) =>
      if String.eqb branchName "" then "Active: (Detached HEAD?)"
      else "Active: (" +:+ branchName +:+ ")"
    end
  end.

Definition calculateStats (root : FsNode + error) (git : GitFacts)
    (s : AppState) : AppState :=
  let s := SetStatsLoading s in
  let cwd := cwd s in
  let w := mkWalkVars 0 (mkFileInfo "" "" false (-1) "") None in
  let '(w, err) := WalkDir (walkFn cwd) cwd root w in
  let totalSize := w_totalSize w in
  let largestFile := w_largestFile w in
  let firstWalkErr :=
    match err, w_firstWalkErr w with
    | Some err, None =>
      Some ("walking " +:+ filepath_Base cwd +:+ ": " +:+ err)
    | _, firstWalkErr => firstWalkErr
    end in
  (* update the state from the walk results *)
  let finalTotalSize :=
    match firstWalkErr with Some _ => -2 | None => totalSize end in
  let finalLargestFile :=
    match firstWalkErr with
    | Some _ =>
      if Size largestFile =? -1
      then mkFileInfo "Error during scan" "" false (-2) ""
      else largestFile
    | None =>
      if Size largestFile =? -1 then FileInfo_zero else largestFile
    end in
  let gitStatus := gitStatusOf git in
  SetStatsResults finalTotalSize finalLargestFile gitStatus firstWalkErr s.

(** *** The callback on the entries of the scanned directory *)

(** What the callback does with a readable file below the root. *)
Definition addFile (cwd : string) (w : WalkVars) (name : string) (size : Z)
    : WalkVars :=
  mkWalkVars (add (w_totalSize w) size)
    (if size >? Size (w_largestFile w)
     then mkFileInfo name (filepath_Join cwd name) false size
            (getIcon name false)
     else w_largestFile w)
    (w_firstWalkErr w).

(** What the callback does with an error: only the first is kept. *)
Definition noteError (w : WalkVars) (msg : error) : WalkVars :=
  match w_firstWalkErr w with
  | None => mkWalkVars (w_totalSize w) (w_largestFile w) (Some msg)
  | Some _ => w
  end.

(** An entry the walk does not descend into: a file whose size is known,
    or a directory that cannot be read. *)
Definition leafStep (cwd : string) (w : WalkVars) (d : FsNode) : WalkVars :=
  match d with
  | FsFile name (inl size) => addFile cwd w name size
  | FsDir name _ (Some e) =>
    noteError w ("accessing " +:+ name +:+ ": " +:+ e)
  | _ => w
  end.

Definition is_leaf (d : FsNode) : Prop :=
  match d with
  | FsFile _ (inl _) => True
  | FsDir _ _ (Some _) => True
  | _ => False
  end.

End Scanner.

(** ** More of [handlers.go]: navigation and viewer keys *)

(** Unary minus and multiplication on Go's [int]. *)
Definition neg (a : Z) : Z := wrap (- a).
Definition mul (a b : Z) : Z := wrap (a * b).

(** Go's [%] on [int]: the remainder of the truncated division. *)
Definition rem (a b : Z) : Z := wrap (Z.rem a b).

(** What a handler reads from the [*gocui.View] it is given: [v.Name()]
    and the height that [v.Size()] returns. *)
Record View : Type := mkView {
  v_Name : string;
  v_Height : Z
}.

Definition handleToggleHidden (s : AppState) : AppState :=
  fst (ToggleHidden s).

Definition handleMoveCursor (v : option View) (delta : Z) (s : AppState)
    : AppState :=
  match v with
  | None => s
  | Some v => fst (moveCursorAndOrigin (v_Name v) delta (v_Height v) s)
  end.

(** The function [bindPageMove] binds to PgDn and Space (multiplier 1) and
    to PgUp and b (multiplier -1). *)
Definition pageMoveKey (multiplier : Z) (v : View) (s : AppState)
    : AppState :=
  let maxY := v_Height v in
  let pageSize := sub maxY 1 in
  let pageSize := if pageSize <? 1 then 1 else pageSize in
  handleMoveCursor (Some v) (mul multiplier pageSize) s.

Definition handleGoTopBottom (v : option View) (toTop : bool) (s : AppState)
    : AppState :=
  match v with
  | None => s
  | Some v =>
    let viewHeight := v_Height v in
    let list := GetCurrentList (v_Name v) s in
    let listLen := len list in
    let newCursorY := 0 in
    let newCursorY :=
      if negb toTop then
        if listLen >? 0 then sub listLen 1 else newCursorY
      else newCursorY in
    fst (setCursorAndOrigin (v_Name v) newCursorY viewHeight s)
  end.

Definition handleScrollFileContentView (v : option View) (delta : Z)
    (isPageScroll : bool) (s : AppState) : AppState :=
  match v with
  | None => s
  | Some v =>
    if negb (isFileContentViewVisible s) then s
    else
      let viewHeight := v_Height v in
      let totalLines := fileContentViewTotalLines s in
      (* no scrolling if the content fits in the view *)
      if totalLines <=? viewHeight then s
      else
        let delta :=
          if isPageScroll then
            let currentOrigin := fileContentViewOriginY s in
            if delta <=? neg totalLines then neg currentOrigin
            else if delta >=? totalLines then
              let maxOriginY := sub totalLines viewHeight in
              let maxOriginY := if maxOriginY <? 0 then 0 else maxOriginY in
              sub maxOriginY currentOrigin
            else delta
          else delta in
        ScrollFileContentView delta viewHeight s
  end.

(** The viewer's page keys: PgDn and Space ([up = false]), PgUp and b. *)
Definition viewerPageKey (up : bool) (v : View) (s : AppState) : AppState :=
  let maxY := v_Height v in
  let pageSize := sub maxY 1 in
  let pageSize := if pageSize <? 1 then 1 else pageSize in
  handleScrollFileContentView (Some v)
    (if up then neg pageSize else pageSize) true s.

(** The viewer's g and Home keys, and its G and End keys. *)
Definition viewerTopKey (v : View) (s : AppState) : AppState :=
  handleScrollFileContentView (Some v) (-999999) true s.

Definition viewerBottomKey (v : View) (s : AppState) : AppState :=
  handleScrollFileContentView (Some v) 999999 true s.

(** The loop of [handleFocusSwitch] that looks [name] up in [views]:
    the index of the first view equal to it, from [i] on. *)
Fixpoint indexOfView (views : list string) (name : string) (i : Z)
    : option Z :=
  match views with
  | [] => None
  | view :: views' =>
    if String.eqb view name then Some i
    else indexOfView views' name (add i 1)
  end.

(** [handleFocusSwitch], given by the view it asks the terminal library to
    focus ([None] when it asks for none); [currentView] is the name of
    [g.CurrentView()], [None] for [nil]. *)
Definition handleFocusSwitch (currentView : option string) (forward : bool)
    (s : AppState) : option string :=
  if isActionMenuVisible s || isFileContentViewVisible s then None
  else
    match currentView with
    | None => Some viewFolders
    | Some name =>
      let views := [viewFolders; viewFiles] in
      let currentIdx :=
        match indexOfView views name 0 with
        | Some i => i
        | None => -1
        end in
      if currentIdx =? -1 then Some viewFolders
      else
        let nextIdx :=
          if forward then rem (add currentIdx 1) (len views)
          else rem (add (sub currentIdx 1) (len views)) (len views) in
        views !! Z.to_nat nextIdx
    end.

(** ** [loadDirectoryContents] of [core.go] *)

(** What the loader obtains from the operating system: the entry names
    [os.ReadDir] returns for a directory, or its error; and, for a path,
    whether [os.Lstat] finds a directory, or its error. *)
Record Listing : Type := mkListing {
  os_ReadDir : string -> list string + error;
  os_Lstat : string -> bool + error
}.

(** The four slices the loop appends to. *)
Record Buckets : Type := mkBuckets {
  b_visibleFiles : list FileInfo;
  b_visibleDirs : list FileInfo;
  b_hiddenFiles : list FileInfo;
  b_hiddenDirs : list FileInfo
}.

(** [strings.HasPrefix(name, ".") && name != "." && name != ".."] *)
Definition isHiddenName (name : string) : bool :=
  String.prefix "." name
  && negb (String.eqb name ".") && negb (String.eqb name "..").

Section Loader.

(** [getIcon] of [core.go], as in the scanner. *)
Variable getIcon : string -> bool -> string.

(** [strings.ToLower] of Go's library. *)
Variable strings_ToLower : string -> string.

(** [sort.Slice] of Go's library, on a slice and its [less] function. *)
Variable sort_Slice :
  (FileInfo -> FileInfo -> bool) -> list FileInfo -> list FileInfo.

(** The body of the loop over the entries. *)
Definition loadEntry (os : Listing) (cwd : string) (b : Buckets)
    (name : string) : Buckets :=
  let isHidden := isHiddenName name in
  match os_Lstat os (filepath_Join cwd name) with
  | inr _ => b (* the entry is skipped *)
  | inl isDir =>
    let fullPath := filepath_Join cwd name in
    let fi := mkFileInfo name fullPath isDir 0 (getIcon name isDir) in
    if isHidden then
      if isDir
      then mkBuckets (b_visibleFiles b) (b_visibleDirs b) (b_hiddenFiles b)
             (b_hiddenDirs b ++ [fi])
      else mkBuckets (b_visibleFiles b) (b_visibleDirs b)
             (b_hiddenFiles b ++ [fi]) (b_hiddenDirs b)
    else
      if isDir
      then mkBuckets (b_visibleFiles b) (b_visibleDirs b ++ [fi])
             (b_hiddenFiles b) (b_hiddenDirs b)
      else mkBuckets (b_visibleFiles b ++ [fi]) (b_visibleDirs b)
             (b_hiddenFiles b) (b_hiddenDirs b)
  end.

Definition sortFunc (a b : FileInfo) : bool :=
  String.ltb (strings_ToLower (Name a)) (strings_ToLower (Name b)).

Definition loadDirectoryContents (os : Listing) (s : AppState) : AppState :=
  let s := ClearMessage s in
  let cwd := cwd s in
  match os_ReadDir os cwd with
  | inr err =>
    SetMessage ("Error reading dir: " +:+ trimError (Some err)) s
  | inl entries =>
    let b := fold_left (loadEntry os cwd) entries (mkBuckets [] [] [] []) in
    let visibleDirs := sort_Slice sortFunc (b_visibleDirs b) in
    let visibleFiles := sort_Slice sortFunc (b_visibleFiles b) in
    let hiddenDirs := sort_Slice sortFunc (b_hiddenDirs b) in
    let hiddenFiles := sort_Slice sortFunc (b_hiddenFiles b) in
    SetDirectoryContents visibleDirs visibleFiles hiddenDirs hiddenFiles s
  end.

End Loader.

(** * Notions the properties are stated with *)

(** ** Sequences of navigation calls

    The calls the key bindings make on the list views, all with the height
    of the same viewport. *)

Inductive NavCall : Type :=
| MoveBy (viewName : string) (delta : Z)
| JumpTo (viewName : string) (target : Z).

Definition navCall (viewHeight : Z) (s : AppState) (c : NavCall) : AppState :=
  match c with
  | MoveBy viewName delta =>
    fst (moveCursorAndOrigin viewName delta viewHeight s)
  | JumpTo viewName target =>
    fst (setCursorAndOrigin viewName target viewHeight s)
  end.

Definition navCalls (viewHeight : Z) (calls : list NavCall) (s : AppState)
    : AppState :=
  fold_left (navCall viewHeight) calls s.

(** The viewport invariant of a list of [length] entries shown in a
    viewport of [height] lines. *)
Definition viewport_inv (length height cursor origin : Z) : Prop :=
  (length = 0 -> cursor = 0 /\ origin = 0) /\
  (length <> 0 -> 0 <= cursor < length) /\
  origin <= cursor <= origin + height - 1 /\
  0 <= origin <= Z.max 0 (length - height).

Definition slot_inv (height : Z) (s : AppState) (p : Slot) : Prop :=
  viewport_inv (len (slotList p s)) height (getCursorY p s) (getOriginY p s).

(** Slices hold at most [max_int] elements. *)
Definition lists_fit (s : AppState) : Prop :=
  forall p, len (slotList p s) <= max_int.

(** The state of the four viewports after a reload or a toggle. *)
Definition scrolls_reset (s : AppState) : Prop :=
  forall p, getCursorY p s = 0 /\ getOriginY p s = 0.

(** What a call leaves in a slot, with the flag it returned. *)
Definition viewportAfter (p : Slot) (r : AppState * bool) : Z * Z * bool :=
  (getCursorY p (fst r), getOriginY p (fst r), snd r).

(** ** The viewport engine on plain values *)

(** Step 1 of both methods: the cursor clamped to the list. *)
Definition clampCursor (listLen newCursorY : Z) : Z :=
  let newCursorY := if newCursorY <? 0 then 0 else newCursorY in
  if newCursorY >=? listLen then sub listLen 1 else newCursorY.

(** Step 3 of both methods: the origin clamped to
    [[0, max(0, listLen - viewHeight)]]. *)
Definition clampOrigin (listLen viewHeight newOriginY : Z) : Z :=
  let maxOriginY := sub listLen viewHeight in
  let maxOriginY := if maxOriginY <? 0 then 0 else maxOriginY in
  let newOriginY :=
    if newOriginY >? maxOriginY then maxOriginY else newOriginY in
  if newOriginY <? 0 then 0 else newOriginY.

(** The cursor and origin [moveCursorAndOrigin] computes. *)
Definition moveBy (listLen viewHeight oldCursorY oldOriginY delta : Z)
    : Z * Z :=
  let newCursorY := clampCursor listLen (add oldCursorY delta) in
  let newOriginY :=
    if newCursorY <? oldOriginY then newCursorY
    else if newCursorY >=? add oldOriginY viewHeight
         then add (sub newCursorY viewHeight) 1
         else oldOriginY in
  (newCursorY, clampOrigin listLen viewHeight newOriginY).

(** The cursor and origin [setCursorAndOrigin] computes. *)
Definition jumpTo (listLen viewHeight oldOriginY newCursorY : Z) : Z * Z :=
  let newCursorY := clampCursor listLen newCursorY in
  let newOriginY :=
    if (newCursorY <? oldOriginY)
       || (newCursorY >=? add oldOriginY viewHeight)
    then sub newCursorY (div viewHeight 2)
    else oldOriginY in
  (newCursorY, clampOrigin listLen viewHeight newOriginY).

(** ** The content viewer's text *)

(** The text ends with the byte [a]. *)
Definition ends_with (c : string) (a : ascii) : Prop :=
  exists p : string, c = p +:+ String a "".

(** The number of bytes of the text equal to [a]. *)
Definition count_byte (c : string) (a : ascii) : Z :=
  Z.of_nat (count_occ ascii_dec (list_ascii_of_string c) a).

(** ** The menu's option labels *)

(** The option labels as the specification lists them. *)
Definition specified_labels (item : FileInfo) : list string :=
  if IsDir item
  then ["Copy Full Path"; "Copy Relative Path"; "Cancel"]
  else ["Copy Full Path"; "Copy Relative Path"; "View Content";
        "Copy Content"; "Cancel"].

(** The option labels [handleEnter] builds. *)
Definition built_labels (item : FileInfo) : list string :=
  if IsDir item
  then ["Copy Full Path"; "Copy Relative Path"; "Cancel"]
  else ["Copy Full Path"; "Copy Relative Path"; "View Content";
        "Copy Content (UTF-8)"; "Cancel"].

(** ** Menu navigation *)

(** Navigating the menu by each of [deltas] in turn. *)
Definition navigateMenu (deltas : list Z) (s : AppState) : AppState :=
  fold_left (fun s delta => handleMenuNavigate delta s) deltas s.

(** What menu navigation leaves alone, and the range it keeps the selected
    index in. *)
Record menu_open (item : FileInfo) (options : list ActionMenuItem)
    (focus : string) (s : AppState) : Prop := mk_menu_open {
  mo_visible : isActionMenuVisible s = true;
  mo_target : actionMenuItemTarget s = item;
  mo_options : actionMenuOptions s = options;
  mo_focus : previousFocusView s = focus;
  mo_idx_lo : 0 <= actionMenuSelectedIdx s;
  mo_idx_hi : options <> [] -> actionMenuSelectedIdx s < len options
}.

(** ** The walk over the entries of a directory *)

(** The loop of [walkDir] over the entries of a directory. *)
Definition walkEntries {St : Type}
    (fn : string -> option FsNode -> option error -> St -> St * WalkRet)
    (path : string) : list FsNode -> St -> St * WalkRet :=
  fix walkEntries (ds : list FsNode) (st : St) : St * WalkRet :=
    match ds with
    | [] => (st, RetNil)
    | d1 :: ds' =>
      let '(st, err) := walkDir fn (filepath_Join path (d_Name d1)) d1 st in
      match err with
      | RetNil => walkEntries ds' st
      | RetSkipDir => (st, RetNil)
      | RetErr e => (st, RetErr e)
      end
    end.

(** ** Sample states and collaborators *)

(** A list of five files, the cursor moved down twice in a viewport of
    three lines: cursor 2, origin 0. *)
Definition fiveFiles : list FileInfo :=
  map (fun n => mkFileInfo n ("/tmp/" +:+ n) false 0 "")
      ["a"; "b"; "c"; "d"; "e"].

Definition fiveFilesState : AppState :=
  navCalls 3 [MoveBy viewFiles 1; MoveBy viewFiles 1]
    (SetDirectoryContents [] fiveFiles [] [] (NewAppState "/tmp")).

(** The same five files after a move to the last one at height 5: cursor
    4, origin 0. *)
Definition fiveFilesAtEnd : AppState :=
  navCalls 5 [MoveBy viewFiles 4]
    (SetDirectoryContents [] fiveFiles [] [] (NewAppState "/tmp")).

Definition threeOptionsState : AppState :=
  OpenActionMenu (mkFileInfo "docs" "/tmp/docs" true 0 "")
    [mkActionMenuItem "Copy Full Path" (Some copyFullPathFn);
     mkActionMenuItem "Copy Relative Path" (Some copyRelativePathFn);
     mkActionMenuItem "Cancel" (Some cancelFn)]
    viewFolders (NewAppState "/tmp").

Definition sampleFile : FileInfo := mkFileInfo "c" "/tmp/c" false 0 "".

Definition fileMenu : list ActionMenuItem :=
  [mkActionMenuItem "Copy Full Path" (Some copyFullPathFn);
   mkActionMenuItem "Copy Relative Path" (Some copyRelativePathFn);
   mkActionMenuItem "View Content" (Some viewFileContentActionFn);
   mkActionMenuItem "Copy Content (UTF-8)" (Some copyContentFn);
   mkActionMenuItem "Cancel" (Some cancelFn)].

(** Collaborators for which every file is a readable text of three bytes. *)
Definition sampleEnv : Collaborators :=
  {| os_Stat := fun _ => inl (mkStatInfo false 3);
     os_ReadFile := fun _ => inl (String "a" (String TAB (String "b" "")));
     clipboard_WriteAll := fun _ => None;
     filepath_Rel := fun _ target => inl target;
     fmt_Errorf := fun format => format |}.

(** ** Parts of the state *)

(** The part of the state the list views show: the directory, the four
    lists, the hidden flag and the four viewports. *)
Definition list_part (s : AppState) :=
  (cwd s, visibleFiles s, visibleDirs s, hiddenFiles s, hiddenDirs s,
   showHidden s,
   (visibleFoldersOriginY s, visibleFilesOriginY s,
    hiddenFoldersOriginY s, hiddenFilesOriginY s),
   (visibleFoldersCursorY s, visibleFilesCursorY s,
    hiddenFoldersCursorY s, hiddenFilesCursorY s)).

(** The part of the state the overlays own: the menu, the viewer and the
    message. *)
Definition overlay_part (s : AppState) :=
  (isActionMenuVisible s, actionMenuItemTarget s, actionMenuOptions s,
   actionMenuSelectedIdx s, previousFocusView s,
   (isFileContentViewVisible s, fileContentViewFileName s,
    fileContentViewContent s, fileContentViewTotalLines s,
    fileContentViewOriginY s, fileContentViewPrevFocus s),
   lastMessage s).

(** The part of the state the scanner writes. *)
Definition stats_part (s : AppState) :=
  (totalSize s, largestFile s, gitStatus s, isLoadingStats s, statsError s).

(** The rest of the state: the help and confirm-delete flags. *)
Definition dialog_part (s : AppState) :=
  (helpVisible s, confirmDeleteVisible s, itemToDelete s).

(** The text holds the byte [a]. *)
Definition has_byte (c : string) (a : ascii) : Prop :=
  In a (list_ascii_of_string c).

(** ** What a walk reaches *)

(** The files the walk reaches in the tree [d] found at [path], in walk
    order, each with its path, name and size.  It does not look into a
    directory that cannot be read, and passes over a file whose size
    cannot be obtained. *)
Fixpoint reachedFiles (path : string) (d : FsNode)
    : list (string * string * Z) :=
  match d with
  | FsFile name (inl size) => [(path, name, size)]
  | FsFile _ (inr _) => []
  | FsDir _ _ (Some _) => []
  | FsDir _ entries None =>
    flat_map (fun d1 => reachedFiles (filepath_Join path (d_Name d1)) d1)
      entries
  end.

(** The errors the walk meets in the tree [d], in walk order, as the
    callback words them. *)
Fixpoint walkErrors (d : FsNode) : list error :=
  match d with
  | FsFile _ (inl _) => []
  | FsFile name (inr e) => ["info for " +:+ name +:+ ": " +:+ e]
  | FsDir name _ (Some e) => ["accessing " +:+ name +:+ ": " +:+ e]
  | FsDir _ entries None => flat_map walkErrors entries
  end.

(** The same for the scanned directory itself, found at [cwd]: the root is
    not counted as a file, and a root that cannot be examined is one
    error. *)
Definition rootFiles (cwd : string) (root : FsNode + error)
    : list (string * string * Z) :=
  match root with
  | inl (FsDir _ entries None) =>
    flat_map (fun d1 => reachedFiles (filepath_Join cwd (d_Name d1)) d1)
      entries
  | _ => []
  end.

Definition rootErrors (root : FsNode + error) : list error :=
  match root with
  | inl (FsFile _ _) => []
  | inl (FsDir name _ (Some e)) => ["accessing " +:+ name +:+ ": " +:+ e]
  | inl (FsDir _ entries None) => flat_map walkErrors entries
  | inr e => ["accessing entry: " +:+ e]
  end.

(** The size of a reached file, and the sum of the sizes of a list of
    them. *)
Definition fileSize (f : string * string * Z) : Z := snd f.

Definition sumSizes (files : list (string * string * Z)) : Z :=
  fold_right (fun f acc => fileSize f + acc) 0 files.

(** ** What a scan and a load leave *)

(** The first error kept: the one already stored, else the first met. *)
Definition firstOf (old : option error) (errs : list error) : option error :=
  match old with
  | Some e => Some e
  | None => head errs
  end.

Section ScanNotions.

Variable getIcon : string -> bool -> string.

(** Counting one reached file: the running total and the largest file. *)
Definition countFile (acc : Z * FileInfo) (f : string * string * Z)
    : Z * FileInfo :=
  let '(path, name, size) := f in
  (add (fst acc) size,
   if size >? Size (snd acc)
   then mkFileInfo name path false size (getIcon name false)
   else snd acc).

(** The variables after a walk that reached [files] and met [errs]. *)
Definition afterWalk (w : WalkVars) (files : list (string * string * Z))
    (errs : list error) : WalkVars :=
  let acc := fold_left countFile files (w_totalSize w, w_largestFile w) in
  mkWalkVars (fst acc) (snd acc) (firstOf (w_firstWalkErr w) errs).

(** The item the loader makes of an entry. *)
Definition itemOf (cwd name : string) (isDir : bool) : FileInfo :=
  mkFileInfo name (filepath_Join cwd name) isDir 0 (getIcon name isDir).

End ScanNotions.

(** A path longer than the root's: a path below the root. *)
Definition below (cwd path : string) : Prop :=
  (String.length cwd < String.length path)%nat.

(** The list an entry belongs to, by whether its name is hidden and
    whether it is a directory. *)
Definition listFor (hidden isDir : bool) (s : AppState) : list FileInfo :=
  match hidden, isDir with
  | true, true => hiddenDirs s
  | true, false => hiddenFiles s
  | false, true => visibleDirs s
  | false, false => visibleFiles s
  end.

Definition bucketFor (hidden isDir : bool) (b : Buckets) : list FileInfo :=
  match hidden, isDir with
  | true, true => b_hiddenDirs b
  | true, false => b_hiddenFiles b
  | false, true => b_visibleDirs b
  | false, false => b_visibleFiles b
  end.



(** ** More sample states *)

(** A text of ten lines, shown in a viewer and scrolled down by three. *)
Definition tenLines : string :=
  String.concat (String LF "") (repeat "line" 10).

Definition viewerAtThree : AppState :=
  ScrollFileContentView 3 4
    (SetFileContentView "notes.txt" tenLines viewFiles (NewAppState "/tmp")).

Definition viewerView : View := mkView viewFileContent 4.
Definition filesView : View := mkView viewFiles 3.

(** A directory with two files and a subdirectory holding a third. *)
Definition readableTree : FsNode + error :=
  inl (FsDir "tmp"
         [FsFile "a.txt" (inl 10);
          FsDir "sub" [FsFile "big.bin" (inl 2000)] None;
          FsFile "z.txt" (inl 500)]
         None).

(** The same with a file whose size cannot be obtained and a locked
    directory. *)
Definition brokenTree : FsNode + error :=
  inl (FsDir "tmp"
         [FsFile "a.txt" (inl 10);
          FsFile "gone.txt" (inr "no such file");
          FsDir "locked" [FsFile "secret" (inl 999999)]
            (Some "permission denied");
          FsFile "z.txt" (inl 500)]
         None).

Definition noGit : GitFacts := mkGitFacts (false, None) ("", None).

(** A directory listing with a hidden file, a hidden directory, a file, a
    directory and an entry that cannot be examined. *)
Definition sampleListing : Listing :=
  {| os_ReadDir := fun dir =>
       if String.eqb dir "/tmp"
       then inl [".git"; ".env"; "main.go"; "docs"; "ghost"]
       else inr "no such directory";
     os_Lstat := fun path =>
       if String.eqb path "/tmp/ghost" then inr "no such file"
       else inl (String.eqb path "/tmp/.git" || String.eqb path "/tmp/docs")
  |}.

(** The menu of a directory, wrongly offering to view it, with that option
    selected. *)
Definition docsMenuAtView : AppState :=
  navigateMenu [1; 1]
    (OpenActionMenu (mkFileInfo "docs" "/tmp/docs" true 0 "") fileMenu
       viewFolders fiveFilesState).

(** * Properties *)

(** ** Machine integers *)

Lemma wrap_id (z : Z) : in_range z -> wrap z = z.
Proof.
  unfold in_range, wrap, min_int, max_int. intros H.
  rewrite Z.mod_small by lia. lia.
Qed.

Lemma wrap_in_range (z : Z) : in_range (wrap z).
Proof.
  unfold in_range, wrap, min_int, max_int.
  pose proof (Z.mod_pos_bound (z + 2 ^ 63) (2 ^ 64) ltac:(lia)). lia.
Qed.

Lemma len_nonneg {A : Type} (l : list A) : 0 <= len l.
Proof. unfold len. lia. Qed.

Lemma max_int_val : max_int = 9223372036854775807.
Proof. reflexivity. Qed.

Lemma min_int_val : min_int = -9223372036854775808.
Proof. reflexivity. Qed.

(** Rewrites away the wrap-arounds whose argument is provably in range. *)
Ltac unwrap :=
  unfold add, sub, div, in_range in *;
  rewrite ?max_int_val, ?min_int_val in *;
  repeat match goal with
  | |- context [wrap ?z] =>
    rewrite (wrap_id z)
      by (unfold in_range; rewrite ?max_int_val, ?min_int_val; lia)
  end.

(** Case analysis on every integer comparison in the goal. *)
Ltac no_if t :=
  lazymatch t with
  | context [if _ then _ else _] => fail
  | _ => idtac
  end.

Ltac cases_cmp :=
  repeat (match goal with
          | |- context [?a >? ?b] => rewrite (Z.gtb_ltb a b)
          | |- context [?a >=? ?b] => rewrite (Z.geb_leb a b)
          | |- context [?a <? ?b] =>
            no_if a; no_if b; destruct (Z.ltb_spec a b)
          | |- context [?a <=? ?b] =>
            no_if a; no_if b; destruct (Z.leb_spec a b)
          | |- context [?a =? ?b] =>
            no_if a; no_if b; destruct (Z.eqb_spec a b)
          end; cbv iota; cbn [orb andb negb]).

(** ** The viewport engine keeps the invariant *)

Lemma clampCursor_range (L x : Z) :
  0 < L <= max_int -> 0 <= clampCursor L x < L.
Proof.
  intros HL. unfold clampCursor. unwrap. cases_cmp; lia.
Qed.

Lemma moveBy_inv (L h c o delta : Z) :
  1 <= h <= max_int -> 0 < L <= max_int ->
  viewport_inv L h c o ->
  viewport_inv L h (fst (moveBy L h c o delta)) (snd (moveBy L h c o delta)).
Proof.
  intros Hh HL (_ & Hc & Hw & Ho). specialize (Hc ltac:(lia)).
  unfold moveBy. cbv zeta. cbn [fst snd].
  pose proof (clampCursor_range L (add c delta) HL) as Hnc.
  set (nc := clampCursor L (add c delta)) in *. clearbody nc.
  unfold viewport_inv, clampOrigin. unwrap. cases_cmp; lia.
Qed.

Lemma quot2_bounds (h : Z) : 1 <= h -> 0 <= Z.quot h 2 <= h - 1.
Proof.
  intros Hh. rewrite Z.quot_div_nonneg by lia.
  pose proof (Z.div_pos h 2 ltac:(lia) ltac:(lia)).
  assert (h / 2 < h) by (apply Z.div_lt; lia). lia.
Qed.

Lemma jumpTo_inv (L h c o target : Z) :
  1 <= h <= max_int -> 0 < L <= max_int ->
  viewport_inv L h c o ->
  viewport_inv L h (fst (jumpTo L h o target)) (snd (jumpTo L h o target)).
Proof.
  intros Hh HL (_ & Hc & Hw & Ho). specialize (Hc ltac:(lia)).
  unfold jumpTo. cbv zeta. cbn [fst snd].
  pose proof (clampCursor_range L target HL) as Hnc.
  set (nc := clampCursor L target) in *. clearbody nc.
  pose proof (quot2_bounds h ltac:(lia)) as Hq.
  unfold div. set (q := Z.quot h 2) in *. clearbody q.
  unfold viewport_inv, clampOrigin. unwrap. cases_cmp; lia.
Qed.

(** ** Slots: reading what was stored *)

Lemma slot_eq_dec (p q : Slot) : {p = q} + {p <> q}.
Proof. decide equality. Defined.

Lemma getCursorY_setCursorY (p q : Slot) (v : Z) (s : AppState) :
  getCursorY p (setCursorY q v s) = if slot_eq_dec p q then v else getCursorY p s.
Proof. destruct p, q; reflexivity. Qed.

Lemma getOriginY_setOriginY (p q : Slot) (v : Z) (s : AppState) :
  getOriginY p (setOriginY q v s) = if slot_eq_dec p q then v else getOriginY p s.
Proof. destruct p, q; reflexivity. Qed.

Lemma getCursorY_setOriginY (p q : Slot) (v : Z) (s : AppState) :
  getCursorY p (setOriginY q v s) = getCursorY p s.
Proof. destruct p, q; reflexivity. Qed.

Lemma getOriginY_setCursorY (p q : Slot) (v : Z) (s : AppState) :
  getOriginY p (setCursorY q v s) = getOriginY p s.
Proof. destruct p, q; reflexivity. Qed.

Lemma slotList_setCursorY (p q : Slot) (v : Z) (s : AppState) :
  slotList p (setCursorY q v s) = slotList p s.
Proof. destruct p, q; reflexivity. Qed.

Lemma slotList_setOriginY (p q : Slot) (v : Z) (s : AppState) :
  slotList p (setOriginY q v s) = slotList p s.
Proof. destruct p, q; reflexivity. Qed.

(** Storing what is already there changes nothing. *)
Lemma store_same (p : Slot) (s : AppState) :
  setOriginY p (getOriginY p s) (setCursorY p (getCursorY p s) s) = s.
Proof. destruct s, p; reflexivity. Qed.

Lemma store_same_rev (p : Slot) (s : AppState) :
  setCursorY p (getCursorY p s) (setOriginY p (getOriginY p s) s) = s.
Proof. destruct s, p; reflexivity. Qed.

Create Rewrite HintDb slots.
#[local] Hint Rewrite getCursorY_setCursorY getOriginY_setOriginY
  getCursorY_setOriginY getOriginY_setCursorY
  slotList_setCursorY slotList_setOriginY : slots.

(** ** The methods in terms of the engine *)

(** On a non-empty list [moveCursorAndOrigin] stores the pair [moveBy]
    computes, and reports whether it differs from the old pair. *)
Lemma moveCursorAndOrigin_eq (viewName : string) (delta h : Z)
    (s : AppState) (p : Slot) :
  selectSlot viewName (showHidden s) = Some p ->
  0 < len (slotList p s) ->
  let r := moveBy (len (slotList p s)) h (getCursorY p s) (getOriginY p s) delta in
  moveCursorAndOrigin viewName delta h s =
    (setOriginY p (snd r) (setCursorY p (fst r) s),
     negb (getCursorY p s =? fst r) || negb (getOriginY p s =? snd r)).
Proof.
  intros Hsel Hlen r. unfold moveCursorAndOrigin. rewrite Hsel.
  destruct (Z.leb_spec (len (slotList p s)) 0) as [Hle|_]; [lia|].
  subst r. unfold moveBy, clampOrigin, clampCursor. cbv zeta. cbn [fst snd].
  match goal with
  | |- (if ?b then _ else _) = _ => destruct b eqn:Hch
  end; [reflexivity|].
  apply orb_false_elim in Hch as [Hc Ho].
  apply negb_false_iff, Z.eqb_eq in Hc. apply negb_false_iff, Z.eqb_eq in Ho.
  rewrite <- Ho, <- Hc. now rewrite store_same.
Qed.

Lemma setCursorAndOrigin_eq (viewName : string) (target h : Z)
    (s : AppState) (p : Slot) :
  selectSlot viewName (showHidden s) = Some p ->
  0 < len (slotList p s) ->
  let r := jumpTo (len (slotList p s)) h (getOriginY p s) target in
  setCursorAndOrigin viewName target h s =
    (setOriginY p (snd r) (setCursorY p (fst r) s),
     negb (getCursorY p s =? fst r) || negb (getOriginY p s =? snd r)).
Proof.
  intros Hsel Hlen r. unfold setCursorAndOrigin. rewrite Hsel.
  destruct (Z.leb_spec (len (slotList p s)) 0) as [Hle|_]; [lia|].
  subst r. unfold jumpTo, clampOrigin, clampCursor. cbv zeta. cbn [fst snd].
  match goal with
  | |- (if ?b then _ else _) = _ => destruct b eqn:Hch
  end; [reflexivity|].
  apply orb_false_elim in Hch as [Hc Ho].
  apply negb_false_iff, Z.eqb_eq in Hc. apply negb_false_iff, Z.eqb_eq in Ho.
  rewrite <- Ho, <- Hc. now rewrite store_same.
Qed.

(** On an empty list both methods store [(0, 0)]. *)
Lemma moveCursorAndOrigin_empty (viewName : string) (delta h : Z)
    (s : AppState) (p : Slot) :
  selectSlot viewName (showHidden s) = Some p ->
  len (slotList p s) = 0 ->
  moveCursorAndOrigin viewName delta h s =
    (setCursorY p 0 (setOriginY p 0 s),
     negb (getOriginY p s =? 0) || negb (getCursorY p s =? 0)).
Proof.
  intros Hsel Hlen. unfold moveCursorAndOrigin. rewrite Hsel, Hlen. reflexivity.
Qed.

Lemma setCursorAndOrigin_empty (viewName : string) (target h : Z)
    (s : AppState) (p : Slot) :
  selectSlot viewName (showHidden s) = Some p ->
  len (slotList p s) = 0 ->
  setCursorAndOrigin viewName target h s =
    (setCursorY p 0 (setOriginY p 0 s),
     negb (getOriginY p s =? 0) || negb (getCursorY p s =? 0)).
Proof.
  intros Hsel Hlen. unfold setCursorAndOrigin. rewrite Hsel, Hlen. reflexivity.
Qed.

(** ** The viewport invariant *)

Lemma viewport_inv_zero (L h : Z) : 0 <= L -> 1 <= h -> viewport_inv L h 0 0.
Proof. unfold viewport_inv. lia. Qed.

(** Storing a pair that satisfies the invariant in one slot keeps the
    invariant of every slot. *)
Lemma slot_inv_store (h : Z) (s : AppState) (q : Slot) (c o : Z) :
  (forall p, slot_inv h s p) ->
  viewport_inv (len (slotList q s)) h c o ->
  forall p, slot_inv h (setOriginY q o (setCursorY q c s)) p.
Proof.
  intros Hall Hq p. unfold slot_inv. autorewrite with slots.
  destruct (slot_eq_dec p q) as [->|_]; [exact Hq|apply Hall].
Qed.

Lemma slot_inv_store_rev (h : Z) (s : AppState) (q : Slot) (c o : Z) :
  (forall p, slot_inv h s p) ->
  viewport_inv (len (slotList q s)) h c o ->
  forall p, slot_inv h (setCursorY q c (setOriginY q o s)) p.
Proof.
  intros Hall Hq p. unfold slot_inv. autorewrite with slots.
  destruct (slot_eq_dec p q) as [->|_]; [exact Hq|apply Hall].
Qed.

Lemma navCall_slotList (h : Z) (s : AppState) (c : NavCall) (p : Slot) :
  slotList p (navCall h s c) = slotList p s.
Proof.
  destruct c as [v d|v t]; cbn [navCall];
    [unfold moveCursorAndOrigin|unfold setCursorAndOrigin];
    (destruct (selectSlot v (showHidden s)) as [q|]; [|reflexivity]);
    cbv zeta;
    repeat match goal with
    | |- context [if ?b then _ else _] => destruct b
    end; cbn [fst]; now autorewrite with slots.
Qed.

Lemma navCall_inv (h : Z) (s : AppState) (c : NavCall) :
  1 <= h <= max_int -> lists_fit s ->
  (forall p, slot_inv h s p) ->
  forall p, slot_inv h (navCall h s c) p.
Proof.
  intros Hh Hfit Hall.
  destruct c as [v d|v t]; cbn [navCall].
  - destruct (selectSlot v (showHidden s)) as [q|] eqn:Hsel.
    + pose proof (len_nonneg (slotList q s)) as H0. specialize (Hfit q).
      destruct (Z.eq_dec (len (slotList q s)) 0) as [Hz|Hnz].
      * rewrite (moveCursorAndOrigin_empty v d h s q Hsel Hz). cbn [fst].
        apply slot_inv_store_rev; [exact Hall|].
        rewrite Hz. apply viewport_inv_zero; lia.
      * rewrite (moveCursorAndOrigin_eq v d h s q Hsel) by lia. cbn [fst].
        apply slot_inv_store; [exact Hall|].
        apply moveBy_inv; [lia|lia|apply Hall].
    + unfold moveCursorAndOrigin. rewrite Hsel. exact Hall.
  - destruct (selectSlot v (showHidden s)) as [q|] eqn:Hsel.
    + pose proof (len_nonneg (slotList q s)) as H0. specialize (Hfit q).
      destruct (Z.eq_dec (len (slotList q s)) 0) as [Hz|Hnz].
      * rewrite (setCursorAndOrigin_empty v t h s q Hsel Hz). cbn [fst].
        apply slot_inv_store_rev; [exact Hall|].
        rewrite Hz. apply viewport_inv_zero; lia.
      * rewrite (setCursorAndOrigin_eq v t h s q Hsel) by lia. cbn [fst].
        apply slot_inv_store; [exact Hall|].
        apply jumpTo_inv with (c := getCursorY q s); [lia|lia|apply Hall].
    + unfold setCursorAndOrigin. rewrite Hsel. exact Hall.
Qed.

Lemma navCalls_inv (h : Z) (calls : list NavCall) :
  1 <= h <= max_int ->
  forall s, lists_fit s -> (forall p, slot_inv h s p) ->
  forall p, slot_inv h (navCalls h calls s) p.
Proof.
  intros Hh. unfold navCalls.
  induction calls as [|c calls IH]; intros s Hfit Hall; cbn [fold_left].
  - exact Hall.
  - apply IH.
    + intros p. rewrite navCall_slotList. apply Hfit.
    + now apply navCall_inv.
Qed.

(** C1. For a viewport of height at least 1, starting from the reset state
    (every cursor and origin 0), after any sequence of [moveCursorAndOrigin]
    and [setCursorAndOrigin] calls every list's stored pair satisfies
    [0 <= cursor < length] (both are 0 when the list is empty),
    [origin <= cursor <= origin + height - 1] and
    [0 <= origin <= max(0, length - height)]. *)
Theorem navigation_keeps_viewport_invariant
    (height : Z) (calls : list NavCall) (s0 : AppState) :
  1 <= height <= max_int ->
  lists_fit s0 ->
  scrolls_reset s0 ->
  forall p : Slot,
    let s := navCalls height calls s0 in
    let length := len (slotList p s) in
    let cursor := getCursorY p s in
    let origin := getOriginY p s in
    (length = 0 -> cursor = 0 /\ origin = 0) /\
    (length <> 0 -> 0 <= cursor < length) /\
    origin <= cursor <= origin + height - 1 /\
    0 <= origin <= Z.max 0 (length - height).
Proof.
  intros Hh Hfit Hreset p.
  apply (navCalls_inv height calls Hh s0 Hfit).
  intros q. unfold slot_inv. destruct (Hreset q) as [-> ->].
  apply viewport_inv_zero; [apply len_nonneg|lia].
Qed.

Lemma navigation_keeps_viewport_invariant_witness :
  let s := navCalls 3 [MoveBy viewFiles 1; JumpTo viewFiles 4;
                       MoveBy viewFolders (-1); MoveBy viewFiles (-3)]
             (SetDirectoryContents [] fiveFiles [] [] (NewAppState "/tmp")) in
  0 <= getCursorY VisibleFiles s < 5 /\
  getOriginY VisibleFiles s <= getCursorY VisibleFiles s
    <= getOriginY VisibleFiles s + 3 - 1.
Proof.
  pose proof (navigation_keeps_viewport_invariant 3
    [MoveBy viewFiles 1; JumpTo viewFiles 4;
     MoveBy viewFolders (-1); MoveBy viewFiles (-3)]
    (SetDirectoryContents [] fiveFiles [] [] (NewAppState "/tmp"))) as H.
  assert (H1 : 1 <= 3 <= max_int) by (vm_compute; split; discriminate).
  assert (H2 : lists_fit
            (SetDirectoryContents [] fiveFiles [] [] (NewAppState "/tmp")))
    by (intros p; destruct p; vm_compute; discriminate).
  assert (H3 : scrolls_reset
            (SetDirectoryContents [] fiveFiles [] [] (NewAppState "/tmp")))
    by (intros p; destruct p; split; reflexivity).
  specialize (H H1 H2 H3 VisibleFiles).
  cbv zeta in H. destruct H as (_ & Hc & Hw & _).
  cbv zeta. split; [|exact Hw].
  apply Hc. vm_compute. discriminate.
Defined.

(** ** A move by zero *)

Lemma moveBy_zero (L h c o : Z) :
  1 <= h <= max_int -> 0 < L <= max_int ->
  viewport_inv L h c o -> moveBy L h c o 0 = (c, o).
Proof.
  intros Hh HL (_ & Hc & Hw & Ho). specialize (Hc ltac:(lia)).
  unfold moveBy, clampCursor, clampOrigin. cbv zeta.
  unwrap. f_equal; cases_cmp; lia.
Qed.

(** C9 as stated fails: a move by zero re-fits the origin to the height
    it is given.  The five files with cursor 2 and origin 0, a pair reached
    at height 3, moved by 0 at height 2 get origin 1 and [changed = true];
    and five files with cursor 4 and origin 0, reached at height 5, moved
    by 0 at height 3 get origin 2 and [changed = true]. *)
Lemma move_by_zero_refits_origin :
  (getCursorY VisibleFiles fiveFilesState,
   getOriginY VisibleFiles fiveFilesState) = (2, 0) /\
  viewportAfter VisibleFiles (moveCursorAndOrigin viewFiles 0 2 fiveFilesState)
    = (2, 1, true) /\
  (getCursorY VisibleFiles fiveFilesAtEnd,
   getOriginY VisibleFiles fiveFilesAtEnd) = (4, 0) /\
  viewportAfter VisibleFiles (moveCursorAndOrigin viewFiles 0 3 fiveFilesAtEnd)
    = (4, 2, true).
Proof. repeat split; vm_compute; reflexivity. Qed.

(** C9, amended. In a state whose stored pair satisfies the viewport
    invariant for the list and the viewport height passed,
    [moveCursorAndOrigin] with delta 0 leaves the state (so cursor and
    origin) unchanged and returns [changed = false]. *)
Theorem move_by_zero_changes_nothing
    (viewName : string) (height : Z) (s : AppState) :
  1 <= height <= max_int ->
  (forall p, selectSlot viewName (showHidden s) = Some p ->
             len (slotList p s) <= max_int /\ slot_inv height s p) ->
  moveCursorAndOrigin viewName 0 height s = (s, false).
Proof.
  intros Hh Hok.
  destruct (selectSlot viewName (showHidden s)) as [q|] eqn:Hsel.
  - destruct (Hok q eq_refl) as [Hfit Hinv].
    pose proof (len_nonneg (slotList q s)) as H0.
    destruct (Z.eq_dec (len (slotList q s)) 0) as [Hz|Hnz].
    + rewrite (moveCursorAndOrigin_empty viewName 0 height s q Hsel Hz).
      destruct Hinv as (Hc0 & _). destruct (Hc0 Hz) as [Hc Ho].
      pose proof (store_same_rev q s) as Hst. rewrite Hc, Ho in Hst.
      rewrite Hst, Hc, Ho. reflexivity.
    + rewrite (moveCursorAndOrigin_eq viewName 0 height s q Hsel) by lia.
      rewrite moveBy_zero by (try exact Hinv; lia). cbn [fst snd].
      now rewrite store_same, !Z.eqb_refl.
  - unfold moveCursorAndOrigin. now rewrite Hsel.
Qed.

Lemma move_by_zero_changes_nothing_witness :
  moveCursorAndOrigin viewFiles 0 3 fiveFilesState = (fiveFilesState, false).
Proof.
  apply move_by_zero_changes_nothing.
  - vm_compute. split; discriminate.
  - intros p Hp. vm_compute in Hp. injection Hp as <-.
    split; [vm_compute; discriminate|].
    unfold slot_inv, viewport_inv. vm_compute.
    repeat split; try discriminate; intros H; try discriminate; exact H.
Defined.

(** ** A viewport height that is not positive *)

(** C4 as stated fails: the two methods use a height of 0 or less as it
    is.  From cursor 2 and origin 0 in a list of five, a move down by one
    with height 0 stores origin 4, below the cursor 3, where height 1
    stores origin 3; a jump to index 4 with height -2 stores origin 5,
    where height 1 stores origin 4. *)
Theorem nonpositive_height_is_not_treated_as_one :
  viewportAfter VisibleFiles (moveCursorAndOrigin viewFiles 1 0 fiveFilesState)
    = (3, 4, true) /\
  viewportAfter VisibleFiles (moveCursorAndOrigin viewFiles 1 1 fiveFilesState)
    = (3, 3, true) /\
  viewportAfter VisibleFiles (setCursorAndOrigin viewFiles 4 (-2) fiveFilesState)
    = (4, 5, true) /\
  viewportAfter VisibleFiles (setCursorAndOrigin viewFiles 4 1 fiveFilesState)
    = (4, 4, true).
Proof. repeat split; vm_compute; reflexivity. Qed.

(** The cursor both methods store does not depend on the height. *)
Lemma moveCursorAndOrigin_cursor (viewName : string) (delta h1 h2 : Z)
    (s : AppState) (q : Slot) :
  getCursorY q (fst (moveCursorAndOrigin viewName delta h1 s))
    = getCursorY q (fst (moveCursorAndOrigin viewName delta h2 s)).
Proof.
  destruct (selectSlot viewName (showHidden s)) as [p|] eqn:Hsel.
  - pose proof (len_nonneg (slotList p s)) as H0.
    destruct (Z.eq_dec (len (slotList p s)) 0) as [Hz|Hnz].
    + now rewrite !(moveCursorAndOrigin_empty viewName delta _ s p Hsel Hz).
    + rewrite !(moveCursorAndOrigin_eq viewName delta _ s p Hsel) by lia.
      cbn [fst]. now rewrite !getCursorY_setOriginY.
  - unfold moveCursorAndOrigin. now rewrite Hsel.
Qed.

Lemma setCursorAndOrigin_cursor (viewName : string) (target h1 h2 : Z)
    (s : AppState) (q : Slot) :
  getCursorY q (fst (setCursorAndOrigin viewName target h1 s))
    = getCursorY q (fst (setCursorAndOrigin viewName target h2 s)).
Proof.
  destruct (selectSlot viewName (showHidden s)) as [p|] eqn:Hsel.
  - pose proof (len_nonneg (slotList p s)) as H0.
    destruct (Z.eq_dec (len (slotList p s)) 0) as [Hz|Hnz].
    + now rewrite !(setCursorAndOrigin_empty viewName target _ s p Hsel Hz).
    + rewrite !(setCursorAndOrigin_eq viewName target _ s p Hsel) by lia.
      cbn [fst]. now rewrite !getCursorY_setOriginY.
  - unfold setCursorAndOrigin. now rewrite Hsel.
Qed.

(** A jump at height 0 centres and clamps as a jump at height 1 does:
    half of either height is 0, and the clamped cursor is below both
    largest origins. *)
Lemma jumpTo_height_zero (L o target : Z) :
  0 < L <= max_int -> in_range o ->
  jumpTo L 0 o target = jumpTo L 1 o target.
Proof.
  intros HL Ho. pose proof (clampCursor_range L target HL) as Hc.
  unfold jumpTo. cbv zeta.
  set (c := clampCursor L target) in *. clearbody c.
  change (div 0 2) with 0. change (div 1 2) with 0.
  unfold clampOrigin. cbv zeta. f_equal.
  unfold in_range in Ho. rewrite max_int_val, min_int_val in Ho.
  destruct (Z.eq_dec o 9223372036854775807) as [->|Hmax].
  - change (add 9223372036854775807 1) with (-9223372036854775808).
    unwrap; cases_cmp; lia.
  - unwrap; cases_cmp; lia.
Qed.

(** C4, amended. With a height of 0 or less both methods store the cursor
    they store with height 1, in every slot; and [setCursorAndOrigin] with
    height 0 gives exactly the state and the flag it gives with height 1.
    The lists are slices and the stored origin is an [int]. *)
Theorem nonpositive_height_keeps_cursor_of_height_one
    (viewName : string) (arg height : Z) (s : AppState) :
  height <= 0 ->
  (forall p, selectSlot viewName (showHidden s) = Some p ->
             len (slotList p s) <= max_int /\ in_range (getOriginY p s)) ->
  (forall q,
     getCursorY q (fst (moveCursorAndOrigin viewName arg height s))
       = getCursorY q (fst (moveCursorAndOrigin viewName arg 1 s)) /\
     getCursorY q (fst (setCursorAndOrigin viewName arg height s))
       = getCursorY q (fst (setCursorAndOrigin viewName arg 1 s))) /\
  setCursorAndOrigin viewName arg 0 s = setCursorAndOrigin viewName arg 1 s.
Proof.
  intros _ Hok. split.
  - intros q. split;
      [apply moveCursorAndOrigin_cursor|apply setCursorAndOrigin_cursor].
  - destruct (selectSlot viewName (showHidden s)) as [p|] eqn:Hsel.
    + destruct (Hok p eq_refl) as [Hfit Ho].
      pose proof (len_nonneg (slotList p s)) as H0.
      destruct (Z.eq_dec (len (slotList p s)) 0) as [Hz|Hnz].
      * now rewrite !(setCursorAndOrigin_empty viewName arg _ s p Hsel Hz).
      * rewrite !(setCursorAndOrigin_eq viewName arg _ s p Hsel) by lia.
        now rewrite jumpTo_height_zero by (try exact Ho; lia).
    + unfold setCursorAndOrigin. now rewrite Hsel.
Qed.

Lemma nonpositive_height_keeps_cursor_of_height_one_witness :
  getCursorY VisibleFiles
    (fst (moveCursorAndOrigin viewFiles 4 (-2) fiveFilesState)) = 4 /\
  setCursorAndOrigin viewFiles 4 0 fiveFilesState
    = setCursorAndOrigin viewFiles 4 1 fiveFilesState.
Proof.
  assert (Hh : -2 <= 0) by (vm_compute; discriminate).
  assert (Hok : forall p,
             selectSlot viewFiles (showHidden fiveFilesState) = Some p ->
             len (slotList p fiveFilesState) <= max_int /\
             in_range (getOriginY p fiveFilesState)).
  { intros p Hp. vm_compute in Hp. injection Hp as <-.
    unfold in_range. vm_compute. repeat split; discriminate. }
  destruct (nonpositive_height_keeps_cursor_of_height_one viewFiles 4 (-2)
              fiveFilesState Hh Hok) as [Hc Heq].
  destruct (Hc VisibleFiles) as [Hm _].
  split; [rewrite Hm; reflexivity|exact Heq].
Defined.

(** ** Committing the scan result *)

(** C2. Whenever [SetStatsResults] is called with a non-nil error, the
    total size stored afterwards is the error sentinel -2, whatever total
    the caller passes. *)
Theorem SetStatsResults_error_forces_sentinel
    (total : Z) (largest : FileInfo) (git : string) (err : error)
    (s : AppState) :
  totalSize (SetStatsResults total largest git (Some err) s) = -2.
Proof.
  unfold SetStatsResults. cbv zeta.
  rewrite bool_decide_eq_true_2 by discriminate.
  cbn [andb set_statsError set_isLoadingStats set_gitStatus set_largestFile
       set_totalSize totalSize].
  destruct (Z.eqb_spec total (-2)) as [->|_]; reflexivity.
Qed.

(** ** The action menu *)

(** C10. Every call to [OpenActionMenu] clears the transient message and
    resets the menu's selected index to 0. *)
Theorem OpenActionMenu_clears_message_and_selection
    (item : FileInfo) (options : list ActionMenuItem) (focus : string)
    (s : AppState) :
  lastMessage (OpenActionMenu item options focus s) = "" /\
  actionMenuSelectedIdx (OpenActionMenu item options focus s) = 0.
Proof. split; reflexivity. Qed.

(** The index [NavigateActionMenu] selects in a visible menu with options. *)
Lemma NavigateActionMenu_idx (delta : Z) (s : AppState) :
  isActionMenuVisible s = true -> len (actionMenuOptions s) <> 0 ->
  actionMenuSelectedIdx (NavigateActionMenu delta s) =
    let i := add (actionMenuSelectedIdx s) delta in
    let i := if i <? 0 then sub (len (actionMenuOptions s)) 1 else i in
    if i >=? len (actionMenuOptions s) then 0 else i.
Proof.
  intros Hvis Hn. unfold NavigateActionMenu. rewrite Hvis. cbn [negb orb].
  destruct (Z.eqb_spec (len (actionMenuOptions s)) 0) as [Hz|_]; [lia|].
  cbv zeta.
  cbn [actionMenuSelectedIdx set_actionMenuSelectedIdx actionMenuOptions].
  destruct (add (actionMenuSelectedIdx s) delta <? 0);
    cbn [actionMenuSelectedIdx set_actionMenuSelectedIdx actionMenuOptions];
    match goal with
    | |- context [if ?b then _ else _] => destruct b
    end; reflexivity.
Qed.

(** C7. Menu navigation wraps: with the menu visible and n > 0 options,
    [NavigateActionMenu 1] at index n-1 selects index 0 and
    [NavigateActionMenu (-1)] at index 0 selects index n-1; with no options,
    or with the menu hidden, [NavigateActionMenu] leaves the state as it
    is. *)
Theorem NavigateActionMenu_wraps (s : AppState) :
  let n := len (actionMenuOptions s) in
  n <= max_int ->
  (isActionMenuVisible s = true -> 0 < n ->
     (actionMenuSelectedIdx s = n - 1 ->
        actionMenuSelectedIdx (NavigateActionMenu 1 s) = 0) /\
     (actionMenuSelectedIdx s = 0 ->
        actionMenuSelectedIdx (NavigateActionMenu (-1) s) = n - 1)) /\
  (n = 0 \/ isActionMenuVisible s = false ->
     forall delta, NavigateActionMenu delta s = s).
Proof.
  intros n Hn. subst n. split.
  - intros Hvis Hpos.
    split; intros Hidx; rewrite NavigateActionMenu_idx by (trivial; lia);
      rewrite Hidx; cbv zeta; unwrap; cases_cmp; lia.
  - intros [Hz|Hhid] delta; unfold NavigateActionMenu.
    + rewrite Hz. cbn [Z.eqb]. now rewrite orb_true_r.
    + now rewrite Hhid.
Qed.

Lemma NavigateActionMenu_wraps_witness :
  actionMenuSelectedIdx (NavigateActionMenu (-1) threeOptionsState) = 2 /\
  actionMenuSelectedIdx
    (NavigateActionMenu 1 (NavigateActionMenu (-1) threeOptionsState)) = 0 /\
  NavigateActionMenu 1 (CloseActionMenu threeOptionsState)
    = CloseActionMenu threeOptionsState.
Proof.
  assert (Hmax : 3 <= max_int) by (vm_compute; discriminate).
  split; [|split].
  - apply (NavigateActionMenu_wraps threeOptionsState Hmax);
      [reflexivity|reflexivity|reflexivity].
  - apply (NavigateActionMenu_wraps
             (NavigateActionMenu (-1) threeOptionsState) Hmax);
      [reflexivity|reflexivity|reflexivity].
  - apply (NavigateActionMenu_wraps (CloseActionMenu threeOptionsState)).
    + vm_compute. discriminate.
    + left. reflexivity.
Defined.

(** ** The content viewer's line count *)

Lemma strings_Count_count_byte (c : string) (a : ascii) :
  strings_Count c a = count_byte c a.
Proof.
  unfold count_byte. induction c as [|x c IH]; [reflexivity|].
  cbn [strings_Count list_ascii_of_string count_occ]. rewrite IH.
  destruct (Ascii.eqb_spec x a) as [->|Hne].
  - destruct (ascii_dec a a) as [_|Hn]; [lia|contradiction].
  - destruct (ascii_dec x a) as [He|_]; [contradiction|lia].
Qed.

Lemma append_nil (q : string) : "" +:+ q = q.
Proof. reflexivity. Qed.

Lemma append_cons (x : ascii) (p q : string) :
  String x p +:+ q = String x (p +:+ q).
Proof. reflexivity. Qed.

Lemma strings_HasSuffix_cons (x y : ascii) (c : string) (a : ascii) :
  strings_HasSuffix (String x (String y c)) a = strings_HasSuffix (String y c) a.
Proof. reflexivity. Qed.

Lemma strings_HasSuffix_ends_with (c : string) (a : ascii) :
  strings_HasSuffix c a = true <-> ends_with c a.
Proof.
  unfold ends_with. split.
  - induction c as [|x c IH]; [discriminate|].
    destruct c as [|y c].
    + cbn [strings_HasSuffix]. intros H. apply Ascii.eqb_eq in H as ->.
      now exists "".
    + rewrite strings_HasSuffix_cons. intros H.
      destruct (IH H) as [p Hp]. exists (String x p). rewrite Hp. reflexivity.
  - intros [p ->]. induction p as [|x p IH].
    + rewrite append_nil. cbn [strings_HasSuffix]. apply Ascii.eqb_refl.
    + destruct p as [|y p]; rewrite ?append_cons, ?append_nil in *;
        rewrite strings_HasSuffix_cons; exact IH.
Qed.

Lemma strings_Count_bounds (c : string) (a : ascii) :
  0 <= strings_Count c a <= slen c.
Proof.
  unfold slen. induction c as [|x c IH]; cbn [strings_Count String.length].
  - lia.
  - destruct (Ascii.eqb x a); lia.
Qed.

Lemma strings_Count_no_suffix (c : string) (a : ascii) :
  c <> "" -> strings_HasSuffix c a = false -> strings_Count c a < slen c.
Proof.
  unfold slen. induction c as [|x c IH]; [congruence|]. intros _.
  destruct c as [|y c].
  - cbn. intros ->. lia.
  - rewrite strings_HasSuffix_cons. intros H.
    specialize (IH ltac:(discriminate) H).
    change (strings_Count (String x (String y c)) a)
      with ((if Ascii.eqb x a then 1 else 0) + strings_Count (String y c) a).
    change (String.length (String x (String y c)))
      with (S (String.length (String y c))).
    destruct (Ascii.eqb x a); lia.
Qed.

Lemma slen_zero (c : string) : slen c = 0 <-> c = "".
Proof.
  unfold slen. destruct c; cbn [String.length]; split; try congruence; lia.
Qed.

(** The line count [SetFileContentView] stores. *)
Lemma SetFileContentView_total (filename c prevFocus : string) (s : AppState) :
  fileContentViewTotalLines (SetFileContentView filename c prevFocus s) =
    if negb (strings_HasSuffix c LF) && (slen c >? 0)
    then add (strings_Count c LF) 1
    else if slen c =? 0 then 1 else strings_Count c LF.
Proof.
  unfold SetFileContentView. cbv zeta.
  destruct (negb (strings_HasSuffix c LF) && (slen c >? 0)); [reflexivity|].
  destruct (slen c =? 0); reflexivity.
Qed.

(** C8. [SetFileContentView] stores as total lines: 1 for an empty text;
    the number of newlines for a non-empty text that ends with a newline;
    that number plus 1 for a non-empty text that does not.  Scrolling the
    viewer afterwards does not change the value. *)
Theorem SetFileContentView_total_lines
    (filename c prevFocus : string) (s : AppState) :
  slen c <= max_int ->
  let s' := SetFileContentView filename c prevFocus s in
  (c = "" -> fileContentViewTotalLines s' = 1) /\
  (c <> "" -> ends_with c LF ->
     fileContentViewTotalLines s' = count_byte c LF) /\
  (c <> "" -> ~ ends_with c LF ->
     fileContentViewTotalLines s' = count_byte c LF + 1) /\
  (forall delta viewHeight,
     fileContentViewTotalLines (ScrollFileContentView delta viewHeight s')
       = fileContentViewTotalLines s').
Proof.
  intros Hfit s'. subst s'.
  rewrite <- strings_Count_count_byte.
  pose proof (strings_Count_bounds c LF) as Hb.
  split; [|split; [|split]].
  4: { intros delta viewHeight. unfold ScrollFileContentView.
       destruct (negb _); reflexivity. }
  all: rewrite SetFileContentView_total.
  - intros ->. reflexivity.
  - intros Hne Hend. apply strings_HasSuffix_ends_with in Hend.
    rewrite Hend. cbn [negb andb].
    destruct (Z.eqb_spec (slen c) 0) as [Hz|_]; [|reflexivity].
    apply slen_zero in Hz. contradiction.
  - intros Hne Hend.
    destruct (strings_HasSuffix c LF) eqn:Hs.
    + apply strings_HasSuffix_ends_with in Hs. contradiction.
    + pose proof (strings_Count_no_suffix c LF Hne Hs) as Hlt.
      assert (Hpos : 0 < slen c).
      { destruct (Z.eq_dec (slen c) 0) as [Hz|Hnz].
        - apply slen_zero in Hz. contradiction.
        - unfold slen in *. lia. }
      cbn [negb andb]. rewrite Z.gtb_ltb.
      destruct (Z.ltb_spec 0 (slen c)) as [_|Hle]; [|lia].
      unwrap. reflexivity.
Qed.

Lemma SetFileContentView_total_lines_witness :
  fileContentViewTotalLines
    (SetFileContentView "notes.txt" (String "a" (String LF (String "b" "")))
       viewFiles (NewAppState "/tmp")) = 2.
Proof.
  assert (Hfit : slen (String "a" (String LF (String "b" ""))) <= max_int)
    by (vm_compute; discriminate).
  destruct (SetFileContentView_total_lines "notes.txt"
              (String "a" (String LF (String "b" ""))) viewFiles
              (NewAppState "/tmp") Hfit) as (_ & _ & Hno & _).
  rewrite Hno.
  - reflexivity.
  - discriminate.
  - intros [p Hp]. destruct p as [|x [|y [|z p]]];
      rewrite ?append_cons, ?append_nil in Hp; try discriminate.
    destruct p; rewrite ?append_cons, ?append_nil in Hp; discriminate.
Defined.

(** ** Opening the action menu *)

(** C6 as stated fails: on the file "c" selected in [fiveFilesState] the
    menu's labels are not
    the specified ones: the fourth reads "Copy Content (UTF-8)". *)
Lemma handleEnter_file_labels_differ :
  GetCurrentList viewFiles fiveFilesState
    !! Z.to_nat (GetCurrentCursorY viewFiles fiveFilesState)
    = Some (mkFileInfo "c" "/tmp/c" false 0 "") /\
  map Label (actionMenuOptions (handleEnter (Some viewFiles) fiveFilesState))
    <> specified_labels (mkFileInfo "c" "/tmp/c" false 0 "").
Proof.
  split; [reflexivity|].
  vm_compute. intros H. discriminate H.
Qed.

(** C6, amended. For every selected item, [handleEnter] opens the action
    menu on it with exactly the options "Copy Full Path", "Copy Relative
    Path", "Cancel" when the item is a directory, and with "View Content"
    and "Copy Content (UTF-8)" inserted before "Cancel" when it is a file. *)
Theorem handleEnter_menu_options
    (viewName : string) (s : AppState) (item : FileInfo) :
  0 <= GetCurrentCursorY viewName s ->
  GetCurrentList viewName s !! Z.to_nat (GetCurrentCursorY viewName s)
    = Some item ->
  let s' := handleEnter (Some viewName) s in
  isActionMenuVisible s' = true /\
  actionMenuItemTarget s' = item /\
  map Label (actionMenuOptions s') = built_labels item.
Proof.
  intros Hpos Hsel s'. subst s'. unfold handleEnter.
  pose proof (lookup_lt_Some _ _ _ Hsel) as Hlt.
  set (currentList := GetCurrentList viewName s) in *.
  set (cursorY := GetCurrentCursorY viewName s) in *.
  assert (Hlen : cursorY < len currentList) by (unfold len; lia).
  destruct (Z.eqb_spec (len currentList) 0) as [Hz|_]; [lia|].
  destruct (Z.ltb_spec cursorY 0) as [Hneg|_]; [lia|].
  rewrite Z.geb_leb.
  destruct (Z.leb_spec (len currentList) cursorY) as [Hge|_]; [lia|].
  cbn [orb]. rewrite Hsel. unfold built_labels.
  destruct (IsDir item); cbn; repeat split; reflexivity.
Qed.

Lemma handleEnter_menu_options_witness :
  map Label (actionMenuOptions (handleEnter (Some viewFiles) fiveFilesState))
    = ["Copy Full Path"; "Copy Relative Path"; "View Content";
       "Copy Content (UTF-8)"; "Cancel"].
Proof.
  apply (handleEnter_menu_options viewFiles fiveFilesState
           (mkFileInfo "c" "/tmp/c" false 0 "")).
  - vm_compute. discriminate.
  - reflexivity.
Defined.

(** ** From the menu to the content viewer *)

Lemma OpenActionMenu_menu_open (item : FileInfo)
    (options : list ActionMenuItem) (focus : string) (s : AppState) :
  menu_open item options focus (OpenActionMenu item options focus s).
Proof.
  split; try reflexivity.
  intros Hne. change (0 < len options). destruct options; [contradiction|].
  unfold len. cbn [length]. lia.
Qed.

Lemma NavigateActionMenu_unchanged_fields (delta : Z) (s : AppState) :
  isActionMenuVisible (NavigateActionMenu delta s) = isActionMenuVisible s /\
  actionMenuItemTarget (NavigateActionMenu delta s) = actionMenuItemTarget s /\
  actionMenuOptions (NavigateActionMenu delta s) = actionMenuOptions s /\
  previousFocusView (NavigateActionMenu delta s) = previousFocusView s.
Proof.
  unfold NavigateActionMenu.
  destruct (negb (isActionMenuVisible s) || _); [tauto|].
  cbv zeta.
  destruct (actionMenuSelectedIdx (set_actionMenuSelectedIdx _ s) <? 0);
    match goal with
    | |- context [if ?b then _ else _] => destruct b
    end; repeat split; reflexivity.
Qed.

Lemma NavigateActionMenu_menu_open (item : FileInfo)
    (options : list ActionMenuItem) (focus : string) (delta : Z)
    (s : AppState) :
  len options <= max_int ->
  menu_open item options focus s ->
  menu_open item options focus (NavigateActionMenu delta s).
Proof.
  intros Hfit [Hv Ht Ho Hf Hlo Hhi].
  destruct (NavigateActionMenu_unchanged_fields delta s) as (Ev & Et & Eo & Ef).
  pose proof (len_nonneg options) as Hn.
  destruct (Z.eq_dec (len options) 0) as [Hz|Hnz].
  - assert (Hid : NavigateActionMenu delta s = s).
    { unfold NavigateActionMenu. rewrite Ho, Hz. cbn [Z.eqb].
      now rewrite orb_true_r. }
    rewrite Hid. now split.
  - split; try congruence.
    + rewrite NavigateActionMenu_idx by (trivial; congruence).
      rewrite Ho. cbv zeta.
      pose proof (wrap_in_range (actionMenuSelectedIdx s + delta)) as Hx.
      unfold add. set (x := wrap _) in *. clearbody x.
      unwrap. cases_cmp; lia.
    + intros _. rewrite NavigateActionMenu_idx by (trivial; congruence).
      rewrite Ho. cbv zeta.
      pose proof (wrap_in_range (actionMenuSelectedIdx s + delta)) as Hx.
      unfold add. set (x := wrap _) in *. clearbody x.
      unwrap. cases_cmp; lia.
Qed.

Lemma navigateMenu_menu_open (item : FileInfo)
    (options : list ActionMenuItem) (focus : string) (deltas : list Z) :
  len options <= max_int ->
  forall s, menu_open item options focus s ->
            menu_open item options focus (navigateMenu deltas s).
Proof.
  intros Hfit. unfold navigateMenu.
  induction deltas as [|d deltas IH]; intros s Hs; cbn [fold_left].
  - exact Hs.
  - apply IH. unfold handleMenuNavigate.
    now apply NavigateActionMenu_menu_open.
Qed.

(** When [viewFileContentAction] returns no error it has opened the viewer
    on the focus recorded in [previousFocusView], or on the folders view if
    none was recorded. *)
Lemma viewFileContentAction_success (env : Collaborators) (item : FileInfo)
    (s : AppState) :
  snd (viewFileContentAction env item s) = None ->
  exists content : string,
    fst (viewFileContentAction env item s) =
      SetFileContentView (Name item) content
        (if String.eqb (previousFocusView s) "" then viewFolders
         else previousFocusView s) s.
Proof.
  unfold viewFileContentAction.
  destruct (IsDir item); [discriminate|].
  destruct (ReadFileWithLimit env (Path item) maxViewSize) as [[bytes|]|err];
    [|intros _; eexists; reflexivity|discriminate].
  destruct (hasNullByte bytes); [discriminate|].
  intros _. eexists. reflexivity.
Qed.

Lemma SetFileContentView_fields (filename content prevFocus : string)
    (s : AppState) :
  fileContentViewPrevFocus (SetFileContentView filename content prevFocus s)
    = prevFocus /\
  isFileContentViewVisible (SetFileContentView filename content prevFocus s)
    = true.
Proof.
  unfold SetFileContentView. cbv zeta.
  destruct (negb (strings_HasSuffix content LF) && (slen content >? 0));
    [|destruct (slen content =? 0)]; split; reflexivity.
Qed.

(** [handleEnter], the only caller of [OpenActionMenu], opens the menu
    from one of the two list views only, and records that view's name. *)
Lemma handleEnter_records_list_view (viewName : string) (s : AppState) :
  handleEnter (Some viewName) s <> s ->
  (viewName = viewFolders \/ viewName = viewFiles) /\
  previousFocusView (handleEnter (Some viewName) s) = viewName.
Proof.
  unfold handleEnter, GetCurrentList, GetCurrentCursorY, selectSlot.
  destruct (String.eqb_spec viewName viewFolders) as [Hf|_];
    [|destruct (String.eqb_spec viewName viewFiles) as [Hf|_]].
  3: { intros H. exfalso. apply H. reflexivity. }
  all: intros H; split; [tauto|]; revert H.
  all: repeat match goal with
       | |- context [if ?b then _ else _] => destruct b
       | |- context [match ?l !! ?i with _ => _ end] => destruct (l !! i)
       end; intros H; try (exfalso; apply H; reflexivity); reflexivity.
Qed.

(** Selecting "View Content" in an open menu, when the action succeeds:
    the viewer is shown with the recorded focus (the folders view if none
    was recorded) and the menu is closed, all within this one call. *)
Lemma handleMenuSelect_view_content (env : Collaborators) (item : FileInfo)
    (options : list ActionMenuItem) (focus : string) (s : AppState) :
  menu_open item options focus s ->
  options !! Z.to_nat (actionMenuSelectedIdx s)
    = Some (mkActionMenuItem "View Content" (Some viewFileContentActionFn)) ->
  snd (viewFileContentAction env item s) = None ->
  fileContentViewPrevFocus (handleMenuSelect env s)
    = (if String.eqb focus "" then viewFolders else focus) /\
  isFileContentViewVisible (handleMenuSelect env s) = true /\
  isActionMenuVisible (handleMenuSelect env s) = false.
Proof.
  intros [Hv Ht Ho Hf Hlo Hhi] Hopt Hok.
  pose proof (lookup_lt_Some _ _ _ Hopt) as Hlt.
  assert (Hidx : actionMenuSelectedIdx s < len options) by (unfold len; lia).
  destruct (viewFileContentAction_success env item s Hok) as [content Hst].
  rewrite Hf in Hst.
  unfold handleMenuSelect. rewrite Ho, Ht.
  destruct (Z.ltb_spec (actionMenuSelectedIdx s) 0) as [Hneg|_]; [lia|].
  rewrite Z.geb_leb.
  destruct (Z.leb_spec (len options) (actionMenuSelectedIdx s)) as [Hge|_];
    [lia|].
  cbn [orb]. rewrite Hopt. cbn [Label ActionFn callAction].
  change (String.eqb "View Content" "View Content") with true.
  cbn [negb].
  destruct (viewFileContentAction env item s) as [s1 e] eqn:Hact.
  cbn [fst snd] in Hok, Hst. subst e s1.
  destruct (SetFileContentView_fields (Name item) content
              (if String.eqb focus "" then viewFolders else focus) s)
    as [Hprev Hshown].
  split; [exact Hprev|]. split; [exact Hshown|reflexivity].
Qed.

(** C5. If the menu was opened by [OpenActionMenu] recording the focus view
    [focus] (a view name, so not the empty string), then, after any menu
    navigation, a successful "View Content" selection stores [focus] as
    [fileContentViewPrevFocus], shows the viewer, and closes the menu
    within the same call of [handleMenuSelect]. *)
Theorem view_content_returns_to_focus_before_menu
    (env : Collaborators) (item : FileInfo) (options : list ActionMenuItem)
    (focus : string) (deltas : list Z) (s0 : AppState) :
  focus <> "" ->
  len options <= max_int ->
  let s := navigateMenu deltas (OpenActionMenu item options focus s0) in
  options !! Z.to_nat (actionMenuSelectedIdx s)
    = Some (mkActionMenuItem "View Content" (Some viewFileContentActionFn)) ->
  snd (viewFileContentAction env item s) = None ->
  let s' := handleMenuSelect env s in
  fileContentViewPrevFocus s' = focus /\
  isFileContentViewVisible s' = true /\
  isActionMenuVisible s' = false.
Proof.
  intros Hfocus Hfit s Hopt Hok s'. subst s'.
  assert (Hopen : menu_open item options focus s).
  { apply navigateMenu_menu_open; [exact Hfit|].
    apply OpenActionMenu_menu_open. }
  pose proof (handleMenuSelect_view_content env item options focus s
                Hopen Hopt Hok) as H.
  apply String.eqb_neq in Hfocus. rewrite Hfocus in H. exact H.
Qed.

Lemma view_content_returns_to_focus_before_menu_witness :
  let s' :=
    handleMenuSelect sampleEnv
      (navigateMenu [1; 1]
         (OpenActionMenu sampleFile fileMenu viewFiles fiveFilesState)) in
  fileContentViewPrevFocus s' = viewFiles /\
  isFileContentViewVisible s' = true /\
  isActionMenuVisible s' = false.
Proof.
  apply (view_content_returns_to_focus_before_menu sampleEnv sampleFile
           fileMenu viewFiles [1; 1] fiveFilesState).
  - discriminate.
  - vm_compute. discriminate.
  - reflexivity.
  - reflexivity.
Defined.

(** ** The scanner *)

Lemma length_append (a b : string) :
  String.length (a +:+ b) = (String.length a + String.length b)%nat.
Proof.
  induction a as [|x a IH]; [reflexivity|].
  rewrite append_cons. cbn [String.length]. now rewrite IH.
Qed.

(** An entry's path is never the scanned directory's own path. *)
Lemma filepath_Join_neq (dir name : string) :
  String.eqb (filepath_Join dir name) dir = false.
Proof.
  apply String.eqb_neq. intros H. apply (f_equal String.length) in H.
  unfold filepath_Join in H. rewrite !length_append in H.
  cbn [String.length] in H. lia.
Qed.

Lemma walkEntries_cons {St : Type}
    (fn : string -> option FsNode -> option error -> St -> St * WalkRet)
    (path : string) (d1 : FsNode) (ds : list FsNode) (st : St) :
  walkEntries fn path (d1 :: ds) st =
    let '(st, err) := walkDir fn (filepath_Join path (d_Name d1)) d1 st in
    match err with
    | RetNil => walkEntries fn path ds st
    | RetSkipDir => (st, RetNil)
    | RetErr e => (st, RetErr e)
    end.
Proof. reflexivity. Qed.

Section ScannerFacts.

Variable getIcon : string -> bool -> string.
Variable filepath_Base : string -> string.

Lemma walkDir_leaf (cwd : string) (d : FsNode) (w : WalkVars) :
  is_leaf d ->
  walkDir (walkFn getIcon cwd) (filepath_Join cwd (d_Name d)) d w
    = (leafStep getIcon cwd w d, RetNil).
Proof.
  destruct d as [name [size|err]|name sub [e|]]; cbn [is_leaf]; try tauto;
    intros _; cbn [walkDir d_Name]; unfold walkFn;
    rewrite filepath_Join_neq; cbn [d_IsDir d_Info negb d_Name].
  - reflexivity.
  - unfold leafStep, noteError.
    destruct (w_firstWalkErr w); reflexivity.
Qed.

(** Over leaves the walk is a fold: errored subtrees are skipped and their
    siblings are still visited. *)
Lemma walkEntries_leaves (cwd : string) (ds : list FsNode) :
  Forall is_leaf ds ->
  forall w, walkEntries (walkFn getIcon cwd) cwd ds w
            = (fold_left (leafStep getIcon cwd) ds w, RetNil).
Proof.
  induction 1 as [|d ds Hd _ IH]; intros w; [reflexivity|].
  rewrite walkEntries_cons, (walkDir_leaf cwd d w Hd). cbn [fold_left].
  apply IH.
Qed.

(** The root itself is skipped. *)
Lemma walkFn_root (cwd : string) (d : option FsNode) (w : WalkVars) :
  walkFn getIcon cwd cwd d None w = (w, RetNil).
Proof. unfold walkFn. now rewrite String.eqb_refl. Qed.

Lemma WalkDir_leaves (cwd rootName : string) (ds : list FsNode)
    (w : WalkVars) :
  Forall is_leaf ds ->
  WalkDir (walkFn getIcon cwd) cwd (inl (FsDir rootName ds None)) w
    = (fold_left (leafStep getIcon cwd) ds w, None).
Proof.
  intros Hds. unfold WalkDir.
  change (walkDir (walkFn getIcon cwd) cwd (FsDir rootName ds None) w)
    with (let '(st, err) :=
            walkFn getIcon cwd cwd (Some (FsDir rootName ds None)) None w in
          match err with
          | RetSkipDir => (st, RetNil)
          | RetErr e => (st, RetErr e)
          | RetNil => walkEntries (walkFn getIcon cwd) cwd ds st
          end).
  rewrite walkFn_root. now rewrite walkEntries_leaves.
Qed.

(** C3. Scanning a directory that holds three readable files of 10, 500
    and 2000 bytes and one subdirectory that cannot be read, in whatever
    order the entries come and whatever the subdirectory holds, commits
    the error sentinel -2 as total size, the 2000-byte file as largest
    file, and as error the first traversal error, which names the
    unreadable subdirectory. *)
Theorem scan_with_unreadable_subdirectory
    (rootName n10 n500 n2000 nd : string) (e : error) (sub : list FsNode)
    (entries : list FsNode) (git : GitFacts) (s : AppState) :
  entries ≡ₚ [FsFile n10 (inl 10); FsFile n500 (inl 500);
              FsFile n2000 (inl 2000); FsDir nd sub (Some e)] ->
  let s' :=
    calculateStats getIcon filepath_Base
      (inl (FsDir rootName entries None)) git s in
  totalSize s' = -2 /\
  largestFile s' =
    mkFileInfo n2000 (filepath_Join (cwd s) n2000) false 2000
      (getIcon n2000 false) /\
  statsError s' = Some ("accessing " +:+ nd +:+ ": " +:+ e) /\
  isLoadingStats s' = false.
Proof.
  intros Hperm s'. subst s'.
  assert (Hleaf : Forall is_leaf entries).
  { rewrite Hperm. repeat constructor. }
  unfold calculateStats. cbv zeta.
  change (cwd (SetStatsLoading s)) with (cwd s).
  rewrite (WalkDir_leaves (cwd s) rootName entries _ Hleaf).
  symmetry in Hperm. apply permutations_Permutation in Hperm.
  cbv [permutations interleave mbind list_bind fmap list_fmap app foldr
       mjoin list_join] in Hperm.
  repeat (apply elem_of_cons in Hperm as [->|Hperm];
          [vm_compute; repeat split; reflexivity|]).
  now apply elem_of_nil in Hperm.
Qed.

End ScannerFacts.

Lemma scan_with_unreadable_subdirectory_witness :
  let s' :=
    calculateStats (fun _ _ => "") (fun path => path)
      (inl (FsDir "tmp"
              [FsFile "a.txt" (inl 10);
               FsDir "locked" [FsFile "hidden.bin" (inl 1000000)]
                 (Some "permission denied");
               FsFile "b.txt" (inl 2000);
               FsFile "c.txt" (inl 500)]
              None))
      (mkGitFacts (false, None) ("", None)) (NewAppState "/tmp") in
  totalSize s' = -2 /\
  Name (largestFile s') = "b.txt" /\
  Size (largestFile s') = 2000 /\
  statsError s' = Some "accessing locked: permission denied".
Proof.
  destruct (scan_with_unreadable_subdirectory (fun _ _ => "")
              (fun path => path) "tmp" "a.txt" "c.txt" "b.txt" "locked"
              "permission denied" [FsFile "hidden.bin" (inl 1000000)]
              [FsFile "a.txt" (inl 10);
               FsDir "locked" [FsFile "hidden.bin" (inl 1000000)]
                 (Some "permission denied");
               FsFile "b.txt" (inl 2000);
               FsFile "c.txt" (inl 500)]
              (mkGitFacts (false, None) ("", None)) (NewAppState "/tmp"))
    as (Htotal & Hlargest & Herr & _).
  - symmetry. apply permutations_Permutation. vm_compute.
    repeat first [apply list_elem_of_here | apply list_elem_of_further].
  - cbv zeta. rewrite Htotal, Hlargest, Herr. repeat split; reflexivity.
Defined.

(** * Further properties of the code *)

(** ** The viewport methods *)

Ltac no_wrap t :=
  lazymatch t with
  | context [wrap _] => fail
  | _ => idtac
  end.

(** One case analysis on a comparison of terms free of conditionals and
    of wrap-arounds. *)
Ltac case_cmp :=
  match goal with
  | |- context [?a >? ?b] => rewrite (Z.gtb_ltb a b)
  | |- context [?a >=? ?b] => rewrite (Z.geb_leb a b)
  | |- context [?a <? ?b] =>
    no_if a; no_if b; no_wrap a; no_wrap b; destruct (Z.ltb_spec a b)
  | |- context [?a <=? ?b] =>
    no_if a; no_if b; no_wrap a; no_wrap b; destruct (Z.leb_spec a b)
  | |- context [?a =? ?b] =>
    no_if a; no_if b; no_wrap a; no_wrap b; destruct (Z.eqb_spec a b)
  end; cbv iota; cbn [orb andb negb].

(** Alternates removal of wrap-arounds and case analysis until neither
    applies. *)
Ltac crunch :=
  unwrap;
  repeat first
    [ match goal with
      | |- context [wrap ?z] =>
        rewrite (wrap_id z)
          by (unfold in_range; rewrite ?max_int_val, ?min_int_val; lia)
      end
    | case_cmp ].

Lemma store_eq_iff (p : Slot) (c o : Z) (s : AppState) :
  setOriginY p o (setCursorY p c s) = s <->
  getCursorY p s = c /\ getOriginY p s = o.
Proof.
  split.
  - intros H. split.
    + apply (f_equal (getCursorY p)) in H. autorewrite with slots in H.
      destruct (slot_eq_dec p p); congruence.
    + apply (f_equal (getOriginY p)) in H. autorewrite with slots in H.
      destruct (slot_eq_dec p p); congruence.
  - intros [<- <-]. apply store_same.
Qed.

Lemma store_rev_eq_iff (p : Slot) (c o : Z) (s : AppState) :
  setCursorY p c (setOriginY p o s) = s <->
  getCursorY p s = c /\ getOriginY p s = o.
Proof.
  split.
  - intros H. split.
    + apply (f_equal (getCursorY p)) in H. autorewrite with slots in H.
      destruct (slot_eq_dec p p); congruence.
    + apply (f_equal (getOriginY p)) in H. autorewrite with slots in H.
      destruct (slot_eq_dec p p); congruence.
  - intros [<- <-]. apply store_same_rev.
Qed.

Lemma changed_false_iff (c c' o o' : Z) :
  negb (c =? c') || negb (o =? o') = false <-> c = c' /\ o = o'.
Proof.
  destruct (Z.eqb_spec c c'), (Z.eqb_spec o o'); cbn; split;
    intros H; try discriminate; try tauto; destruct H; contradiction.
Qed.

(** X1. The flag both methods return is exact: it is [false] exactly when the
    call left the state as it was.  This holds for every view name, every
    argument and every height. *)
Theorem changed_flag_is_exact
    (viewName : string) (arg viewHeight : Z) (s : AppState) :
  (snd (moveCursorAndOrigin viewName arg viewHeight s) = false <->
   fst (moveCursorAndOrigin viewName arg viewHeight s) = s) /\
  (snd (setCursorAndOrigin viewName arg viewHeight s) = false <->
   fst (setCursorAndOrigin viewName arg viewHeight s) = s).
Proof.
  destruct (selectSlot viewName (showHidden s)) as [p|] eqn:Hsel.
  - pose proof (len_nonneg (slotList p s)) as H0.
    destruct (Z.eq_dec (len (slotList p s)) 0) as [Hz|Hnz].
    + rewrite (moveCursorAndOrigin_empty viewName arg viewHeight s p Hsel Hz).
      rewrite (setCursorAndOrigin_empty viewName arg viewHeight s p Hsel Hz).
      cbn [fst snd]. rewrite store_rev_eq_iff.
      assert (E : negb (getOriginY p s =? 0) || negb (getCursorY p s =? 0)
                  = false <-> getCursorY p s = 0 /\ getOriginY p s = 0).
      { rewrite changed_false_iff. tauto. }
      tauto.
    + rewrite (moveCursorAndOrigin_eq viewName arg viewHeight s p Hsel)
        by lia.
      rewrite (setCursorAndOrigin_eq viewName arg viewHeight s p Hsel)
        by lia.
      cbn [fst snd]. rewrite !store_eq_iff, !changed_false_iff. tauto.
  - unfold moveCursorAndOrigin, setCursorAndOrigin. rewrite Hsel.
    cbn [fst snd]. tauto.
Qed.

(** The engine when nothing overflows and the pair is valid. *)
Lemma moveBy_in_window (L h c o delta : Z) :
  1 <= h <= max_int -> 0 < L <= max_int ->
  viewport_inv L h c o ->
  0 <= c + delta < L -> o <= c + delta <= o + h - 1 ->
  moveBy L h c o delta = (c + delta, o).
Proof.
  intros Hh HL (_ & Hc & Hw & Ho) Hin Hwin. specialize (Hc ltac:(lia)).
  unfold moveBy, clampCursor, clampOrigin. cbv zeta.
  f_equal; crunch; lia.
Qed.

Lemma moveBy_cursor (L h c o delta : Z) :
  0 < L <= max_int -> min_int <= c + delta <= max_int ->
  fst (moveBy L h c o delta) = Z.max 0 (Z.min (L - 1) (c + delta)).
Proof.
  intros HL Hsum. unfold moveBy, clampCursor. cbv zeta. cbn [fst].
  crunch; lia.
Qed.

Lemma jumpTo_in_window (L h c o target : Z) :
  1 <= h <= max_int -> 0 < L <= max_int ->
  viewport_inv L h c o ->
  0 <= target < L -> o <= target <= o + h - 1 ->
  jumpTo L h o target = (target, o).
Proof.
  intros Hh HL (_ & Hc & Hw & Ho) Hin Hwin. specialize (Hc ltac:(lia)).
  unfold jumpTo, clampCursor, clampOrigin. cbv zeta.
  pose proof (quot2_bounds h ltac:(lia)) as Hq.
  unfold div. set (q := Z.quot h 2) in *. clearbody q.
  f_equal; crunch; lia.
Qed.

Lemma jumpTo_top (L h c o : Z) :
  1 <= h <= max_int -> 0 < L <= max_int ->
  viewport_inv L h c o ->
  jumpTo L h o 0 = (0, 0).
Proof.
  intros Hh HL (_ & Hc & Hw & Ho). specialize (Hc ltac:(lia)).
  unfold jumpTo, clampCursor, clampOrigin. cbv zeta.
  pose proof (quot2_bounds h ltac:(lia)) as Hq.
  unfold div. set (q := Z.quot h 2) in *. clearbody q.
  f_equal; crunch; lia.
Qed.

Lemma jumpTo_bottom (L h c o : Z) :
  1 <= h <= max_int -> 0 < L <= max_int ->
  viewport_inv L h c o ->
  jumpTo L h o (L - 1) = (L - 1, Z.max 0 (L - h)).
Proof.
  intros Hh HL (_ & Hc & Hw & Ho). specialize (Hc ltac:(lia)).
  unfold jumpTo, clampCursor, clampOrigin. cbv zeta.
  pose proof (quot2_bounds h ltac:(lia)) as Hq.
  unfold div. set (q := Z.quot h 2) in *. clearbody q.
  f_equal; crunch; lia.
Qed.

Lemma getCursorY_store (p : Slot) (c o : Z) (s : AppState) :
  getCursorY p (setOriginY p o (setCursorY p c s)) = c.
Proof.
  autorewrite with slots. destruct (slot_eq_dec p p); congruence.
Qed.

Lemma getOriginY_store (p : Slot) (c o : Z) (s : AppState) :
  getOriginY p (setOriginY p o (setCursorY p c s)) = o.
Proof.
  autorewrite with slots. destruct (slot_eq_dec p p); congruence.
Qed.

(** X2. A move whose target line is already shown does not scroll: in a valid
    state, if [cursor + delta] is an index of the list inside the window,
    the cursor becomes [cursor + delta] and the origin stays. *)
Theorem move_inside_window_does_not_scroll
    (viewName : string) (delta height : Z) (s : AppState) (p : Slot) :
  selectSlot viewName (showHidden s) = Some p ->
  1 <= height <= max_int ->
  len (slotList p s) <= max_int ->
  slot_inv height s p ->
  0 <= getCursorY p s + delta < len (slotList p s) ->
  getOriginY p s <= getCursorY p s + delta <= getOriginY p s + height - 1 ->
  let s' := fst (moveCursorAndOrigin viewName delta height s) in
  getCursorY p s' = getCursorY p s + delta /\
  getOriginY p s' = getOriginY p s.
Proof.
  intros Hsel Hh Hfit Hinv Hin Hwin s'. subst s'.
  rewrite (moveCursorAndOrigin_eq viewName delta height s p Hsel) by lia.
  rewrite moveBy_in_window by (try exact Hinv; lia).
  cbn [fst snd]. now rewrite getCursorY_store, getOriginY_store.
Qed.

(** X3. A jump to an index that is already shown does not scroll: in a valid
    state, if [target] is an index of the list inside the window, the
    cursor becomes [target] and the origin stays. *)
Theorem jump_inside_window_does_not_scroll
    (viewName : string) (target height : Z) (s : AppState) (p : Slot) :
  selectSlot viewName (showHidden s) = Some p ->
  1 <= height <= max_int ->
  len (slotList p s) <= max_int ->
  slot_inv height s p ->
  0 <= target < len (slotList p s) ->
  getOriginY p s <= target <= getOriginY p s + height - 1 ->
  let s' := fst (setCursorAndOrigin viewName target height s) in
  getCursorY p s' = target /\ getOriginY p s' = getOriginY p s.
Proof.
  intros Hsel Hh Hfit Hinv Hin Hwin s'. subst s'.
  rewrite (setCursorAndOrigin_eq viewName target height s p Hsel) by lia.
  rewrite jumpTo_in_window with (c := getCursorY p s)
    by (try exact Hinv; lia).
  cbn [fst snd]. now rewrite getCursorY_store, getOriginY_store.
Qed.

Lemma GetCurrentList_slot (viewName : string) (s : AppState) (p : Slot) :
  selectSlot viewName (showHidden s) = Some p ->
  GetCurrentList viewName s = slotList p s.
Proof. intros H. unfold GetCurrentList. now rewrite H. Qed.


(** X4. Go to top and go to bottom.  In a valid state of a non-empty list,
    [handleGoTopBottom] with [toTop] puts cursor and origin at 0; without
    it, the cursor goes to the last index and the origin to
    [max 0 (length - height)], so that the last line is the lowest one
    shown. *)
Theorem go_top_and_bottom
    (v : View) (s : AppState) (p : Slot) :
  selectSlot (v_Name v) (showHidden s) = Some p ->
  1 <= v_Height v <= max_int ->
  0 < len (slotList p s) <= max_int ->
  slot_inv (v_Height v) s p ->
  let top := handleGoTopBottom (Some v) true s in
  let bottom := handleGoTopBottom (Some v) false s in
  (getCursorY p top = 0 /\ getOriginY p top = 0) /\
  (getCursorY p bottom = len (slotList p s) - 1 /\
   getOriginY p bottom = Z.max 0 (len (slotList p s) - v_Height v)).
Proof.
  intros Hsel Hh Hlen Hinv top bottom. subst top bottom.
  unfold handleGoTopBottom. cbv zeta. cbn [negb].
  rewrite (GetCurrentList_slot _ _ _ Hsel).
  rewrite Z.gtb_ltb.
  destruct (Z.ltb_spec 0 (len (slotList p s))) as [_|Hle]; [|lia].
  rewrite !(setCursorAndOrigin_eq _ _ _ s p Hsel) by lia. cbn [fst].
  rewrite !getCursorY_store, !getOriginY_store.
  rewrite jumpTo_top with (c := getCursorY p s) by (try exact Hinv; lia).
  replace (sub (len (slotList p s)) 1) with (len (slotList p s) - 1)
    by (unwrap; reflexivity).
  rewrite jumpTo_bottom with (c := getCursorY p s) by (try exact Hinv; lia).
  cbn [fst snd]. tauto.
Qed.

(** ** Toggling the hidden entries *)

Lemma reset_scrolls_id (s : AppState) :
  scrolls_reset s -> reset_scrolls s = s.
Proof.
  intros H.
  destruct (H VisibleFolders) as [H1 H2]. destruct (H VisibleFiles) as [H3 H4].
  destruct (H HiddenFolders) as [H5 H6]. destruct (H HiddenFiles) as [H7 H8].
  destruct s. cbn in *. subst. reflexivity.
Qed.

(** X5. [ToggleHidden] called twice returns the original flag, leaves every
    viewport at [(0, 0)] both times, and, on a state whose viewports were
    already reset, gives back the very same state. *)
Theorem ToggleHidden_twice (s : AppState) :
  let r1 := ToggleHidden s in
  let r2 := ToggleHidden (fst r1) in
  snd r1 = negb (showHidden s) /\
  snd r2 = showHidden s /\
  scrolls_reset (fst r1) /\
  scrolls_reset (fst r2) /\
  (scrolls_reset s -> fst r2 = s).
Proof.
  cbv zeta. repeat split.
  - cbn. apply negb_involutive.
  - destruct p; reflexivity.
  - destruct p; reflexivity.
  - destruct p; reflexivity.
  - destruct p; reflexivity.
  - intros H. rewrite <- (reset_scrolls_id s H) at 2.
    destruct s. cbn. now rewrite negb_involutive.
Qed.

(** ** Scrolling the content viewer *)

(** The origin [ScrollFileContentView] stores in a visible viewer. *)
Lemma ScrollFileContentView_origin (delta h : Z) (s : AppState) :
  isFileContentViewVisible s = true ->
  fileContentViewOriginY (ScrollFileContentView delta h s) =
    let newOriginY := add (fileContentViewOriginY s) delta in
    let maxOriginY := sub (fileContentViewTotalLines s) h in
    let maxOriginY := if maxOriginY <? 0 then 0 else maxOriginY in
    let newOriginY := if newOriginY <? 0 then 0 else newOriginY in
    if newOriginY >? maxOriginY then maxOriginY else newOriginY.
Proof.
  intros Hv. unfold ScrollFileContentView. rewrite Hv. reflexivity.
Qed.

(** X6. Scrolling clamps.  In a visible viewer whose line count and height
    are not negative, whatever the old origin and the delta, the new
    origin lies in [[0, max 0 (total - height)]]; when [origin + delta]
    does not overflow it is that sum clamped to this range.  A hidden
    viewer is left as it is. *)
Theorem ScrollFileContentView_clamps (delta height : Z) (s : AppState) :
  let total := fileContentViewTotalLines s in
  let origin' :=
    fileContentViewOriginY (ScrollFileContentView delta height s) in
  0 <= total <= max_int -> 0 <= height <= max_int ->
  (isFileContentViewVisible s = true ->
     0 <= origin' <= Z.max 0 (total - height) /\
     (min_int <= fileContentViewOriginY s + delta <= max_int ->
      origin' = Z.max 0 (Z.min (Z.max 0 (total - height))
                               (fileContentViewOriginY s + delta)))) /\
  (isFileContentViewVisible s = false ->
     ScrollFileContentView delta height s = s).
Proof.
  intros total origin' Ht Hh. subst total origin'. split.
  - intros Hv. rewrite (ScrollFileContentView_origin delta height s Hv).
    cbv zeta. split.
    + pose proof (wrap_in_range (fileContentViewOriginY s + delta)) as Hx.
      unfold add. set (x := wrap _) in *. clearbody x.
      crunch; lia.
    + intros Hsum. crunch; lia.
  - intros Hv. unfold ScrollFileContentView. now rewrite Hv.
Qed.

(** The origin [handleScrollFileContentView] stores when the content does
    not fit. *)
Lemma handleScrollFileContentView_origin (v : View) (delta : Z)
    (isPageScroll : bool) (s : AppState) :
  isFileContentViewVisible s = true ->
  v_Height v < fileContentViewTotalLines s ->
  handleScrollFileContentView (Some v) delta isPageScroll s =
    ScrollFileContentView
      (if isPageScroll then
         if delta <=? neg (fileContentViewTotalLines s)
         then neg (fileContentViewOriginY s)
         else if delta >=? fileContentViewTotalLines s
              then sub (let m := sub (fileContentViewTotalLines s) (v_Height v)
                        in if m <? 0 then 0 else m)
                       (fileContentViewOriginY s)
              else delta
       else delta)
      (v_Height v) s.
Proof.
  intros Hv Hfit. unfold handleScrollFileContentView. rewrite Hv.
  cbn [negb].
  destruct (Z.leb_spec (fileContentViewTotalLines s) (v_Height v)); [lia|].
  reflexivity.
Qed.

(** X7. Jumping to the top and the bottom of the viewer.  In a visible viewer
    whose content does not fit the height, with a valid origin, a page
    scroll by a delta of at most [- total] stores origin 0 and one by a
    delta of at least [total] stores [total - height]; when the content
    fits, the handler changes nothing, whatever the delta. *)
Theorem viewer_jumps_to_top_and_bottom
    (v : View) (delta : Z) (isPageScroll : bool) (s : AppState) :
  let total := fileContentViewTotalLines s in
  let height := v_Height v in
  isFileContentViewVisible s = true ->
  0 <= height -> total <= max_int ->
  0 <= fileContentViewOriginY s <= max_int ->
  (height < total -> delta <= - total ->
     fileContentViewOriginY
       (handleScrollFileContentView (Some v) delta true s) = 0) /\
  (height < total -> total <= delta ->
     fileContentViewOriginY
       (handleScrollFileContentView (Some v) delta true s) = total - height) /\
  (total <= height ->
     handleScrollFileContentView (Some v) delta isPageScroll s = s).
Proof.
  intros total height Hv Hh Ht Ho. subst total height. repeat split.
  - intros Hfit Hd.
    rewrite handleScrollFileContentView_origin by assumption.
    rewrite ScrollFileContentView_origin by assumption.
    unfold neg. cbv zeta. crunch; lia.
  - intros Hfit Hd.
    rewrite handleScrollFileContentView_origin by assumption.
    rewrite ScrollFileContentView_origin by assumption.
    unfold neg. cbv zeta. crunch; lia.
  - intros Hfit. unfold handleScrollFileContentView. rewrite Hv. cbn [negb].
    destruct (Z.leb_spec (fileContentViewTotalLines s) (v_Height v)); [|lia].
    reflexivity.
Qed.

(** X8. The keys of the viewer.  Home and End pass the deltas -999999 and
    999999: they reach the top and the bottom of a text of at most 999999
    lines, and on a longer text scroll by 999999 lines only.  The page
    keys scroll by one line less than the height, and by at least one
    line, without leaving the text. *)
Theorem viewer_keys_scroll (v : View) (s : AppState) :
  let total := fileContentViewTotalLines s in
  let height := v_Height v in
  let origin := fileContentViewOriginY s in
  let page := Z.max 1 (height - 1) in
  isFileContentViewVisible s = true ->
  1 <= height < total -> total + 999999 <= max_int ->
  0 <= origin <= total - height ->
  fileContentViewOriginY (viewerTopKey v s)
    = (if total <=? 999999 then 0 else Z.max 0 (origin - 999999)) /\
  fileContentViewOriginY (viewerBottomKey v s)
    = (if total <=? 999999 then total - height
       else Z.min (total - height) (origin + 999999)) /\
  fileContentViewOriginY (viewerPageKey false v s)
    = Z.min (total - height) (origin + page) /\
  fileContentViewOriginY (viewerPageKey true v s) = Z.max 0 (origin - page).
Proof.
  intros total height origin page Hv Hh Ht Ho.
  subst total height origin page.
  unfold viewerTopKey, viewerBottomKey, viewerPageKey. cbv zeta.
  rewrite !handleScrollFileContentView_origin by (trivial; lia).
  rewrite !ScrollFileContentView_origin by assumption.
  unfold neg. cbv zeta. repeat apply conj; crunch; lia.
Qed.

(** ** The action menu *)

Lemma NavigateActionMenu_state (delta : Z) (s : AppState) :
  isActionMenuVisible s = true -> len (actionMenuOptions s) <> 0 ->
  NavigateActionMenu delta s =
    set_actionMenuSelectedIdx
      (let i := add (actionMenuSelectedIdx s) delta in
       let i := if i <? 0 then sub (len (actionMenuOptions s)) 1 else i in
       if i >=? len (actionMenuOptions s) then 0 else i) s.
Proof.
  intros Hvis Hn. unfold NavigateActionMenu. rewrite Hvis. cbn [negb orb].
  destruct (Z.eqb_spec (len (actionMenuOptions s)) 0) as [Hz|_]; [lia|].
  cbv zeta.
  cbn [actionMenuSelectedIdx set_actionMenuSelectedIdx actionMenuOptions].
  destruct (add (actionMenuSelectedIdx s) delta <? 0);
    cbn [actionMenuSelectedIdx set_actionMenuSelectedIdx actionMenuOptions];
    match goal with
    | |- context [if ?b then _ else _] => destruct b
    end; reflexivity.
Qed.

Lemma set_actionMenuSelectedIdx_same (s : AppState) :
  set_actionMenuSelectedIdx (actionMenuSelectedIdx s) s = s.
Proof. destruct s. reflexivity. Qed.

(** X9. Whatever index is stored and whatever the delta, in a visible menu
    with options [NavigateActionMenu] leaves a valid index. *)
Theorem NavigateActionMenu_index_is_valid (delta : Z) (s : AppState) :
  isActionMenuVisible s = true ->
  0 < len (actionMenuOptions s) <= max_int ->
  0 <= actionMenuSelectedIdx (NavigateActionMenu delta s)
    < len (actionMenuOptions (NavigateActionMenu delta s)).
Proof.
  intros Hvis Hn. rewrite NavigateActionMenu_state by (trivial; lia).
  cbn [actionMenuSelectedIdx set_actionMenuSelectedIdx actionMenuOptions].
  cbv zeta.
  pose proof (wrap_in_range (actionMenuSelectedIdx s + delta)) as Hx.
  unfold add. set (x := wrap _) in *. clearbody x.
  crunch; lia.
Qed.

Lemma set_actionMenuSelectedIdx_twice (a b : Z) (s : AppState) :
  set_actionMenuSelectedIdx a (set_actionMenuSelectedIdx b s)
    = set_actionMenuSelectedIdx a s.
Proof. reflexivity. Qed.

(** X10. One step down and one step up undo each other: on a valid index of a
    visible menu, navigating by +1 then -1, or by -1 then +1, gives back
    the same state, including at both ends where the index wraps. *)
Theorem NavigateActionMenu_steps_cancel (s : AppState) :
  isActionMenuVisible s = true ->
  0 <= actionMenuSelectedIdx s < len (actionMenuOptions s) ->
  len (actionMenuOptions s) <= max_int ->
  NavigateActionMenu (-1) (NavigateActionMenu 1 s) = s /\
  NavigateActionMenu 1 (NavigateActionMenu (-1) s) = s.
Proof.
  intros Hvis Hidx Hn.
  assert (Hne : len (actionMenuOptions s) <> 0) by lia.
  split.
  - rewrite (NavigateActionMenu_state 1 s Hvis Hne).
    rewrite NavigateActionMenu_state by assumption.
    cbn [actionMenuSelectedIdx set_actionMenuSelectedIdx actionMenuOptions].
    rewrite set_actionMenuSelectedIdx_twice.
    match goal with
    | |- set_actionMenuSelectedIdx ?i s = s =>
      replace i with (actionMenuSelectedIdx s);
        [apply set_actionMenuSelectedIdx_same|cbv zeta; crunch; lia]
    end.
  - rewrite (NavigateActionMenu_state (-1) s Hvis Hne).
    rewrite NavigateActionMenu_state by assumption.
    cbn [actionMenuSelectedIdx set_actionMenuSelectedIdx actionMenuOptions].
    rewrite set_actionMenuSelectedIdx_twice.
    match goal with
    | |- set_actionMenuSelectedIdx ?i s = s =>
      replace i with (actionMenuSelectedIdx s);
        [apply set_actionMenuSelectedIdx_same|cbv zeta; crunch; lia]
    end.
Qed.

(** ** Menu actions *)

Lemma SetFileContentView_other_parts (filename content prevFocus : string)
    (s : AppState) :
  let s' := SetFileContentView filename content prevFocus s in
  list_part s' = list_part s /\
  stats_part s' = stats_part s /\
  dialog_part s' = dialog_part s /\
  isActionMenuVisible s' = isActionMenuVisible s /\
  actionMenuItemTarget s' = actionMenuItemTarget s /\
  actionMenuOptions s' = actionMenuOptions s /\
  actionMenuSelectedIdx s' = actionMenuSelectedIdx s /\
  previousFocusView s' = previousFocusView s /\
  lastMessage s' = lastMessage s.
Proof.
  unfold SetFileContentView. cbv zeta.
  destruct (negb (strings_HasSuffix content LF) && (slen content >? 0));
    [|destruct (slen content =? 0)]; repeat split; reflexivity.
Qed.

(** X11. An action changes the state only by opening the viewer, and only when
    it succeeds: a call either leaves the state as it was, or it is a
    successful [viewFileContentAction].  So the three copy actions and
    Cancel never change the state, and a failed action leaves no trace. *)
Theorem actions_change_state_only_by_opening_viewer
    (env : Collaborators) (fn : Action) (item : FileInfo) (s : AppState) :
  fst (callAction env fn item s) = s \/
  (fn = viewFileContentActionFn /\ snd (callAction env fn item s) = None).
Proof.
  destruct fn; cbn [callAction].
  - left. reflexivity.
  - left. unfold copyRelativePath.
    destruct (filepath_Rel env (cwd s) (Path item)); reflexivity.
  - unfold viewFileContentAction.
    destruct (IsDir item); [left; reflexivity|].
    destruct (ReadFileWithLimit env (Path item) maxViewSize)
      as [[bytes|]|err]; [|right; split; reflexivity|left; reflexivity].
    destruct (hasNullByte bytes); [left; reflexivity|].
    right. split; reflexivity.
  - left. unfold copyContent. destruct (IsDir item); [reflexivity|].
    destruct (ReadFileWithLimit env (Path item) maxCopySize) as [[c|]|err];
      reflexivity.
  - left. reflexivity.
Qed.

(** The state an action returns. *)
Lemma callAction_state (env : Collaborators) (fn : Action) (item : FileInfo)
    (s : AppState) :
  fst (callAction env fn item s) = s \/
  (snd (callAction env fn item s) = None /\
   exists content focus : string,
     fst (callAction env fn item s)
       = SetFileContentView (Name item) content focus s).
Proof.
  destruct fn; cbn [callAction].
  - left. reflexivity.
  - left. unfold copyRelativePath.
    destruct (filepath_Rel env (cwd s) (Path item)); reflexivity.
  - unfold viewFileContentAction.
    destruct (IsDir item); [left; reflexivity|].
    destruct (ReadFileWithLimit env (Path item) maxViewSize)
      as [[bytes|]|err];
      [|right; split; [|eexists; eexists]; reflexivity|left; reflexivity].
    destruct (hasNullByte bytes); [left; reflexivity|].
    right. split; [|eexists; eexists]; reflexivity.
  - left. unfold copyContent. destruct (IsDir item); [reflexivity|].
    destruct (ReadFileWithLimit env (Path item) maxCopySize) as [[c|]|err];
      reflexivity.
  - left. reflexivity.
Qed.

Lemma callAction_keeps_menu (env : Collaborators) (fn : Action)
    (item : FileInfo) (s : AppState) :
  isActionMenuVisible (fst (callAction env fn item s))
    = isActionMenuVisible s.
Proof.
  destruct (callAction_state env fn item s)
    as [->|(_ & content & focus & ->)]; [reflexivity|].
  apply SetFileContentView_other_parts.
Qed.

Lemma lookup_in_bounds {A : Type} (l : list A) (i : Z) :
  0 <= i < len l -> exists x, l !! Z.to_nat i = Some x.
Proof.
  intros H. apply lookup_lt_is_Some_2. unfold len in H. lia.
Qed.

(** X12. [handleMenuSelect] always leaves the menu closed: whatever is stored
    as options, index and target, whichever function the option carries,
    and whether that function fails or not. *)
Theorem handleMenuSelect_closes_menu (env : Collaborators) (s : AppState) :
  isActionMenuVisible (handleMenuSelect env s) = false.
Proof.
  unfold handleMenuSelect.
  destruct (Z.ltb_spec (actionMenuSelectedIdx s) 0) as [Hneg|Hpos];
    [reflexivity|].
  rewrite Z.geb_leb.
  destruct (Z.leb_spec (len (actionMenuOptions s)) (actionMenuSelectedIdx s))
    as [Hge|Hlt]; [reflexivity|].
  cbn [orb].
  destruct (lookup_in_bounds (actionMenuOptions s) (actionMenuSelectedIdx s))
    as [opt Hopt]; [lia|].
  rewrite Hopt. cbv zeta.
  destruct (String.eqb (Label opt) "View Content") eqn:Hvc; cbn [negb].
  - destruct (ActionFn opt) as [fn|].
    + pose proof (callAction_keeps_menu env fn (actionMenuItemTarget s) s)
        as Hkeep.
      destruct (callAction env fn (actionMenuItemTarget s) s) as [s1 e].
      cbn [fst] in Hkeep. destruct e as [err|]; [|reflexivity].
      cbn [andb]. unfold SetMessage.
      cbn [isActionMenuVisible set_lastMessage].
      destruct (isActionMenuVisible s1) eqn:Hv1; [reflexivity|].
      cbn [isActionMenuVisible set_lastMessage]. exact Hv1.
    + reflexivity.
  - destruct (ActionFn opt) as [fn|].
    + pose proof (callAction_keeps_menu env fn (actionMenuItemTarget s)
                    (CloseActionMenu s)) as Hkeep.
      destruct (callAction env fn (actionMenuItemTarget s)
                  (CloseActionMenu s)) as [s1 e].
      cbn [fst] in Hkeep. change (isActionMenuVisible s1 = false) in Hkeep.
      destruct e as [err|].
      * cbn [andb]. exact Hkeep.
      * destruct (negb (String.eqb (Label opt) "Cancel")); [exact Hkeep|].
        cbn [andb]. exact Hkeep.
    + destruct (negb (String.eqb (Label opt) "Cancel")); reflexivity.
Qed.

Lemma NavigateActionMenu_lastMessage (delta : Z) (s : AppState) :
  lastMessage (NavigateActionMenu delta s) = lastMessage s.
Proof.
  unfold NavigateActionMenu.
  destruct (negb (isActionMenuVisible s) || _); [reflexivity|].
  cbv zeta.
  destruct (actionMenuSelectedIdx (set_actionMenuSelectedIdx _ s) <? 0);
    match goal with
    | |- context [if ?b then _ else _] => destruct b
    end; reflexivity.
Qed.

Lemma navigateMenu_lastMessage (deltas : list Z) (s : AppState) :
  lastMessage (navigateMenu deltas s) = lastMessage s.
Proof.
  unfold navigateMenu. revert s.
  induction deltas as [|d deltas IH]; intros s; cbn [fold_left];
    [reflexivity|].
  rewrite IH. apply NavigateActionMenu_lastMessage.
Qed.

Lemma ClearMessage_id (s : AppState) : lastMessage s = "" -> ClearMessage s = s.
Proof. intros H. destruct s. cbn in *. subst. reflexivity. Qed.

(** X13. Selecting "Cancel" leaves the state that Esc leaves: after the
    menu was opened and navigated, [handleMenuSelect] on the option
    [{"Cancel", no-op}] gives the state [handleMenuClose] gives.  This is
    about the state only: which view the terminal library focuses is not
    part of it, and [handleMenuClose] sets the focus where the Cancel
    branch of [handleMenuSelect] does not. *)
Theorem cancel_is_close
    (env : Collaborators) (item : FileInfo) (options : list ActionMenuItem)
    (focus : string) (deltas : list Z) (s0 : AppState) :
  len options <= max_int ->
  let s := navigateMenu deltas (OpenActionMenu item options focus s0) in
  options !! Z.to_nat (actionMenuSelectedIdx s)
    = Some (mkActionMenuItem "Cancel" (Some cancelFn)) ->
  handleMenuSelect env s = handleMenuClose s.
Proof.
  intros Hfit s Hopt.
  assert (Hopen : menu_open item options focus s).
  { apply navigateMenu_menu_open; [exact Hfit|].
    apply OpenActionMenu_menu_open. }
  destruct Hopen as [Hv Ht Ho Hf Hlo Hhi].
  pose proof (lookup_lt_Some _ _ _ Hopt) as Hlt.
  assert (Hidx : actionMenuSelectedIdx s < len options) by (unfold len; lia).
  assert (Hmsg : lastMessage s = "").
  { subst s. now rewrite navigateMenu_lastMessage. }
  unfold handleMenuClose.
  rewrite ClearMessage_id by exact Hmsg.
  unfold handleMenuSelect. rewrite Ho.
  destruct (Z.ltb_spec (actionMenuSelectedIdx s) 0) as [Hneg|_]; [lia|].
  rewrite Z.geb_leb.
  destruct (Z.leb_spec (len options) (actionMenuSelectedIdx s)) as [Hge|_];
    [lia|].
  cbn [orb]. rewrite Hopt. reflexivity.
Qed.

(** ** What the viewer shows *)

Lemma has_byte_cons (x : ascii) (c : string) (a : ascii) :
  has_byte (String x c) a <-> x = a \/ has_byte c a.
Proof. reflexivity. Qed.

Lemma has_byte_append (p q : string) (a : ascii) :
  has_byte (p +:+ q) a <-> has_byte p a \/ has_byte q a.
Proof.
  induction p as [|x p IH].
  - rewrite append_nil. unfold has_byte at 2. cbn. tauto.
  - rewrite append_cons, !has_byte_cons, IH. tauto.
Qed.

Lemma replaceTabs_bytes (content : string) (a : ascii) :
  has_byte (replaceTabs content) a ->
  a <> TAB /\ (a = " "%char \/ has_byte content a).
Proof.
  induction content as [|x content IH]; cbn [replaceTabs].
  - intros H. destruct H.
  - destruct (Ascii.eqb_spec x TAB) as [->|Hne].
    + rewrite has_byte_append. intros [H|H].
      * assert (Ha : a = " "%char).
        { unfold has_byte in H. cbn in H.
          destruct H as [H|[H|[H|[H|[]]]]]; now subst. }
        subst a. split; [discriminate|now left].
      * destruct (IH H) as [H1 [H2|H2]]; split; try assumption;
          [now left|right; apply has_byte_cons; now right].
    + rewrite has_byte_cons. intros [<-|H].
      * split; [exact Hne|right; apply has_byte_cons; now left].
      * destruct (IH H) as [H1 [H2|H2]]; split; try assumption;
          [now left|right; apply has_byte_cons; now right].
Qed.

Lemma hasNullByte_false (bytes : string) :
  hasNullByte bytes = false -> ~ has_byte bytes Ascii.zero.
Proof.
  induction bytes as [|b bytes IH]; cbn [hasNullByte].
  - intros _ H. destruct H.
  - destruct (Ascii.eqb_spec b Ascii.zero) as [->|Hne]; [discriminate|].
    intros H. rewrite has_byte_cons. intros [E|Hin]; [contradiction|].
    now apply IH.
Qed.

(** X14. The text a successful [viewFileContentAction] puts in the viewer has
    no tab and no null byte; the viewer is named after the item and
    scrolled to the top. *)
Theorem viewed_content_has_no_tab_and_no_null
    (env : Collaborators) (item : FileInfo) (s : AppState) :
  snd (viewFileContentAction env item s) = None ->
  let s' := fst (viewFileContentAction env item s) in
  ~ has_byte (fileContentViewContent s') TAB /\
  ~ has_byte (fileContentViewContent s') Ascii.zero /\
  fileContentViewFileName s' = Name item /\
  fileContentViewOriginY s' = 0.
Proof.
  unfold viewFileContentAction.
  destruct (IsDir item); [discriminate|].
  destruct (ReadFileWithLimit env (Path item) maxViewSize) as [[bytes|]|err];
    [| |discriminate].
  - destruct (hasNullByte bytes) eqn:Hnull; [discriminate|]. intros _.
    cbn [fst].
    match goal with
    | |- context [SetFileContentView ?f ?c ?p s] =>
      assert (Hc : fileContentViewContent (SetFileContentView f c p s) = c
                   /\ fileContentViewFileName (SetFileContentView f c p s) = f
                   /\ fileContentViewOriginY (SetFileContentView f c p s) = 0)
    end.
    { unfold SetFileContentView. cbv zeta.
      destruct (negb _ && _); [|destruct (_ =? 0)]; repeat split;
        reflexivity. }
    cbv zeta. destruct Hc as (-> & -> & ->).
    repeat split; try reflexivity.
    + intros H. apply replaceTabs_bytes in H. tauto.
    + intros H. apply replaceTabs_bytes in H as [_ [H|H]];
        [discriminate|].
      now apply (hasNullByte_false bytes).
  - intros _. cbn [fst]. cbv zeta.
    repeat split; try reflexivity.
    + vm_compute. intros H. decompose [or] H; try discriminate.
      assumption.
    + vm_compute. intros H. decompose [or] H; try discriminate.
      assumption.
Qed.

(** ** Overlays and lists do not disturb each other *)

Lemma callAction_outside (env : Collaborators) (fn : Action)
    (item : FileInfo) (s : AppState) :
  list_part (fst (callAction env fn item s)) = list_part s /\
  stats_part (fst (callAction env fn item s)) = stats_part s /\
  dialog_part (fst (callAction env fn item s)) = dialog_part s.
Proof.
  destruct (callAction_state env fn item s)
    as [->|(_ & content & focus & ->)]; [repeat split; reflexivity|].
  pose proof (SetFileContentView_other_parts (Name item) content focus s)
    as H. cbv zeta in H. tauto.
Qed.

(** Destructs the conditionals and matches of a handler's body. *)
Ltac handler_cases :=
  repeat match goal with
  | |- context [match ?l !! ?i with _ => _ end] => destruct (l !! i)
  | |- context [match selectSlot ?v ?h with _ => _ end] =>
    destruct (selectSlot v h)
  | |- context [if ?b then _ else _] => destruct b
  end.

(** X15. The handlers of the menu and of the viewer never touch the lists, the
    viewports, the scan result or the dialog flags: those parts of the
    state are the same after [handleEnter], [handleMenuNavigate],
    [handleMenuSelect], [handleMenuClose], [handleCloseFileContentView]
    and [handleScrollFileContentView], whatever the action does. *)
Theorem overlay_handlers_keep_the_rest
    (env : Collaborators) (viewName : option string) (v : option View)
    (delta : Z) (isPageScroll : bool) (s : AppState) :
  let kept s' :=
    list_part s' = list_part s /\ stats_part s' = stats_part s /\
    dialog_part s' = dialog_part s in
  kept (handleEnter viewName s) /\
  kept (handleMenuNavigate delta s) /\
  kept (handleMenuSelect env s) /\
  kept (handleMenuClose s) /\
  kept (handleCloseFileContentView s) /\
  kept (handleScrollFileContentView v delta isPageScroll s).
Proof.
  cbv zeta. repeat apply conj.
  1-3: destruct viewName as [name|]; [|reflexivity];
       unfold handleEnter, GetCurrentList, GetCurrentCursorY;
       handler_cases; reflexivity.
  1-3: unfold handleMenuNavigate, NavigateActionMenu; cbv zeta;
       handler_cases; reflexivity.
  1-3: unfold handleMenuSelect;
       (destruct (_ || _); [reflexivity|]);
       (destruct (_ !! _) as [opt|]; [|reflexivity]); cbv zeta;
       (destruct (ActionFn opt) as [fn|];
        [|handler_cases; reflexivity]);
       (destruct (negb (String.eqb (Label opt) "View Content"));
        match goal with
        | |- context [callAction ?e0 ?f ?i ?s1] =>
          destruct (callAction_outside e0 f i s1) as (H1 & H2 & H3);
          destruct (callAction e0 f i s1) as [s2 e]
        end; cbn [fst] in H1, H2, H3;
        (destruct e as [err|]; handler_cases));
       first [exact H1 | exact H2 | exact H3].
  1-6: reflexivity.
  1-3: destruct v as [v|]; [|reflexivity];
       unfold handleScrollFileContentView, ScrollFileContentView; cbv zeta;
       handler_cases; reflexivity.
Qed.

(** X16. In the other direction, moving the cursor, jumping to the top or the
    bottom and paging never touch the menu, the viewer or the message, nor
    the scan result. *)
Theorem list_handlers_keep_the_overlays
    (v : option View) (view : View) (delta multiplier : Z) (toTop : bool)
    (s : AppState) :
  let kept s' :=
    overlay_part s' = overlay_part s /\ stats_part s' = stats_part s in
  kept (handleMoveCursor v delta s) /\
  kept (handleGoTopBottom v toTop s) /\
  kept (pageMoveKey multiplier view s).
Proof.
  cbv zeta. repeat apply conj.
  1-2: destruct v as [v|]; [|reflexivity];
       unfold handleMoveCursor, moveCursorAndOrigin; cbv zeta;
       destruct (selectSlot _ _) as [[]|]; handler_cases; reflexivity.
  1-2: destruct v as [v|]; [|reflexivity];
       unfold handleGoTopBottom, setCursorAndOrigin; cbv zeta;
       destruct (selectSlot _ _) as [[]|]; handler_cases; reflexivity.
  1-2: unfold pageMoveKey, handleMoveCursor, moveCursorAndOrigin; cbv zeta;
       destruct (selectSlot _ _) as [[]|]; handler_cases; reflexivity.
Qed.

(** ** Enter after navigation *)


(** ** The scanner on any tree *)

Lemma FsNode_nested_ind (P : FsNode -> Prop) :
  (forall name info, P (FsFile name info)) ->
  (forall name entries readErr,
     Forall P entries -> P (FsDir name entries readErr)) ->
  forall d, P d.
Proof.
  intros Hfile Hdir. fix IH 1. intros [name info|name entries readErr].
  - apply Hfile.
  - apply Hdir. induction entries as [|d ds IHds]; constructor.
    + apply IH.
    + exact IHds.
Qed.

Lemma firstOf_app (old : option error) (l1 l2 : list error) :
  firstOf (firstOf old l1) l2 = firstOf old (l1 ++ l2).
Proof. destruct old; [reflexivity|]. destruct l1; reflexivity. Qed.

Lemma firstOf_nil (old : option error) : firstOf old [] = old.
Proof. destruct old; reflexivity. Qed.

Section ScannerOnTrees.

Variable getIcon : string -> bool -> string.
Variable filepath_Base : string -> string.

Lemma afterWalk_nil (w : WalkVars) : afterWalk getIcon w [] [] = w.
Proof. unfold afterWalk. cbn. rewrite firstOf_nil. now destruct w. Qed.

Lemma afterWalk_app (w : WalkVars) (f1 f2 : list (string * string * Z))
    (e1 e2 : list error) :
  afterWalk getIcon (afterWalk getIcon w f1 e1) f2 e2 = afterWalk getIcon w (f1 ++ f2) (e1 ++ e2).
Proof.
  unfold afterWalk. cbn [w_totalSize w_largestFile w_firstWalkErr].
  rewrite fold_left_app, firstOf_app.
  now rewrite <- surjective_pairing.
Qed.

Lemma below_neq (cwd path : string) :
  below cwd path -> String.eqb path cwd = false.
Proof.
  unfold below. intros H. apply String.eqb_neq. intros ->. lia.
Qed.

Lemma below_Join (cwd path name : string) :
  (String.length cwd <= String.length path)%nat ->
  below cwd (filepath_Join path name).
Proof.
  unfold below, filepath_Join. rewrite !length_append.
  cbn [String.length]. lia.
Qed.

(** The walk below the root, in terms of what it reaches. *)
Lemma walkDir_reaches (cwd : string) (d : FsNode) :
  forall (path : string) (w : WalkVars),
    below cwd path ->
    walkDir (walkFn getIcon cwd) path d w
      = (afterWalk getIcon w (reachedFiles path d) (walkErrors d), RetNil).
Proof.
  induction d as [name info|name entries readErr IH] using FsNode_nested_ind;
    intros path w Hbelow.
  - cbn [walkDir reachedFiles walkErrors]. unfold walkFn.
    rewrite (below_neq _ _ Hbelow). cbn [d_IsDir negb d_Info d_Name].
    destruct info as [size|e].
    + unfold afterWalk. cbn [fold_left countFile fst snd].
      rewrite firstOf_nil. reflexivity.
    + unfold afterWalk. cbn [fold_left fst snd].
      destruct w as [t lf [e0|]]; reflexivity.
  - destruct readErr as [e|].
    + cbn [walkDir reachedFiles walkErrors]. unfold walkFn.
      rewrite (below_neq _ _ Hbelow). cbn [d_IsDir negb d_Name].
      unfold afterWalk. cbn [fold_left fst snd].
      destruct w as [t lf [e0|]]; reflexivity.
    + change (walkDir (walkFn getIcon cwd) path (FsDir name entries None) w)
        with (let '(st, err) :=
                walkFn getIcon cwd path (Some (FsDir name entries None))
                  None w in
              match err with
              | RetSkipDir => (st, RetNil)
              | RetErr e => (st, RetErr e)
              | RetNil => walkEntries (walkFn getIcon cwd) path entries st
              end).
      assert (Hfn : walkFn getIcon cwd path (Some (FsDir name entries None))
                      None w = (w, RetNil)).
      { unfold walkFn. rewrite (below_neq _ _ Hbelow). reflexivity. }
      rewrite Hfn. cbn [reachedFiles walkErrors].
      clear Hfn. revert w.
      induction IH as [|d ds Hd _ IHds]; intros w.
      * cbn. now rewrite afterWalk_nil.
      * rewrite walkEntries_cons.
        rewrite Hd by (apply below_Join; unfold below in Hbelow; lia).
        rewrite IHds. cbn [flat_map]. now rewrite afterWalk_app.
Qed.

(** The whole walk, from the root. *)
Lemma WalkDir_reaches (cwd : string) (root : FsNode + error) (w : WalkVars) :
  WalkDir (walkFn getIcon cwd) cwd root w
    = (afterWalk getIcon w (rootFiles cwd root) (rootErrors root), None).
Proof.
  unfold WalkDir. destruct root as [[name info|name entries [e|]]|e].
  - cbn [walkDir]. rewrite walkFn_root. cbn [rootFiles rootErrors].
    now rewrite afterWalk_nil.
  - cbn [walkDir]. rewrite walkFn_root. cbn [rootFiles rootErrors].
    unfold walkFn, afterWalk. cbn [d_IsDir d_Name fold_left fst snd].
    destruct w as [t lf [e0|]]; reflexivity.
  - change (walkDir (walkFn getIcon cwd) cwd (FsDir name entries None) w)
      with (let '(st, err) :=
              walkFn getIcon cwd cwd (Some (FsDir name entries None))
                None w in
            match err with
            | RetSkipDir => (st, RetNil)
            | RetErr e => (st, RetErr e)
            | RetNil => walkEntries (walkFn getIcon cwd) cwd entries st
            end).
    rewrite walkFn_root. cbn [rootFiles rootErrors].
    assert (H : forall w,
              walkEntries (walkFn getIcon cwd) cwd entries w
              = (afterWalk getIcon w
                   (flat_map
                      (fun d1 =>
                         reachedFiles (filepath_Join cwd (d_Name d1)) d1)
                      entries)
                   (flat_map walkErrors entries), RetNil)).
    { clear w. induction entries as [|d ds IHds]; intros w.
      - cbn. now rewrite afterWalk_nil.
      - rewrite walkEntries_cons.
        rewrite walkDir_reaches by (apply below_Join; lia).
        rewrite IHds. cbn [flat_map]. now rewrite afterWalk_app. }
    now rewrite H.
  - unfold walkFn, afterWalk. cbn [rootFiles rootErrors fold_left fst snd].
    destruct w as [t lf [e0|]]; reflexivity.
Qed.

End ScannerOnTrees.

Section ScanResults.

Variable getIcon : string -> bool -> string.
Variable filepath_Base : string -> string.

Lemma fold_countFile_total (files : list (string * string * Z)) :
  forall (t : Z) (lf : FileInfo),
    0 <= t -> Forall (fun f => 0 <= fileSize f) files ->
    t + sumSizes files <= max_int ->
    fst (fold_left (countFile getIcon) files (t, lf)) = t + sumSizes files.
Proof.
  induction files as [|[[path name] size] files IH]; intros t lf Ht Hpos Hsum.
  - cbn. lia.
  - inversion Hpos as [|? ? Hsize Hrest]; subst.
    unfold fileSize in Hsize. cbn [snd] in Hsize.
    assert (Hs : 0 <= sumSizes files).
    { clear -Hrest. induction Hrest as [|f fs Hf _ IHs]; cbn; [lia|].
      unfold sumSizes in IHs. lia. }
    change (sumSizes ((path, name, size) :: files))
      with (size + sumSizes files) in *.
    cbn [fold_left countFile fst snd].
    rewrite IH; unwrap; try lia. exact Hrest.
Qed.

Lemma fold_countFile_largest (files : list (string * string * Z)) :
  forall (t : Z) (lf : FileInfo),
    let lf' := snd (fold_left (countFile getIcon) files (t, lf)) in
    Size lf <= Size lf' /\
    Forall (fun f => fileSize f <= Size lf') files /\
    (lf' = lf \/
     exists path name size,
       In (path, name, size) files /\
       lf' = mkFileInfo name path false size (getIcon name false)).
Proof.
  induction files as [|[[path name] size] files IH]; intros t lf.
  - cbn. repeat split; [lia|constructor|now left].
  - cbn [fold_left countFile fst snd].
    match goal with
    | |- context [fold_left _ files (?t', ?l')] =>
      specialize (IH t' l'); set (acc := fold_left _ files (t', l')) in *
    end.
    cbv zeta in IH. destruct IH as (Hle & Hall & Hwho). cbv zeta.
    rewrite Z.gtb_ltb in Hle, Hwho.
    destruct (Z.ltb_spec (Size lf) size) as [Hlt|Hge];
      cbn [Size] in Hle.
    + repeat split; [lia| |].
      * constructor; [unfold fileSize; cbn [snd]; lia|exact Hall].
      * right. destruct Hwho as [->|(p & n & z & Hin & ->)].
        -- exists path, name, size. split; [now left|reflexivity].
        -- exists p, n, z. split; [now right|reflexivity].
    + repeat split; [lia| |].
      * constructor; [unfold fileSize; cbn [snd]; lia|exact Hall].
      * destruct Hwho as [->|(p & n & z & Hin & ->)]; [now left|].
        right. exists p, n, z. split; [now right|reflexivity].
Qed.

(** [calculateStats] in terms of what the walk reaches. *)
Lemma calculateStats_reaches (root : FsNode + error) (git : GitFacts)
    (s : AppState) :
  calculateStats getIcon filepath_Base root git s =
    let w := afterWalk getIcon
               (mkWalkVars 0 (mkFileInfo "" "" false (-1) "") None)
               (rootFiles (cwd s) root) (rootErrors root) in
    SetStatsResults
      (match w_firstWalkErr w with Some _ => -2 | None => w_totalSize w end)
      (match w_firstWalkErr w with
       | Some _ =>
         if Size (w_largestFile w) =? -1
         then mkFileInfo "Error during scan" "" false (-2) ""
         else w_largestFile w
       | None =>
         if Size (w_largestFile w) =? -1 then FileInfo_zero
         else w_largestFile w
       end)
      (gitStatusOf git) (w_firstWalkErr w) (SetStatsLoading s).
Proof.
  unfold calculateStats. cbv zeta.
  change (cwd (SetStatsLoading s)) with (cwd s).
  rewrite WalkDir_reaches. reflexivity.
Qed.

Lemma SetStatsResults_fields (total : Z) (largest : FileInfo) (git : string)
    (err : option error) (s : AppState) :
  let s' := SetStatsResults total largest git err s in
  totalSize s' = (match err with Some _ => -2 | None => total end) /\
  largestFile s' = largest /\ gitStatus s' = git /\
  isLoadingStats s' = false /\ statsError s' = err /\
  list_part s' = list_part s /\ overlay_part s' = overlay_part s /\
  dialog_part s' = dialog_part s.
Proof.
  unfold SetStatsResults. cbv zeta.
  destruct err as [e|].
  - rewrite bool_decide_eq_true_2 by discriminate. cbn [andb].
    cbn [totalSize set_totalSize set_largestFile set_gitStatus
         set_isLoadingStats set_statsError].
    destruct (Z.eqb_spec total (-2)) as [->|_]; repeat split; reflexivity.
  - rewrite bool_decide_eq_false_2 by (intros H; now apply H).
    repeat split; reflexivity.
Qed.

(** X18. A scan that meets no error commits the sum of the sizes of all the
    files of the tree as total size, and no error.  The sizes are not
    negative and their sum fits the integer type. *)
Theorem scan_without_error_totals_all_files
    (root : FsNode + error) (git : GitFacts) (s : AppState) :
  let files := rootFiles (cwd s) root in
  let s' := calculateStats getIcon filepath_Base root git s in
  rootErrors root = [] ->
  Forall (fun f => 0 <= fileSize f) files ->
  sumSizes files <= max_int ->
  totalSize s' = sumSizes files /\
  statsError s' = None /\
  isLoadingStats s' = false.
Proof.
  intros files s' Herr Hpos Hsum. subst s'.
  rewrite calculateStats_reaches. cbv zeta.
  rewrite Herr. unfold afterWalk.
  cbn [w_totalSize w_largestFile w_firstWalkErr firstOf head].
  match goal with
  | |- context [SetStatsResults ?a ?b ?c ?d ?e] =>
    destruct (SetStatsResults_fields a b c d e) as (Ht & _ & _ & Hl & He & _)
  end.
  cbv zeta in Ht, Hl, He. rewrite Ht, Hl, He.
  rewrite fold_countFile_total by (fold files; trivial; lia).
  split; [fold files; lia|split; reflexivity].
Qed.

(** X19. A scan that meets errors commits the error sentinel -2 as total size
    and the first error in walk order; unreadable directories, files
    without a size and an unreadable root all count. *)
Theorem scan_with_errors_commits_first_error
    (root : FsNode + error) (git : GitFacts) (s : AppState)
    (e : error) (rest : list error) :
  let s' := calculateStats getIcon filepath_Base root git s in
  rootErrors root = e :: rest ->
  totalSize s' = -2 /\ statsError s' = Some e /\ isLoadingStats s' = false.
Proof.
  intros s' Herr. subst s'.
  rewrite calculateStats_reaches. cbv zeta.
  rewrite Herr. unfold afterWalk.
  cbn [w_totalSize w_largestFile w_firstWalkErr firstOf head].
  match goal with
  | |- context [SetStatsResults ?a ?b ?c ?d ?e] =>
    destruct (SetStatsResults_fields a b c d e) as (Ht & _ & _ & Hl & He & _)
  end.
  cbv zeta in Ht, Hl, He. rewrite Ht, Hl, He. repeat split.
Qed.

(** X20. Whether or not the scan met errors, if it reached files (of sizes that
    are not negative) the largest file it commits is one of them, with its
    path and size, and no reached file is larger. *)
Theorem scan_commits_a_largest_reached_file
    (root : FsNode + error) (git : GitFacts) (s : AppState) :
  let files := rootFiles (cwd s) root in
  let s' := calculateStats getIcon filepath_Base root git s in
  files <> [] ->
  Forall (fun f => 0 <= fileSize f) files ->
  exists path name size,
    In (path, name, size) files /\
    largestFile s' = mkFileInfo name path false size (getIcon name false) /\
    Forall (fun f => fileSize f <= size) files.
Proof.
  intros files s' Hne Hpos. subst s'.
  rewrite calculateStats_reaches. cbv zeta.
  match goal with
  | |- context [SetStatsResults ?a ?b ?c ?d ?e] =>
    destruct (SetStatsResults_fields a b c d e) as (_ & Hlf & _)
  end.
  cbv zeta in Hlf. rewrite Hlf. clear Hlf.
  unfold afterWalk. cbn [w_totalSize w_largestFile w_firstWalkErr].
  fold files.
  destruct (fold_countFile_largest files 0 (mkFileInfo "" "" false (-1) ""))
    as (Hle & Hall & Hwho).
  set (lf := snd (fold_left (countFile getIcon) files
                    (0, mkFileInfo "" "" false (-1) ""))) in *.
  assert (Hsize : 0 <= Size lf).
  { destruct files as [|f fs]; [contradiction|].
    inversion Hpos; subst. inversion Hall; subst. lia. }
  destruct Hwho as [Heq|(path & name & size & Hin & Heq)].
  { rewrite Heq in Hsize. cbn in Hsize. lia. }
  exists path, name, size. split; [exact Hin|].
  assert (Hs : Size lf = size) by (rewrite Heq; reflexivity).
  rewrite Hs in Hall. split; [|exact Hall].
  destruct (Z.eqb_spec (Size lf) (-1)) as [Hm|_]; [lia|].
  destruct (firstOf None (rootErrors root)); exact Heq.
Qed.

(** X21. A scan that reaches no file: without error (an empty tree) it commits
    total size 0 and the zero value as largest file; with an error (such
    as a root that cannot be read) it commits the marker file named
    "Error during scan" with size -2. *)
Theorem scan_that_reaches_no_file
    (root : FsNode + error) (git : GitFacts) (s : AppState) :
  let s' := calculateStats getIcon filepath_Base root git s in
  rootFiles (cwd s) root = [] ->
  (rootErrors root = [] ->
     totalSize s' = 0 /\ largestFile s' = FileInfo_zero /\
     statsError s' = None) /\
  (rootErrors root <> [] ->
     totalSize s' = -2 /\
     largestFile s' = mkFileInfo "Error during scan" "" false (-2) "").
Proof.
  intros s' Hfiles. subst s'.
  rewrite calculateStats_reaches. cbv zeta. rewrite Hfiles.
  unfold afterWalk.
  cbn [fold_left fst snd w_totalSize w_largestFile w_firstWalkErr firstOf].
  match goal with
  | |- context [SetStatsResults ?a ?b ?c ?d ?e] =>
    destruct (SetStatsResults_fields a b c d e) as (Ht & Hlf & _ & _ & He & _)
  end.
  cbv zeta in Ht, Hlf, He. rewrite Ht, Hlf, He. clear Ht Hlf He.
  split.
  - intros ->. repeat split.
  - intros Hne. destruct (rootErrors root) as [|e rest]; [contradiction|].
    repeat split.
Qed.

(** X22. The scanner writes the scan result and nothing else: the lists, the
    viewports, the menu, the viewer, the message and the dialog flags are
    as before, the loading flag is off, and the git status is the one
    derived from the two git queries whatever the walk met. *)
Theorem scanner_writes_only_the_scan_result
    (root : FsNode + error) (git : GitFacts) (s : AppState) :
  let s' := calculateStats getIcon filepath_Base root git s in
  list_part s' = list_part s /\
  overlay_part s' = overlay_part s /\
  dialog_part s' = dialog_part s /\
  isLoadingStats s' = false /\
  gitStatus s' = gitStatusOf git.
Proof.
  intros s'. subst s'. rewrite calculateStats_reaches. cbv zeta.
  match goal with
  | |- context [SetStatsResults ?a ?b ?c ?d ?e] =>
    destruct (SetStatsResults_fields a b c d e)
      as (_ & _ & Hg & Hl & _ & H1 & H2 & H3)
  end.
  cbv zeta in Hg, Hl, H1, H2, H3. rewrite Hg, Hl, H1, H2, H3.
  repeat split.
Qed.

End ScanResults.

(** ** Trimmed error messages *)

Lemma substring_length_le (n : nat) (s : string) :
  (String.length (String.substring 0 n s) <= n)%nat.
Proof.
  revert s. induction n as [|n IH]; intros s.
  - destruct s; cbn; lia.
  - destruct s as [|c s]; cbn [String.substring String.length]; [lia|].
    specialize (IH s). lia.
Qed.

(** The bound on what [trimError] returns. *)
Lemma trimError_is_at_most_60_bytes_aux (err : option error) :
  slen (trimError err) <= 60.
Proof.
  unfold trimError. destruct err as [errMsg|];
    [|unfold slen; cbn [String.length]; lia].
  cbv zeta.
  match goal with
  | |- context [if (slen ?m >? 60) then _ else _] =>
    set (msg := m); destruct (Z.gtb_spec (slen msg) 60) as [Hlong|Hshort]
  end.
  - unfold slen, slice_to. rewrite length_append.
    pose proof (substring_length_le (Z.to_nat (sub 60 3)) msg) as H.
    change (Z.to_nat (sub 60 3)) with 57%nat in *.
    cbn [String.length]. lia.
  - exact Hshort.
Qed.

(** X23. [trimError] never returns more than 60 bytes, whatever the error, and
    the empty text for no error; a message of at most 60 bytes in which
    ": " does not occur is returned as it is. *)
Theorem trimError_is_at_most_60_bytes (err : option error) :
  slen (trimError err) <= 60 /\
  (err = None -> trimError err = "") /\
  (forall errMsg,
     err = Some errMsg -> slen errMsg <= 60 ->
     strings_LastIndex errMsg ": " = -1 ->
     trimError err = errMsg).
Proof.
  split; [apply trimError_is_at_most_60_bytes_aux|]. split.
  - intros ->. reflexivity.
  - intros errMsg -> Hlen Hidx. unfold trimError. rewrite Hidx.
    change (negb (-1 =? -1)) with false. cbn [andb]. cbv zeta.
    destruct (Z.gtb_spec (slen errMsg) 60) as [Hlong|_]; [lia|reflexivity].
Qed.

(** ** Switching the focus *)

(** X24. Tab moves the focus between the two list views and nowhere else.
    While the menu or the viewer is shown [handleFocusSwitch] asks for no
    focus change.  Otherwise it asks for the files view from the folders
    view and for the folders view from the files view, in both directions,
    and for the folders view from no view or any other view. *)
Theorem focus_switch_toggles_between_list_views
    (currentView : option string) (forward : bool) (s : AppState) :
  (isActionMenuVisible s = true \/ isFileContentViewVisible s = true ->
     handleFocusSwitch currentView forward s = None) /\
  (isActionMenuVisible s = false -> isFileContentViewVisible s = false ->
     handleFocusSwitch (Some viewFolders) forward s = Some viewFiles /\
     handleFocusSwitch (Some viewFiles) forward s = Some viewFolders /\
     (currentView <> Some viewFiles ->
        currentView <> Some viewFolders ->
        handleFocusSwitch currentView forward s = Some viewFolders)).
Proof.
  split.
  - intros [H|H]; unfold handleFocusSwitch; rewrite H;
      [reflexivity|now rewrite orb_true_r].
  - intros Hm Hv. unfold handleFocusSwitch. rewrite Hm, Hv. cbn [orb].
    repeat split.
    + destruct forward; vm_compute; reflexivity.
    + destruct forward; vm_compute; reflexivity.
    + intros Hnf Hnd. destruct currentView as [name|]; [|reflexivity].
      cbv zeta. cbn [indexOfView].
      destruct (String.eqb_spec viewFolders name) as [<-|_];
        [contradiction|].
      destruct (String.eqb_spec viewFiles name) as [<-|_];
        [contradiction|].
      reflexivity.
Qed.

(** ** Loading the directory *)

Section LoaderFacts.

Variable getIcon : string -> bool -> string.
Variable strings_ToLower : string -> string.
Variable sort_Slice :
  (FileInfo -> FileInfo -> bool) -> list FileInfo -> list FileInfo.

(** Sorting rearranges a slice; it neither adds nor drops elements. *)
Hypothesis sort_Slice_permutes :
  forall less l, sort_Slice less l ≡ₚ l.

Lemma loadEntry_bucket (os : Listing) (cwd : string) (b : Buckets)
    (name : string) (hidden isDir : bool) (fi : FileInfo) :
  In fi (bucketFor hidden isDir (loadEntry getIcon os cwd b name)) <->
  In fi (bucketFor hidden isDir b) \/
  (os_Lstat os (filepath_Join cwd name) = inl isDir /\
   isHiddenName name = hidden /\ fi = itemOf getIcon cwd name isDir).
Proof.
  unfold loadEntry, itemOf. cbv zeta.
  destruct (os_Lstat os (filepath_Join cwd name)) as [d|e].
  - destruct (isHiddenName name), d, hidden, isDir;
      cbn [bucketFor b_visibleFiles b_visibleDirs b_hiddenFiles b_hiddenDirs];
      rewrite ?in_app_iff; cbn [In]; split;
      intros H; decompose [or and] H; try discriminate; try tauto;
      subst; tauto.
  - split; [tauto|]. intros [H|(H & _)]; [exact H|discriminate].
Qed.

Lemma fold_loadEntry_bucket (os : Listing) (cwd : string)
    (entries : list string) (hidden isDir : bool) (fi : FileInfo) :
  forall b,
    In fi (bucketFor hidden isDir
             (fold_left (loadEntry getIcon os cwd) entries b)) <->
    In fi (bucketFor hidden isDir b) \/
    exists name,
      In name entries /\
      os_Lstat os (filepath_Join cwd name) = inl isDir /\
      isHiddenName name = hidden /\ fi = itemOf getIcon cwd name isDir.
Proof.
  induction entries as [|n entries IH]; intros b; cbn [fold_left].
  - split; [tauto|]. intros [H|(name & [] & _)]. exact H.
  - rewrite IH, loadEntry_bucket. split.
    + intros [[H|H]|(name & Hin & H)].
      * now left.
      * right. exists n. split; [now left|exact H].
      * right. exists name. split; [now right|exact H].
    + intros [H|(name & [<-|Hin] & H)].
      * left. now left.
      * left. now right.
      * right. exists name. split; assumption.
Qed.

Lemma In_sort_Slice (less : FileInfo -> FileInfo -> bool)
    (l : list FileInfo) (fi : FileInfo) :
  In fi (sort_Slice less l) <-> In fi l.
Proof.
  rewrite <- !list_elem_of_In. now rewrite sort_Slice_permutes.
Qed.

(** X25. Each list holds exactly the entries of its kind.  After a load that
    could read the directory, an item is in the list for (hidden, isDir)
    exactly when it was made of an entry name that is hidden or not as the
    list says and that [os.Lstat] reports as a directory or not as the
    list says; entries that cannot be examined are in no list.  The load
    also resets the four viewports and clears the message. *)
Theorem load_puts_each_entry_in_its_list
    (os : Listing) (s : AppState) (entries : list string)
    (hidden isDir : bool) (fi : FileInfo) :
  os_ReadDir os (cwd s) = inl entries ->
  let s' :=
    loadDirectoryContents getIcon strings_ToLower sort_Slice os s in
  (In fi (listFor hidden isDir s') <->
   exists name,
     In name entries /\
     os_Lstat os (filepath_Join (cwd s) name) = inl isDir /\
     isHiddenName name = hidden /\
     fi = itemOf getIcon (cwd s) name isDir) /\
  scrolls_reset s' /\
  lastMessage s' = "".
Proof.
  intros Hread s'. subst s'. unfold loadDirectoryContents. cbv zeta.
  change (cwd (ClearMessage s)) with (cwd s). rewrite Hread.
  split; [|split; [intros p; destruct p; split; reflexivity|reflexivity]].
  pose proof (fold_loadEntry_bucket os (cwd s) entries hidden isDir fi
                (mkBuckets [] [] [] [])) as H.
  assert (Hnil : ~ In fi (bucketFor hidden isDir (mkBuckets [] [] [] [])))
    by (destruct hidden, isDir; intros []).
  destruct hidden, isDir;
    cbn [listFor SetDirectoryContents reset_scrolls];
    cbn [bucketFor] in H;
    match goal with
    | |- In fi ?l <-> _ =>
      let l' := eval cbn in l in change l with l'
    end;
    rewrite In_sort_Slice, H; tauto.
Qed.

(** X26. A directory that cannot be read: the lists and the viewports stay as
    they were and the message reports the error, trimmed. *)
Theorem load_of_unreadable_directory
    (os : Listing) (s : AppState) (err : error) :
  os_ReadDir os (cwd s) = inr err ->
  let s' :=
    loadDirectoryContents getIcon strings_ToLower sort_Slice os s in
  list_part s' = list_part s /\
  lastMessage s' = "Error reading dir: " +:+ trimError (Some err) /\
  slen (lastMessage s') <= 79.
Proof.
  intros Hread s'. subst s'. unfold loadDirectoryContents. cbv zeta.
  change (cwd (ClearMessage s)) with (cwd s). rewrite Hread.
  repeat split.
  change (slen ("Error reading dir: " +:+ trimError (Some err)) <= 79).
  pose proof (trimError_is_at_most_60_bytes_aux (Some err)) as H.
  unfold slen in *. rewrite length_append. cbn [String.length]. lia.
Qed.

End LoaderFacts.

(** ** A failing action *)

(** Whether an action fails does not depend on the menu being open. *)
Lemma callAction_error_after_close (env : Collaborators) (fn : Action)
    (item : FileInfo) (s : AppState) :
  snd (callAction env fn item (CloseActionMenu s))
    = snd (callAction env fn item s).
Proof.
  destruct fn; cbn [callAction]; try reflexivity.
  - unfold copyRelativePath.
    change (cwd (CloseActionMenu s)) with (cwd s).
    destruct (filepath_Rel env (cwd s) (Path item)); reflexivity.
  - unfold viewFileContentAction. destruct (IsDir item); [reflexivity|].
    destruct (ReadFileWithLimit env (Path item) maxViewSize)
      as [[bytes|]|err]; try reflexivity.
    destruct (hasNullByte bytes); reflexivity.
  - unfold copyContent. destruct (IsDir item); [reflexivity|].
    destruct (ReadFileWithLimit env (Path item) maxCopySize) as [[c|]|err];
      reflexivity.
Qed.

(** X27. A failing action is reported and opens nothing.  When the function of
    the selected option returns an error, [handleMenuSelect] leaves as
    message the trimmed text of "Error: <label> - <error>", of at most 60
    bytes, and the viewer is as it was before. *)
Theorem failed_action_is_reported
    (env : Collaborators) (s : AppState) (opt : ActionMenuItem)
    (fn : Action) (err : error) :
  0 <= actionMenuSelectedIdx s ->
  actionMenuOptions s !! Z.to_nat (actionMenuSelectedIdx s) = Some opt ->
  ActionFn opt = Some fn ->
  snd (callAction env fn (actionMenuItemTarget s) s) = Some err ->
  let s' := handleMenuSelect env s in
  lastMessage s'
    = trimError
        (Some (fmt_Errorf env ("Error: " +:+ Label opt +:+ " - " +:+ err))) /\
  slen (lastMessage s') <= 60 /\
  isFileContentViewVisible s' = isFileContentViewVisible s /\
  fileContentViewContent s' = fileContentViewContent s /\
  fileContentViewPrevFocus s' = fileContentViewPrevFocus s.
Proof.
  intros Hpos Hopt Hfn Herr s'.
  assert (Hmsg : lastMessage s'
                 = trimError
                     (Some (fmt_Errorf env
                              ("Error: " +:+ Label opt +:+ " - " +:+ err)))
                 /\ isFileContentViewVisible s' = isFileContentViewVisible s
                 /\ fileContentViewContent s' = fileContentViewContent s
                 /\ fileContentViewPrevFocus s' = fileContentViewPrevFocus s).
  { subst s'. unfold handleMenuSelect.
    pose proof (lookup_lt_Some _ _ _ Hopt) as Hlt.
    destruct (Z.ltb_spec (actionMenuSelectedIdx s) 0) as [Hneg|_]; [lia|].
    rewrite Z.geb_leb.
    destruct (Z.leb_spec (len (actionMenuOptions s))
                (actionMenuSelectedIdx s)) as [Hge|_];
      [unfold len in Hge; lia|].
    cbn [orb]. rewrite Hopt. cbv zeta. rewrite Hfn.
    destruct (String.eqb (Label opt) "View Content"); cbn [negb].
    - destruct (callAction_state env fn (actionMenuItemTarget s) s)
        as [Hst|(Hnone & _)]; [|congruence].
      destruct (callAction env fn (actionMenuItemTarget s) s) as [s1 e].
      cbn [fst snd] in Hst, Herr. subst s1 e. cbn [andb].
      destruct (isActionMenuVisible (SetMessage _ s));
        repeat split; reflexivity.
    - pose proof (callAction_error_after_close env fn
                    (actionMenuItemTarget s) s) as Hsame.
      rewrite Herr in Hsame.
      destruct (callAction_state env fn (actionMenuItemTarget s)
                  (CloseActionMenu s)) as [Hst|(Hnone & _)]; [|congruence].
      destruct (callAction env fn (actionMenuItemTarget s)
                  (CloseActionMenu s)) as [s1 e].
      cbn [fst snd] in Hst, Hsame. subst s1 e. cbn [andb].
      repeat split; reflexivity. }
  destruct Hmsg as (Hm & Hrest). split; [exact Hm|]. split; [|exact Hrest].
  rewrite Hm. apply trimError_is_at_most_60_bytes_aux.
Qed.

(** ** The cursor arithmetic *)

Lemma add_overflow (c delta : Z) :
  0 <= c <= max_int -> delta <= max_int -> max_int < c + delta ->
  add c delta = c + delta - 2 ^ 64.
Proof.
  intros Hc Hd Hover. unfold add, wrap. rewrite max_int_val in *.
  replace (c + delta + 2 ^ 63) with (c + delta - 2 ^ 63 + 1 * 2 ^ 64) by lia.
  rewrite Z.mod_add by lia. rewrite Z.mod_small by lia. lia.
Qed.

(** X28. Where the cursor goes.  From a valid cursor, when [cursor + delta]
    fits the integer type the new cursor is that sum clamped to the list,
    [max 0 (min (length - 1) (cursor + delta))]; when the sum exceeds the
    largest [int] it wraps to a negative number, and the cursor lands on
    the first index, not on the last. *)
Theorem move_cursor_arithmetic
    (viewName : string) (delta height : Z) (s : AppState) (p : Slot) :
  selectSlot viewName (showHidden s) = Some p ->
  len (slotList p s) <= max_int ->
  0 <= getCursorY p s < len (slotList p s) ->
  min_int <= delta <= max_int ->
  let cursor' :=
    getCursorY p (fst (moveCursorAndOrigin viewName delta height s)) in
  (getCursorY p s + delta <= max_int ->
     cursor' = Z.max 0 (Z.min (len (slotList p s) - 1)
                              (getCursorY p s + delta))) /\
  (max_int < getCursorY p s + delta -> cursor' = 0).
Proof.
  intros Hsel Hlen Hc Hd cursor'. subst cursor'.
  rewrite (moveCursorAndOrigin_eq viewName delta height s p Hsel) by lia.
  cbn [fst]. rewrite getCursorY_store. split.
  - intros Hsum. apply moveBy_cursor; [lia|].
    rewrite min_int_val, max_int_val in *. lia.
  - intros Hover. unfold moveBy, clampCursor. cbv zeta. cbn [fst].
    rewrite add_overflow by lia. rewrite max_int_val in *.
    destruct (Z.ltb_spec (getCursorY p s + delta - 2 ^ 64) 0) as [_|H];
      [|lia].
    rewrite Z.geb_leb.
    destruct (Z.leb_spec (len (slotList p s)) 0); [lia|reflexivity].
Qed.

(** X29. The page keys of the list views move the cursor by one line less than
    the height of the view, and by at least one line, clamped to the list;
    so consecutive pages overlap by one line. *)
Theorem page_keys_move_by_height_minus_one
    (v : View) (s : AppState) (p : Slot) :
  selectSlot (v_Name v) (showHidden s) = Some p ->
  1 <= v_Height v ->
  len (slotList p s) + v_Height v <= max_int ->
  0 <= getCursorY p s < len (slotList p s) ->
  let page := Z.max 1 (v_Height v - 1) in
  getCursorY p (pageMoveKey 1 v s)
    = Z.min (len (slotList p s) - 1) (getCursorY p s + page) /\
  getCursorY p (pageMoveKey (-1) v s) = Z.max 0 (getCursorY p s - page).
Proof.
  intros Hsel Hh Hfit Hc page. subst page.
  unfold pageMoveKey, handleMoveCursor. cbv zeta.
  rewrite !(moveCursorAndOrigin_eq _ _ _ s p Hsel) by lia.
  cbn [fst]. rewrite !getCursorY_store.
  split.
  - rewrite moveBy_cursor.
    + unfold mul. crunch; lia.
    + lia.
    + unfold mul. rewrite min_int_val, max_int_val in *. crunch; lia.
  - rewrite moveBy_cursor.
    + unfold mul. crunch; lia.
    + lia.
    + unfold mul. rewrite min_int_val, max_int_val in *. crunch; lia.
Qed.

(** ** Viewing a file and coming back *)





(** ** The properties above on sample inputs *)

(** Settles a closed goal by evaluation. *)
Ltac by_evaluation :=
  vm_compute;
  repeat split;
  first [ reflexivity
        | discriminate
        | let H := fresh in intros H; first [discriminate H | exact H] ].

Lemma move_inside_window_does_not_scroll_witness :
  getCursorY VisibleFiles
    (fst (moveCursorAndOrigin viewFiles (-1) 3 fiveFilesState)) = 1 /\
  getOriginY VisibleFiles
    (fst (moveCursorAndOrigin viewFiles (-1) 3 fiveFilesState)) = 0.
Proof.
  apply (move_inside_window_does_not_scroll viewFiles (-1) 3 fiveFilesState
           VisibleFiles).
  - reflexivity.
  - by_evaluation.
  - by_evaluation.
  - unfold slot_inv, viewport_inv. by_evaluation.
  - by_evaluation.
  - by_evaluation.
Defined.

Lemma jump_inside_window_does_not_scroll_witness :
  getCursorY VisibleFiles
    (fst (setCursorAndOrigin viewFiles 1 3 fiveFilesState)) = 1 /\
  getOriginY VisibleFiles
    (fst (setCursorAndOrigin viewFiles 1 3 fiveFilesState)) = 0.
Proof.
  apply (jump_inside_window_does_not_scroll viewFiles 1 3 fiveFilesState
           VisibleFiles).
  - reflexivity.
  - by_evaluation.
  - by_evaluation.
  - unfold slot_inv, viewport_inv. by_evaluation.
  - by_evaluation.
  - by_evaluation.
Defined.

Lemma go_top_and_bottom_witness :
  (getCursorY VisibleFiles (handleGoTopBottom (Some filesView) true
                              fiveFilesState) = 0 /\
   getOriginY VisibleFiles (handleGoTopBottom (Some filesView) true
                              fiveFilesState) = 0) /\
  (getCursorY VisibleFiles (handleGoTopBottom (Some filesView) false
                              fiveFilesState) = 4 /\
   getOriginY VisibleFiles (handleGoTopBottom (Some filesView) false
                              fiveFilesState) = 2).
Proof.
  apply (go_top_and_bottom filesView fiveFilesState VisibleFiles).
  - reflexivity.
  - by_evaluation.
  - by_evaluation.
  - unfold slot_inv, viewport_inv. by_evaluation.
Defined.

Lemma move_cursor_arithmetic_witness :
  getCursorY VisibleFiles
    (fst (moveCursorAndOrigin viewFiles 7 3 fiveFilesState)) = 4 /\
  getCursorY VisibleFiles
    (fst (moveCursorAndOrigin viewFiles max_int 3 fiveFilesState)) = 0.
Proof.
  split.
  - apply (move_cursor_arithmetic viewFiles 7 3 fiveFilesState VisibleFiles);
      [reflexivity|by_evaluation..].
  - apply (move_cursor_arithmetic viewFiles max_int 3 fiveFilesState
             VisibleFiles); [reflexivity|by_evaluation..].
Defined.

Lemma page_keys_move_by_height_minus_one_witness :
  getCursorY VisibleFiles (pageMoveKey 1 filesView fiveFilesState) = 4 /\
  getCursorY VisibleFiles (pageMoveKey (-1) filesView fiveFilesState) = 0.
Proof.
  apply (page_keys_move_by_height_minus_one filesView fiveFilesState
           VisibleFiles); [reflexivity|by_evaluation..].
Defined.

Lemma ToggleHidden_twice_witness :
  fst (ToggleHidden (fst (ToggleHidden (NewAppState "/tmp"))))
    = NewAppState "/tmp".
Proof.
  apply (ToggleHidden_twice (NewAppState "/tmp")).
  intros p. destruct p; split; reflexivity.
Defined.

Lemma ScrollFileContentView_clamps_witness :
  0 <= fileContentViewOriginY (ScrollFileContentView 100 4 viewerAtThree)
    <= 6 /\
  fileContentViewOriginY (ScrollFileContentView 2 4 viewerAtThree) = 5.
Proof.
  assert (Ht : 0 <= fileContentViewTotalLines viewerAtThree <= max_int)
    by by_evaluation.
  assert (Hh : 0 <= 4 <= max_int) by by_evaluation.
  split.
  - apply (ScrollFileContentView_clamps 100 4 viewerAtThree Ht Hh).
    reflexivity.
  - apply (ScrollFileContentView_clamps 2 4 viewerAtThree Ht Hh).
    + reflexivity.
    + by_evaluation.
Defined.

Lemma viewer_jumps_to_top_and_bottom_witness :
  fileContentViewOriginY
    (handleScrollFileContentView (Some viewerView) (-10) true viewerAtThree)
    = 0.
Proof.
  apply (viewer_jumps_to_top_and_bottom viewerView (-10) true viewerAtThree);
    [reflexivity|by_evaluation..].
Defined.

Lemma viewer_keys_scroll_witness :
  fileContentViewOriginY (viewerTopKey viewerView viewerAtThree) = 0 /\
  fileContentViewOriginY (viewerBottomKey viewerView viewerAtThree) = 6 /\
  fileContentViewOriginY (viewerPageKey false viewerView viewerAtThree) = 6 /\
  fileContentViewOriginY (viewerPageKey true viewerView viewerAtThree) = 0.
Proof.
  apply (viewer_keys_scroll viewerView viewerAtThree);
    [reflexivity|by_evaluation..].
Defined.

Lemma NavigateActionMenu_index_is_valid_witness :
  0 <= actionMenuSelectedIdx (NavigateActionMenu 1000 threeOptionsState) < 3.
Proof.
  apply (NavigateActionMenu_index_is_valid 1000 threeOptionsState);
    [reflexivity|by_evaluation].
Defined.

Lemma NavigateActionMenu_steps_cancel_witness :
  NavigateActionMenu (-1) (NavigateActionMenu 1 threeOptionsState)
    = threeOptionsState /\
  NavigateActionMenu 1 (NavigateActionMenu (-1) threeOptionsState)
    = threeOptionsState.
Proof.
  apply (NavigateActionMenu_steps_cancel threeOptionsState);
    [reflexivity|by_evaluation..].
Defined.

Lemma cancel_is_close_witness :
  handleMenuSelect sampleEnv
    (navigateMenu [-1]
       (OpenActionMenu sampleFile fileMenu viewFiles fiveFilesState))
  = handleMenuClose
      (navigateMenu [-1]
         (OpenActionMenu sampleFile fileMenu viewFiles fiveFilesState)).
Proof.
  apply (cancel_is_close sampleEnv sampleFile fileMenu viewFiles [-1]
           fiveFilesState); [by_evaluation|reflexivity].
Defined.

Lemma viewed_content_has_no_tab_and_no_null_witness :
  fileContentViewContent
    (fst (viewFileContentAction sampleEnv sampleFile fiveFilesState))
    = "a    b" /\
  ~ has_byte
      (fileContentViewContent
         (fst (viewFileContentAction sampleEnv sampleFile fiveFilesState)))
      TAB.
Proof.
  split; [reflexivity|].
  destruct (viewed_content_has_no_tab_and_no_null sampleEnv sampleFile
              fiveFilesState eq_refl) as [H _].
  exact H.
Defined.




Lemma failed_action_is_reported_witness :
  lastMessage (handleMenuSelect sampleEnv docsMenuAtView)
    = "View Content - cannot view content of a directory" /\
  isFileContentViewVisible (handleMenuSelect sampleEnv docsMenuAtView)
    = false.
Proof.
  assert (Hpos : 0 <= actionMenuSelectedIdx docsMenuAtView) by by_evaluation.
  destruct (failed_action_is_reported sampleEnv docsMenuAtView
              (mkActionMenuItem "View Content" (Some viewFileContentActionFn))
              viewFileContentActionFn "cannot view content of a directory"
              Hpos eq_refl eq_refl eq_refl) as (H1 & _ & H2 & _).
  split; [exact H1|exact H2].
Defined.



Lemma trimError_is_at_most_60_bytes_witness :
  trimError (Some "clipboard unavailable") = "clipboard unavailable".
Proof.
  destruct (trimError_is_at_most_60_bytes (Some "clipboard unavailable"))
    as (_ & _ & H).
  apply H; [reflexivity|by_evaluation|reflexivity].
Defined.

Lemma focus_switch_toggles_between_list_views_witness :
  handleFocusSwitch (Some viewFolders) true fiveFilesState = Some viewFiles /\
  handleFocusSwitch (Some viewFiles) true fiveFilesState = Some viewFolders /\
  handleFocusSwitch (Some viewActionMenu) true fiveFilesState
    = Some viewFolders.
Proof.
  destruct (focus_switch_toggles_between_list_views (Some viewActionMenu)
              true fiveFilesState) as [_ H].
  destruct (H eq_refl eq_refl) as (H1 & H2 & H3).
  split; [exact H1|]. split; [exact H2|].
  apply H3; discriminate.
Defined.

Lemma scan_without_error_totals_all_files_witness :
  totalSize
    (calculateStats (fun _ _ => "") (fun p => p) readableTree noGit
       (NewAppState "/tmp")) = 2510.
Proof.
  assert (Hpos : Forall (fun f => 0 <= fileSize f)
                   (rootFiles (cwd (NewAppState "/tmp")) readableTree)).
  { vm_compute. repeat (constructor; [by_evaluation|]). constructor. }
  assert (Hsum : sumSizes (rootFiles (cwd (NewAppState "/tmp")) readableTree)
                 <= max_int) by by_evaluation.
  destruct (scan_without_error_totals_all_files (fun _ _ => "") (fun p => p)
              readableTree noGit (NewAppState "/tmp") eq_refl Hpos Hsum)
    as [H _].
  exact H.
Defined.

Lemma scan_with_errors_commits_first_error_witness :
  totalSize
    (calculateStats (fun _ _ => "") (fun p => p) brokenTree noGit
       (NewAppState "/tmp")) = -2 /\
  statsError
    (calculateStats (fun _ _ => "") (fun p => p) brokenTree noGit
       (NewAppState "/tmp")) = Some "info for gone.txt: no such file".
Proof.
  destruct (scan_with_errors_commits_first_error (fun _ _ => "") (fun p => p)
              brokenTree noGit (NewAppState "/tmp")
              "info for gone.txt: no such file"
              ["accessing locked: permission denied"] eq_refl)
    as (H1 & H2 & _).
  split; [exact H1|exact H2].
Defined.

Lemma scan_commits_a_largest_reached_file_witness :
  exists path name size,
    In (path, name, size) (rootFiles "/tmp" brokenTree) /\
    largestFile
      (calculateStats (fun _ _ => "") (fun p => p) brokenTree noGit
         (NewAppState "/tmp"))
      = mkFileInfo name path false size "" /\
    Forall (fun f => fileSize f <= size) (rootFiles "/tmp" brokenTree).
Proof.
  apply (scan_commits_a_largest_reached_file (fun _ _ => "") (fun p => p)
           brokenTree noGit (NewAppState "/tmp")).
  - discriminate.
  - vm_compute. repeat (constructor; [by_evaluation|]). constructor.
Defined.

Lemma scan_that_reaches_no_file_witness :
  totalSize
    (calculateStats (fun _ _ => "") (fun p => p) (inr "permission denied")
       noGit (NewAppState "/tmp")) = -2 /\
  largestFile
    (calculateStats (fun _ _ => "") (fun p => p) (inr "permission denied")
       noGit (NewAppState "/tmp"))
    = mkFileInfo "Error during scan" "" false (-2) "".
Proof.
  destruct (scan_that_reaches_no_file (fun _ _ => "") (fun p => p)
              (inr "permission denied") noGit (NewAppState "/tmp") eq_refl)
    as [_ H].
  apply H. discriminate.
Defined.

Lemma load_puts_each_entry_in_its_list_witness :
  In (mkFileInfo ".git" "/tmp/.git" true 0 "")
    (hiddenDirs
       (loadDirectoryContents (fun _ _ => "") (fun x => x) (fun _ l => l)
          sampleListing (NewAppState "/tmp"))) /\
  ~ In (mkFileInfo "ghost" "/tmp/ghost" false 0 "")
      (visibleFiles
         (loadDirectoryContents (fun _ _ => "") (fun x => x) (fun _ l => l)
            sampleListing (NewAppState "/tmp"))).
Proof.
  assert (Hsort : forall (less : FileInfo -> FileInfo -> bool)
                         (l : list FileInfo), l ≡ₚ l)
    by (intros _ l; reflexivity).
  split.
  - destruct (load_puts_each_entry_in_its_list (fun _ _ => "") (fun x => x)
                (fun _ l => l) Hsort sampleListing (NewAppState "/tmp")
                [".git"; ".env"; "main.go"; "docs"; "ghost"] true true
                (mkFileInfo ".git" "/tmp/.git" true 0 "") eq_refl)
      as [[_ H] _].
    apply H. exists ".git".
    split; [now left|]. split; [reflexivity|]. split; reflexivity.
  - destruct (load_puts_each_entry_in_its_list (fun _ _ => "") (fun x => x)
                (fun _ l => l) Hsort sampleListing (NewAppState "/tmp")
                [".git"; ".env"; "main.go"; "docs"; "ghost"] false false
                (mkFileInfo "ghost" "/tmp/ghost" false 0 "") eq_refl)
      as [[H _] _].
    intros Hin. destruct (H Hin) as (name & Hname & Hstat & _ & Hfi).
    injection Hfi as <- _. vm_compute in Hstat. discriminate Hstat.
Defined.

Lemma load_of_unreadable_directory_witness :
  lastMessage
    (loadDirectoryContents (fun _ _ => "") (fun x => x) (fun _ l => l)
       sampleListing (NewAppState "/nowhere"))
    = "Error reading dir: no such directory".
Proof.
  destruct (load_of_unreadable_directory (fun _ _ => "") (fun x => x)
              (fun _ l => l) sampleListing (NewAppState "/nowhere")
              "no such directory" eq_refl) as (_ & H & _).
  exact H.
Defined.
